(** * Participation-filtering pipeline of web-qms: a shallow embedding

    The development embeds the Intercom proxy edge function
    (fetchConversationWithParts, hasAdminParticipation and the
    conversations branch of serve) and the client-side progressive loader
    (fetchConversationsProgressively, loadConversations), and proves the
    properties of the specification about them.

    Conventions of the embedding:
    - a JavaScript value is a [jsval]; numbers are the mathematical
      integers (fractions, the rounding of doubles above 2^53 and the
      exponent notation of String(n) from 10^21 on are outside the
      model); strings are byte strings, and only the ASCII white space
      is white space to parseInt;
    - code that may throw runs in the [outcome] monad; try/catch is
      [try_catch];
    - platform built-ins whose result the source only passes on
      (Date parsing, toISOString, the network) are parameters. *)

From Stdlib Require Import ZArith List String Ascii Bool Lia DecimalString.
Import ListNotations.
Set Warnings "-register-all".
Local Open Scope string_scope.
Local Open Scope Z_scope.

(* ================================================================== *)
(** ** JavaScript values *)

Module JS.

Inductive jsval : Type :=
| JUndefined
| JNull
| JBool (b : bool)
| JNum (n : Z)
| JStr (s : string)
| JArr (elems : list jsval)
| JObj (fields : list (string * jsval)).

(** Exceptions the modelled code can raise. *)
Inductive exn : Type :=
| TypeError                 (* property read on null or undefined, call of a non-function *)
| RangeError                (* toISOString on an invalid date *)
| NetworkError              (* fetch() rejected *)
| BodyError                 (* response.text() or response.json() rejected *)
| Error (msg : string).     (* throw new Error(msg) *)

(** Result of running code that may throw; [OutOfFuel] is the result of
    a loop that was given too few iterations, and is shown unreachable
    for the loops of the program. *)
Inductive outcome (A : Type) : Type :=
| Ok (a : A)
| Throw (e : exn)
| OutOfFuel.
Arguments Ok {A} a.
Arguments Throw {A} e.
Arguments OutOfFuel {A}.

Definition bind {A B} (m : outcome A) (k : A -> outcome B) : outcome B :=
  match m with
  | Ok a => k a
  | Throw e => Throw e
  | OutOfFuel => OutOfFuel
  end.

(** try { body } catch (e) { handler e } *)
Definition try_catch {A} (body : outcome A) (handler : exn -> outcome A) : outcome A :=
  match body with
  | Throw e => handler e
  | r => r
  end.

Definition nullish (v : jsval) : bool :=
  match v with JUndefined | JNull => true | _ => false end.

(** ToBoolean. *)
Definition truthy (v : jsval) : bool :=
  match v with
  | JUndefined | JNull => false
  | JBool b => b
  | JNum n => negb (n =? 0)
  | JStr s => negb (s =? "")%string
  | JArr _ | JObj _ => true
  end.

Definition isArray (v : jsval) : bool :=
  match v with JArr _ => true | _ => false end.

Definition elems_of (v : jsval) : list jsval :=
  match v with JArr l => l | _ => [] end.

(** Own property of an object literal or parsed object: the last
    binding of a key wins, as in JSON.parse and in an object literal
    with a spread. *)
Fixpoint lookup (k : string) (fs : list (string * jsval)) : option jsval :=
  match fs with
  | [] => None
  | (k', v) :: rest =>
      match lookup k rest with
      | Some v' => Some v'
      | None => if (k =? k')%string then Some v else None
      end
  end.

(** [v.k] for the data keys the program reads (none of them is a
    built-in property of a string, array, number or boolean). *)
Definition get (v : jsval) (k : string) : outcome jsval :=
  match v with
  | JUndefined | JNull => Throw TypeError
  | JObj fs => Ok (match lookup k fs with Some x => x | None => JUndefined end)
  | _ => Ok JUndefined
  end.

(** [v?.k] *)
Definition get_opt (v : jsval) (k : string) : jsval :=
  match v with
  | JObj fs => match lookup k fs with Some x => x | None => JUndefined end
  | _ => JUndefined
  end.

(** [a || b] *)
Definition js_or (a b : jsval) : jsval := if truthy a then a else b.

Definition Z_to_string (x : Z) : string := NilEmpty.string_of_int (Z.to_int x).

Fixpoint join (sep : string) (l : list string) : string :=
  match l with
  | [] => ""
  | [x] => x
  | x :: rest => x ++ sep ++ join sep rest
  end.

(** String(v) *)
Fixpoint js_String (v : jsval) : string :=
  match v with
  | JUndefined => "undefined"
  | JNull => "null"
  | JBool true => "true"
  | JBool false => "false"
  | JNum n => Z_to_string n
  | JStr s => s
  | JArr l =>
      join "," (map (fun x => if nullish x then "" else js_String x) l)
  | JObj _ => "[object Object]"
  end.

(** *** parseInt(s, 10) *)

Definition is_ws (c : ascii) : bool :=
  let n := nat_of_ascii c in
  ((9 <=? n) && (n <=? 13))%nat || (n =? 32)%nat.

Definition digit_of (c : ascii) : option Z :=
  let n := nat_of_ascii c in
  if ((48 <=? n) && (n <=? 57))%nat then Some (Z.of_nat n - 48) else None.

Fixpoint skip_ws (s : string) : string :=
  match s with
  | String c rest => if is_ws c then skip_ws rest else s
  | EmptyString => EmptyString
  end.

(** Longest prefix of decimal digits; [None] when it is empty. *)
Fixpoint digits (s : string) (acc : option Z) : option Z :=
  match s with
  | String c rest =>
      match digit_of c with
      | Some d => digits rest (Some (10 * (match acc with Some a => a | None => 0 end) + d))
      | None => acc
      end
  | EmptyString => acc
  end.

(** [None] is NaN. *)
Definition parseInt (s : string) : option Z :=
  match skip_ws s with
  | String "-" rest => option_map Z.opp (digits rest None)
  | String "+" rest => digits rest None
  | t => digits t None
  end.

End JS.
Import JS.

Notation "x <- m ;; k" := (bind m (fun x => k))
  (at level 61, m at next level, right associativity).

Definition MAX_CONVERSATIONS : nat := 150.
Definition EDGE_FUNCTION_TIMEOUT : Z := 60000.
Definition BATCH_SIZE : nat := 10.

(* ================================================================== *)
(** ** Participation Evaluator (hasAdminParticipation) *)

(** Value of the local [partTimestamp]. *)
Inductive tsval : Type :=
| TsNull
| TsNaN
| TsNum (t : Z).

(** !partTimestamp *)
Definition ts_falsy (t : tsval) : bool :=
  match t with
  | TsNum z => z =? 0
  | _ => true
  end.

Record participation : Type := mkParticipation {
  hasParticipation : bool;
  partCount : Z
}.

Section Evaluator.

(** [new Date(v).getTime()] for a truthy non-number [v], in
    milliseconds; [None] is NaN (an invalid date). *)
Variable Date_getTime : jsval -> option Z.

(** Lines 56-65: the parts array, under the three upstream shapes. *)
Definition extract_parts (conversation : jsval) : outcome (list jsval) :=
  cp <- get conversation "conversation_parts" ;;
  if truthy cp then
    if isArray cp then Ok (elems_of cp)
    else
      inner <- get cp "conversation_parts" ;;
      if truthy inner && isArray inner then Ok (elems_of inner)
      else
        ps <- get cp "parts" ;;
        if truthy ps && isArray ps then Ok (elems_of ps)
        else Ok []
  else Ok [].

(** Lines 77-86: the normalized timestamp of a part. *)
Definition partTimestamp (part : jsval) : outcome tsval :=
  created_at <- get part "created_at" ;;
  if truthy created_at then
    match created_at with
    | JNum n =>
        Ok (TsNum (if n <? 10000000000 then n else n / 1000))
    | _ =>
        Ok (match Date_getTime created_at with
            | Some ms => TsNum (ms / 1000)
            | None => TsNaN
            end)
    end
  else Ok TsNull.

(** Line 97. *)
Definition isTargetAdmin (authorId adminId : string) : bool :=
  let adminIdStr := adminId in
  let adminIdNum := parseInt adminId in
  let authorIdNum := parseInt authorId in
  (authorId =? adminIdStr)%string
  || match adminIdNum, authorIdNum with
     | Some a, Some b => b =? a
     | _, _ => false
     end.

(** One turn of the loop of lines 69-103: [true] when the part is
    counted, [false] when it is passed over. *)
Definition part_counts (adminId : string) (startTimestamp endTimestamp : Z)
    (part : jsval) : outcome bool :=
  a <- get part "author" ;;
  let author := js_or a (JObj []) in
  authorType <- get author "type" ;;
  aid <- get author "id" ;;
  let authorId := if truthy aid then JStr (js_String aid) else JNull in
  if negb (truthy authorId) then Ok false
  else
    ts <- partTimestamp part ;;
    if ts_falsy ts then Ok false
    else
      let isAdmin :=
        match authorType with JStr t => (t =? "admin")%string | _ => false end in
      let target := isTargetAdmin (js_String authorId) adminId in
      let isInDateRange :=
        match ts with
        | TsNum t => (startTimestamp <=? t) && (t <=? endTimestamp)
        | _ => false
        end in
      Ok (isAdmin && target && isInDateRange).

Fixpoint count_parts (adminId : string) (startTimestamp endTimestamp : Z)
    (parts : list jsval) (partCount : Z) : outcome Z :=
  match parts with
  | [] => Ok partCount
  | part :: rest =>
      c <- part_counts adminId startTimestamp endTimestamp part ;;
      count_parts adminId startTimestamp endTimestamp rest
        (if c then partCount + 1 else partCount)
  end.

Definition hasAdminParticipation (conversation : jsval) (adminId : string)
    (startTimestamp endTimestamp : Z) : outcome participation :=
  parts <- extract_parts conversation ;;
  partCount <- count_parts adminId startTimestamp endTimestamp parts 0 ;;
  Ok (mkParticipation (0 <? partCount) partCount).

End Evaluator.

(** A parser that knows no date, and one that knows the epoch: enough
    to run the evaluator on parts with numeric timestamps. *)
Definition no_dates : jsval -> option Z := fun _ => None.

Definition obj (fs : list (string * jsval)) : jsval := JObj fs.

Definition mk_part (type : string) (id created_at : jsval) : jsval :=
  obj [("author", obj [("type", JStr type); ("id", id)]);
       ("created_at", created_at)].

(** The scenario of the specification: two parts by the admin inside
    the window (one stamped in milliseconds, with a numeric id) and one
    by a bot. *)
Definition scenario_parts : list jsval :=
  [mk_part "admin" (JStr "8742044") (JNum 1762748354);
   mk_part "bot" (JStr "8742044") (JNum 1762748400);
   mk_part "admin" (JNum 8742044) (JNum 1762748805000)].

Definition scenario_conversation : jsval :=
  obj [("id", JStr "215471689565896");
       ("conversation_parts", obj [("conversation_parts", JArr scenario_parts)])].


(* ================================================================== *)
(** ** The network *)

(** An HTTP response as the program uses it: [text] and [json] are the
    results of [response.text()] and [response.json()], [None] when the
    promise rejects (broken stream, body that is not JSON). *)
Record http_response : Type := mkResponse {
  ok : bool;
  status : Z;
  text : option string;
  json : option jsval
}.

(** Result of [await fetch(url)]. *)
Inductive fetch_result : Type :=
| Rejected
| Resolved (r : http_response).

Definition await_fetch (r : fetch_result) : outcome http_response :=
  match r with
  | Rejected => Throw NetworkError
  | Resolved resp => Ok resp
  end.

Definition await_text (r : http_response) : outcome string :=
  match text r with Some t => Ok t | None => Throw BodyError end.

Definition await_json (r : http_response) : outcome jsval :=
  match json r with Some d => Ok d | None => Throw BodyError end.

(* ================================================================== *)
(** ** Conversation Fetcher (fetchConversationWithParts) *)

Definition INTERCOM_API_BASE : string := "https://api.intercom.io".

Definition conversation_url (conversationId : jsval) : string :=
  INTERCOM_API_BASE ++ "/conversations/" ++ js_String conversationId
    ++ "?display_as=plaintext".

Section Fetcher.

(** The upstream API: what [fetch] gives for a URL. *)
Variable fetch : string -> fetch_result.

Definition fetchConversationWithParts (conversationId : jsval) : outcome jsval :=
  try_catch
    (let url := conversation_url conversationId in
     response <- await_fetch (fetch url) ;;
     if negb (ok response) then
       errorText <- await_text response ;;
       Ok JNull
     else
       data <- await_json response ;;
       (* if (!data.conversation_parts) console.warn(...) *)
       conversation_parts <- get data "conversation_parts" ;;
       Ok data)
    (fun error => Ok JNull).

End Fetcher.

(* ================================================================== *)
(** ** Search/Discovery stage and Batch Orchestrator (serve) *)

(** Request-scoped accumulators of lines 292-295. *)
Record progress : Type := mkProgress {
  conversationsWithParticipation : list jsval;
  totalParticipationCount : Z;
  processedCount : Z;
  errorCount : Z
}.

(** [new Response(JSON.stringify(body), { status })]. *)
Record reply : Type := mkReply {
  reply_status : Z;
  reply_body : jsval
}.

Fixpoint indexed (i : nat) (l : list jsval) : list (string * jsval) :=
  match l with
  | [] => []
  | x :: rest => (Z_to_string (Z.of_nat i), x) :: indexed (S i) rest
  end.

(** Own enumerable properties copied by [...v] in an object literal. *)
Definition spread (v : jsval) : list (string * jsval) :=
  match v with
  | JObj fs => fs
  | JArr l => indexed 0 l
  | JStr s => indexed 0 (map (fun c => JStr (String c "")) (list_ascii_of_string s))
  | _ => []
  end.

(** Line 242: [(searchData.conversations || []).map(c => c.id)]. *)
Fixpoint map_ids (cs : list jsval) : outcome (list jsval) :=
  match cs with
  | [] => Ok []
  | c :: rest =>
      id <- get c "id" ;;
      ids <- map_ids rest ;;
      Ok (id :: ids)
  end.

Definition candidate_ids (searchData : jsval) : outcome (list jsval) :=
  conversations <- get searchData "conversations" ;;
  match js_or conversations (JArr []) with
  | JArr l => map_ids l
  | _ => Throw TypeError
  end.

(** Lines 247-257: [(nextCursor, hasMorePages)]. *)
Definition search_pagination (searchData : jsval) : outcome (jsval * bool) :=
  pages <- get searchData "pages" ;;
  let searchPages := js_or pages (JObj []) in
  next <- get searchPages "next" ;;
  if truthy (get_opt next "starting_after") then
    Ok (get_opt next "starting_after", true)
  else if truthy (get_opt next "cursor") then
    Ok (get_opt next "cursor", true)
  else Ok (JNull, false).

Definition init_progress : progress := mkProgress [] 0 0 0.

(** What the Search/Discovery stage hands to the orchestrator. *)
Record discovery : Type := mkDiscovery {
  conversationIds : list jsval;     (* after the cap of line 260 *)
  intercomTotalCount : jsval;
  nextCursor : jsval;
  hasMorePages : bool;
  searchPages : jsval               (* searchData.pages, as received *)
}.

(** Lines 224-260: the Search/Discovery stage, from the response of
    POST /conversations/search. *)
Definition discover (search : fetch_result) : outcome discovery :=
  searchResponse <- await_fetch search ;;
  if negb (ok searchResponse) then
    errorText <- await_text searchResponse ;;
    Throw (Error ("Intercom Search API error ("
                  ++ Z_to_string (status searchResponse) ++ "): " ++ errorText))
  else
    searchData <- await_json searchResponse ;;
    ids <- candidate_ids searchData ;;
    total_count <- get searchData "total_count" ;;
    pg <- search_pagination searchData ;;
    pages <- get searchData "pages" ;;
    Ok (mkDiscovery (firstn MAX_CONVERSATIONS ids)
                    (js_or total_count (JNum (Z.of_nat (List.length ids))))
                    (fst pg) (snd pg) pages).

Section Orchestrator.

Variable Date_getTime : jsval -> option Z.

(** [new Date(v * 1000).toISOString()]; [None] when the date is
    invalid and the call throws a RangeError. *)
Variable toISOString : jsval -> option string.

(** The upstream API as seen by the fetch of the candidate at
    position [k] of the candidate list. *)
Variable net : nat -> string -> fetch_result.

(** [Date.now() - startTime] at the timeout check of the loop turn
    that starts at candidate index [i]. *)
Variable elapsed : nat -> Z.

(** [error.message] of an exception raised by the platform. *)
Variable platform_message : exn -> string.

Variable adminId : string.
(** [updatedDate || new Date().toISOString().split('T')[0]] *)
Variable date : string.
(** The window computed by lines 134-172. *)
Variables since before : Z.

Definition iso (v : jsval) : outcome jsval :=
  if truthy v then
    match toISOString v with
    | Some s => Ok (JStr s)
    | None => Throw RangeError
    end
  else Ok JNull.

(** Lines 326-334: the object pushed for a conversation that has
    participation. The upstream object is spread last. *)
Definition make_entry (conversation : jsval) (count : Z) : outcome jsval :=
  id <- get conversation "id" ;;
  created_at <- get conversation "created_at" ;;
  updated_at <- get conversation "updated_at" ;;
  created_at_iso <- iso created_at ;;
  updated_at_iso <- iso updated_at ;;
  Ok (JObj ([("id", id);
             ("created_at", created_at);
             ("updated_at", updated_at);
             ("created_at_iso", created_at_iso);
             ("updated_at_iso", updated_at_iso);
             ("participation_part_count", JNum count)]
            ++ spread conversation)).

(** Lines 310-311: the fetches of one batch, in candidate order. *)
Fixpoint fetch_batch (k : nat) (batch : list jsval) : outcome (list jsval) :=
  match batch with
  | [] => Ok []
  | id :: rest =>
      c <- fetchConversationWithParts (net k) id ;;
      cs <- fetch_batch (S k) rest ;;
      Ok (c :: cs)
  end.

(** Lines 314-336. *)
Fixpoint process_results (batchResults : list jsval) (st : progress)
    : outcome progress :=
  match batchResults with
  | [] => Ok st
  | conversation :: rest =>
      if negb (truthy conversation) then
        process_results rest
          (mkProgress (conversationsWithParticipation st)
                      (totalParticipationCount st)
                      (processedCount st)
                      (errorCount st + 1))
      else
        p <- hasAdminParticipation Date_getTime conversation adminId since before ;;
        if hasParticipation p then
          entry <- make_entry conversation (partCount p) ;;
          process_results rest
            (mkProgress (conversationsWithParticipation st ++ [entry])
                        (totalParticipationCount st + partCount p)
                        (processedCount st + 1)
                        (errorCount st))
        else
          process_results rest
            (mkProgress (conversationsWithParticipation st)
                        (totalParticipationCount st)
                        (processedCount st + 1)
                        (errorCount st))
  end.

(** Lines 298-342: [for (let i = 0; i < conversationIds.length;
    i += BATCH_SIZE)]; one unit of fuel per evaluation of the loop
    condition. *)
Fixpoint batch_loop (fuel : nat) (conversationIds : list jsval) (i : nat)
    (st : progress) : outcome progress :=
  match fuel with
  | O => OutOfFuel
  | S fuel' =>
      if (i <? List.length conversationIds)%nat then
        if elapsed i >? EDGE_FUNCTION_TIMEOUT - 5000 then Ok st
        else
          let batch := firstn BATCH_SIZE (skipn i conversationIds) in
          batchResults <- fetch_batch i batch ;;
          st' <- process_results batchResults st ;;
          batch_loop fuel' conversationIds (i + BATCH_SIZE)%nat st'
      else Ok st
  end.

Definition empty_reply (d : discovery) : reply :=
  mkReply 200
    (JObj [("type", JStr "conversation.list");
           ("conversations", JArr []);
           ("total_count", JNum 0);
           ("intercom_total_count", intercomTotalCount d);
           ("has_more", JBool false);
           ("pages", js_or (searchPages d) JNull);
           ("admin_id", JStr adminId);
           ("date", JStr date);
           ("participation_count", JNum 0)]).

Definition full_reply (d : discovery) (st : progress) : reply :=
  mkReply 200
    (JObj [("type", JStr "conversation.list");
           ("conversations", JArr (conversationsWithParticipation st));
           ("total_count",
            JNum (Z.of_nat (List.length (conversationsWithParticipation st))));
           ("intercom_total_count", intercomTotalCount d);
           ("has_more",
            JBool (hasMorePages d
                   || (MAX_CONVERSATIONS <=? List.length (conversationIds d))%nat));
           ("pages", js_or (searchPages d) JNull);
           ("next_cursor", nextCursor d);
           ("admin_id", JStr adminId);
           ("date", JStr date);
           ("participation_count", JNum (totalParticipationCount st));
           ("processed_count", JNum (processedCount st));
           ("error_count", JNum (errorCount st))]).

(** Lines 267-375: the Batch Orchestrator, from the candidates to the
    response. *)
Definition orchestrate (d : discovery) : outcome reply :=
  if (List.length (conversationIds d) =? 0)%nat then Ok (empty_reply d)
  else
    st <- batch_loop (S (List.length (conversationIds d))) (conversationIds d)
            0 init_progress ;;
    Ok (full_reply d st).

(** The conversations branch once the window is known. *)
Definition conversations_endpoint (search : fetch_result) : outcome reply :=
  d <- discover search ;;
  orchestrate d.

Definition message (e : exn) : string :=
  match e with
  | Error msg => msg
  | _ => platform_message e
  end.

(** Lines 126 and 437-449: the handler body under its try/catch. *)
Definition serve (search : fetch_result) : outcome reply :=
  try_catch (conversations_endpoint search)
    (fun error => Ok (mkReply 500 (JObj [("error", JStr (message error))]))).

End Orchestrator.

(* ================================================================== *)
(** ** Client-side progressive loader *)

Definition maxPages : nat := 100.

(** Module-level state of lines 26-31 of the page script. *)
Record page_state : Type := mkPage {
  allConversations : list jsval;
  currentPage : Z;
  isLoadingMore : bool
}.

(** Locals of one call of fetchConversationsProgressively. *)
Record loop_state : Type := mkLoop {
  startingAfter : jsval;
  hasMore : bool;
  pageCount : nat
}.

(** An async call is either suspended at its [await fetch(...)] or done. *)
Inductive loop_status : Type :=
| Awaiting (l : loop_state)
| Finished (l : loop_state).

(** *** String helpers: includes, split, URLSearchParams *)

(** Text after the first occurrence of [c]; [None] when [c] does not occur. *)
Fixpoint after_first (c : ascii) (s : string) : option string :=
  match s with
  | EmptyString => None
  | String a rest => if Ascii.eqb a c then Some rest else after_first c rest
  end.

(** Text before the first occurrence of [c] (all of [s] without one). *)
Fixpoint before_first (c : ascii) (s : string) : string :=
  match s with
  | EmptyString => EmptyString
  | String a rest => if Ascii.eqb a c then EmptyString else String a (before_first c rest)
  end.

(** s.split(c) *)
Fixpoint split_on (c : ascii) (s : string) : list string :=
  match s with
  | EmptyString => [EmptyString]
  | String a rest =>
      if Ascii.eqb a c then EmptyString :: split_on c rest
      else match split_on c rest with
           | h :: t => String a h :: t
           | [] => [String a EmptyString]
           end
  end.

Definition hex_of (c : ascii) : option nat :=
  let n := nat_of_ascii c in
  if ((48 <=? n) && (n <=? 57))%nat then Some (n - 48)%nat
  else if ((65 <=? n) && (n <=? 70))%nat then Some (n - 55)%nat
  else if ((97 <=? n) && (n <=? 102))%nat then Some (n - 87)%nat
  else None.

(** application/x-www-form-urlencoded decoding of a name or value, on
    bytes: [+] is a space, [%XY] is the byte XY. *)
Fixpoint form_decode (s : string) : string :=
  match s with
  | EmptyString => EmptyString
  | String c rest =>
      if Ascii.eqb c "+" then String " " (form_decode rest)
      else if Ascii.eqb c "%" then
        match rest with
        | String h (String l rest') =>
            match hex_of h, hex_of l with
            | Some a, Some b => String (ascii_of_nat (16 * a + b)) (form_decode rest')
            | _, _ => String c (form_decode rest)
            end
        | _ => String c (form_decode rest)
        end
      else String c (form_decode rest)
  end.

Definition parse_pair (seg : string) : string * string :=
  (form_decode (before_first "=" seg),
   form_decode (match after_first "=" seg with Some v => v | None => EmptyString end)).

(** new URLSearchParams(init), for an [init] without a leading [?]. *)
Definition URLSearchParams (init : string) : list (string * string) :=
  map parse_pair (filter (fun seg => negb (seg =? "")%string) (split_on "&" init)).

(** params.get(name) *)
Fixpoint params_get (name : string) (ps : list (string * string)) : jsval :=
  match ps with
  | [] => JNull
  | (n, v) :: rest => if (n =? name)%string then JStr v else params_get name rest
  end.

(** *** One page *)

(** Lines 154-169. The status text of the response is not modelled. *)
Definition await_page (r : fetch_result) : outcome jsval :=
  response <- await_fetch r ;;
  if negb (ok response) then
    let errorData := match json response with Some d => d | None => JObj [] end in
    e <- get errorData "error" ;;
    Throw (Error (js_String (js_or e (JStr ("HTTP " ++ Z_to_string (status response))))))
  else await_json response.

(** Lines 172-179. *)
Definition page_conversations (data : jsval) : outcome (list jsval) :=
  if truthy data then
    conversations <- get data "conversations" ;;
    type <- get data "type" ;;
    if isArray conversations then Ok (elems_of conversations)
    else if match type with JStr t => (t =? "conversation.list")%string | _ => false end
            && isArray conversations then Ok (elems_of conversations)
    else if truthy conversations && isArray conversations then Ok (elems_of conversations)
    else Ok []
  else Ok [].

(** Lines 233-261: [(startingAfter, hasMore)] read from [data.pages]. *)
Definition parse_cursor (data : jsval) : outcome (jsval * bool) :=
  pages <- get data "pages" ;;
  if truthy pages then
    next <- get pages "next" ;;
    if truthy next then
      let cursor :=
        match next with
        | JStr s =>
            match after_first "?" s with
            | Some rest =>
                params_get "starting_after" (URLSearchParams (before_first "?" rest))
            | None => JStr s
            end
        | JArr _ | JObj _ =>
            js_or (js_or (get_opt next "starting_after") (get_opt next "cursor")) JNull
        | _ => JNull
        end in
      Ok (cursor, truthy cursor)
    else Ok (JNull, false)
  else Ok (JNull, false).

(** Lines 171-272: the part of an iteration that runs once the page has
    arrived. The boolean tells whether the loop was left by [break].
    The DOM updates are not modelled. *)
Definition on_page (data : jsval) (g : page_state) (l : loop_state)
    : outcome (page_state * loop_state * bool) :=
  pageConversations <- page_conversations data ;;
  let g' :=
    if (0 <? List.length pageConversations)%nat then
      mkPage (allConversations g ++ pageConversations) (currentPage g) (isLoadingMore g)
    else g in
  cur <- parse_cursor data ;;
  if (List.length pageConversations =? 0)%nat then
    Ok (g', mkLoop (fst cur) false (pageCount l), true)
  else if negb (truthy (fst cur)) then
    Ok (g', mkLoop (fst cur) false (pageCount l), false)
  else
    Ok (g', mkLoop (fst cur) (snd cur) (pageCount l), false).

Definition finish (g : page_state) : page_state :=
  mkPage (allConversations g) (currentPage g) false.

(** The loop test of line 136 and, when it holds, the synchronous start
    of the next iteration up to its [await fetch]; otherwise the code
    after the loop (line 275). *)
Definition next_turn (g : page_state) (l : loop_state) : page_state * loop_status :=
  if hasMore l && (pageCount l <? maxPages)%nat then
    (g, Awaiting (mkLoop (startingAfter l) (hasMore l) (S (pageCount l))))
  else (finish g, Finished l).

(** What runs when the page awaited by a loop arrives. *)
Definition page_arrival (data : jsval) (g : page_state) (l : loop_state)
    : outcome (page_state * loop_status) :=
  r <- on_page data g l ;;
  if snd r then Ok (finish (fst (fst r)), Finished (snd (fst r)))
  else Ok (next_turn (fst (fst r)) (snd (fst r))).

(** Lines 129-136: entry of fetchConversationsProgressively. *)
Definition enter_loop (g : page_state) : page_state * loop_status :=
  next_turn (mkPage (allConversations g) (currentPage g) true) (mkLoop JNull true 0).

(** Lines 328-333 of loadConversations: reset the shared state, then
    start a loop; runs up to the first await of that loop. *)
Definition loadConversations_begin (g : page_state) : page_state * loop_status :=
  enter_loop (mkPage [] 1 (isLoadingMore g)).

Section Loader.

(** The edge function as the loader sees it: the result of the
    request number [n] of a loop, sent with cursor [c] ([JNull] for
    none). *)
Variable server : nat -> jsval -> fetch_result.

(** A loop that runs alone: every await is followed by the arrival of
    its own page. One unit of fuel per page requested. *)
Fixpoint run_loop (fuel : nat) (g : page_state) (s : loop_status)
    : outcome (page_state * loop_state) :=
  match s with
  | Finished l => Ok (g, l)
  | Awaiting l =>
      match fuel with
      | O => OutOfFuel
      | S fuel' =>
          data <- await_page (server (pageCount l) (startingAfter l)) ;;
          r <- page_arrival data g l ;;
          run_loop fuel' (fst r) (snd r)
      end
  end.

Definition fetchConversationsProgressively (fuel : nat) (g : page_state)
    : outcome (page_state * loop_state) :=
  run_loop fuel (fst (enter_loop g)) (snd (enter_loop g)).

End Loader.

(* ================================================================== *)
(** ** The specification's reading of the evaluator *)

(** Timestamp normalization as the specification words it: a value
    below 10,000,000,000 is seconds, a larger one is milliseconds. *)
Definition spec_normalize (v : Z) : Z :=
  if v <? 10000000000 then v else v / 1000.

(** [author.id] equals [admin_id] as strings, or as the integers both
    parse to. *)
Definition spec_id_equal (id : jsval) (adminId : string) : bool :=
  (js_String id =? adminId)%string
  || match parseInt (js_String id), parseInt adminId with
     | Some a, Some b => a =? b
     | _, _ => false
     end.

Definition author_of (part : jsval) : jsval := get_opt part "author".
Definition author_type_of (part : jsval) : jsval := get_opt (author_of part) "type".
Definition author_id_of (part : jsval) : jsval := get_opt (author_of part) "id".
Definition created_at_of (part : jsval) : jsval := get_opt part "created_at".

Definition is_admin_type (v : jsval) : bool :=
  match v with JStr t => (t =? "admin")%string | _ => false end.

Section SpecEvaluator.

Variable Date_getTime : jsval -> option Z.

(** Whole-second timestamp of a [created_at] value. *)
Definition spec_timestamp (created_at : jsval) : option Z :=
  match created_at with
  | JNum n => Some (spec_normalize n)
  | v => option_map (fun ms => ms / 1000) (Date_getTime v)
  end.

Definition in_window (since before : Z) (t : option Z) : bool :=
  match t with
  | Some z => (since <=? z) && (z <=? before)
  | None => false
  end.



(** The part test the code implements: author.id and created_at must
    be truthy (so 0, the empty string and false count as missing, as
    does an id whose string form is empty), and a timestamp that
    normalizes to 0 or is not a date is passed over. *)
Definition counted (adminId : string) (since before : Z) (part : jsval) : bool :=
  truthy (author_id_of part)
  && negb (js_String (author_id_of part) =? "")%string
  && truthy (created_at_of part)
  && match spec_timestamp (created_at_of part) with
     | Some t => negb (t =? 0)
     | None => false
     end
  && is_admin_type (author_type_of part)
  && spec_id_equal (author_id_of part) adminId
  && in_window since before (spec_timestamp (created_at_of part)).


End SpecEvaluator.


(** A part stamped with the epoch itself, and a conversation holding it. *)
Definition epoch_part : jsval := mk_part "admin" (JStr "8742044") (JNum 0).







(** [part] with its created_at replaced by [v]. *)
Definition with_created_at (fields : list (string * jsval)) (v : jsval) : jsval :=
  JObj (fields ++ [("created_at", v)]).

(** ** Sample pages for the loader *)

Definition sample_page (ids : list string) (next : jsval) : jsval :=
  obj [("type", JStr "conversation.list");
       ("conversations", JArr (map (fun i => obj [("id", JStr i)]) ids));
       ("pages", obj [("next", next)])].

(** A server with a cursor-loop defect: every page names the same next
    cursor. *)
Definition cursor_loop_server : nat -> jsval -> fetch_result :=
  fun _ _ =>
    Resolved (mkResponse true 200 None
                (Some (sample_page ["c"] (obj [("starting_after", JStr "again")])))).

Definition idle_page : page_state := mkPage [] 1 false.


(** ** What the fetcher returns, by cases on what the network does *)

Definition fetched (r : fetch_result) : jsval :=
  match r with
  | Rejected => JNull
  | Resolved resp =>
      if ok resp then
        match json resp with
        | Some data => if nullish data then JNull else data
        | None => JNull
        end
      else JNull
  end.

(** ** Reading a response *)

(** A key of the response body survives JSON.stringify when it is bound
    to a value other than undefined. *)
Definition has_field (body : jsval) (k : string) : bool :=
  match body with
  | JObj fs =>
      match lookup k fs with
      | Some JUndefined | None => false
      | Some _ => true
      end
  | _ => false
  end.

(** participation_part_count as a returned conversation carries it. *)
Definition entry_count (e : jsval) : Z :=
  match get_opt e "participation_part_count" with
  | JNum n => n
  | _ => 0
  end.

Definition sum_counts (l : list jsval) : Z :=
  fold_right (fun e acc => entry_count e + acc) 0 l.

(** The upstream object has no field named participation_part_count. *)
Definition unannotated (conversation : jsval) : Prop :=
  lookup "participation_part_count" (spread conversation) = None.


(** ** A sample upstream *)

Definition ok_json (v : jsval) : fetch_result :=
  Resolved (mkResponse true 200 None (Some v)).

(** The body of a search response: candidates and the pages object. *)
Definition search_result (ids : list string) (pages : jsval) : jsval :=
  obj [("type", JStr "conversation.list");
       ("conversations", JArr (map (fun i => obj [("id", JStr i)]) ids));
       ("total_count", JNum (Z.of_nat (List.length ids)));
       ("pages", pages)].

(** A conversation in which admin 8742044 wrote one part on 2025-11-10. *)
Definition replied_conversation : jsval :=
  obj [("id", JStr "215471689565896");
       ("conversation_parts",
        obj [("conversation_parts",
              JArr [mk_part "admin" (JStr "8742044") (JNum 1762748354)])])].

(** The same, with a field of its own named participation_part_count. *)
Definition annotated_conversation : jsval :=
  obj [("id", JStr "215471689565896");
       ("participation_part_count", JNum 99);
       ("conversation_parts",
        obj [("conversation_parts",
              JArr [mk_part "admin" (JStr "8742044") (JNum 1762748354)])])].

Definition steady_net : nat -> string -> fetch_result :=
  fun _ _ => ok_json replied_conversation.

Definition annotating_net : nat -> string -> fetch_result :=
  fun _ _ => ok_json annotated_conversation.

Definition iso_epoch : jsval -> option string :=
  fun _ => Some "1970-01-01T00:00:00.000Z".

Definition plain_message : exn -> string := fun _ => "error".

(** A clock that stays at 0 ms, and one that is past the budget from
    the second batch on. *)
Definition fast_clock : nat -> Z := fun _ => 0.
Definition slow_clock : nat -> Z := fun i => if (i =? 0)%nat then 0 else 56000.

Definition twenty_ids : list string :=
  ["1"; "2"; "3"; "4"; "5"; "6"; "7"; "8"; "9"; "10";
   "11"; "12"; "13"; "14"; "15"; "16"; "17"; "18"; "19"; "20"].

(** The handler on admin 8742044 and the day 2025-11-10. *)
Abbreviation sample_serve net elapsed search :=
  (serve no_dates iso_epoch net elapsed plain_message "8742044" "2025-11-10"
     1762740000 1762826399 search).

(** The value a run returned ([fallback] if it did not return). *)
Definition returned {A} (fallback : A) (o : outcome A) : A :=
  match o with Ok a => a | _ => fallback end.

Definition no_discovery : discovery := mkDiscovery [] JNull JNull false JNull.
Definition no_reply : reply := mkReply 0 JNull.

Definition no_next : jsval := obj [("type", JStr "pages")].

(** A next token in its three forms. *)
Definition bare_next : jsval := JStr "WzE3NjI2MTI5OTAwMDBd".
Definition url_next : jsval :=
  JStr "https://api.intercom.io/conversations/search?starting_after=WzE3NjI2MTI5OTAwMDBd".
Definition object_next : jsval := obj [("starting_after", JStr "WzE3NjI2MTI5OTAwMDBd")].

Definition pages_with (next : jsval) : jsval :=
  obj [("type", JStr "pages"); ("next", next)].

Definition full_page_ids : list string :=
  map (fun n => Z_to_string (Z.of_nat n)) (seq 1 150).

(** *** Sample runs, evaluated *)

(** One candidate, and a next token that is a bare string or a URL. *)
Definition bare_search : fetch_result :=
  ok_json (search_result ["1"] (pages_with bare_next)).
Definition url_search : fetch_result :=
  ok_json (search_result ["1"] (pages_with url_next)).

Definition bare_discovery : discovery :=
  Eval vm_compute in returned no_discovery (discover bare_search).
Definition url_discovery : discovery :=
  Eval vm_compute in returned no_discovery (discover url_search).
Definition bare_reply : reply :=
  Eval vm_compute in
    returned no_reply (sample_serve steady_net fast_clock bare_search).

Definition twenty_search : fetch_result := ok_json (search_result twenty_ids no_next).
Definition empty_search : fetch_result := ok_json (search_result [] no_next).
Definition single_search : fetch_result := ok_json (search_result ["1"] no_next).
Definition full_page_search : fetch_result :=
  ok_json (search_result full_page_ids no_next).

Definition twenty_discovery : discovery :=
  Eval vm_compute in returned no_discovery (discover twenty_search).
Definition empty_discovery : discovery :=
  Eval vm_compute in returned no_discovery (discover empty_search).
Definition full_page_discovery : discovery :=
  Eval vm_compute in returned no_discovery (discover full_page_search).

(** 20 candidates, the clock past 55 s at the second batch. *)
Definition truncated_reply : reply :=
  Eval vm_compute in
    returned no_reply (sample_serve steady_net slow_clock twenty_search).

(** 20 candidates, all handled. *)
Definition twenty_reply : reply :=
  Eval vm_compute in
    returned no_reply (sample_serve steady_net fast_clock twenty_search).

(** No candidate. *)
Definition zero_reply : reply :=
  Eval vm_compute in
    returned no_reply (sample_serve steady_net fast_clock empty_search).

(** One candidate whose conversation brings its own
    participation_part_count. *)
Definition annotated_reply : reply :=
  Eval vm_compute in
    returned no_reply (sample_serve annotating_net fast_clock single_search).

(** A full page of 150 candidates without a next cursor. *)
Definition full_page_reply : reply :=
  Eval vm_compute in
    returned no_reply (sample_serve steady_net fast_clock full_page_search).

(* ================================================================== *)
(** ** Values on which the model computes as the program does *)

(** The model computes with integers and bytes, the program with
    binary64 numbers and UTF-16 text. The two agree on the values
    singled out here. *)

(** ASCII text: its white space is ASCII white space, and percent
    decoding that gives it gives valid UTF-8. *)
Fixpoint ascii_only (s : string) : bool :=
  match s with
  | EmptyString => true
  | String c rest => (nat_of_ascii c <? 128)%nat && ascii_only rest
  end.




(** A next URL whose query has other parameters around the cursor. *)
Definition url_next_among_parameters : jsval :=
  JStr "https://api.intercom.io/conversations/search?per_page=150&starting_after=WzE3NjI2MTI5OTAwMDBd&order=desc".

(* ================================================================== *)
(** * Further code of the two files *)

From Stdlib Require DecimalZ.

(** ** Decimal strings *)

(** A string made of decimal digits only. *)
Fixpoint all_digits (s : string) : bool :=
  match s with
  | EmptyString => true
  | String c rest =>
      match digit_of c with
      | Some _ => all_digits rest
      | None => false
      end
  end.

(** The first character, if any, is not a decimal digit. *)
Definition no_leading_digit (s : string) : bool :=
  match s with
  | EmptyString => true
  | String c _ =>
      match digit_of c with
      | Some _ => false
      | None => true
      end
  end.

(** Value of a decimal numeral read after the digits worth [acc]. *)
Fixpoint uint_val (u : Decimal.uint) (acc : Z) : Z :=
  match u with
  | Decimal.Nil => acc
  | Decimal.D0 l => uint_val l (10 * acc)
  | Decimal.D1 l => uint_val l (10 * acc + 1)
  | Decimal.D2 l => uint_val l (10 * acc + 2)
  | Decimal.D3 l => uint_val l (10 * acc + 3)
  | Decimal.D4 l => uint_val l (10 * acc + 4)
  | Decimal.D5 l => uint_val l (10 * acc + 5)
  | Decimal.D6 l => uint_val l (10 * acc + 6)
  | Decimal.D7 l => uint_val l (10 * acc + 7)
  | Decimal.D8 l => uint_val l (10 * acc + 8)
  | Decimal.D9 l => uint_val l (10 * acc + 9)
  end.

(* ================================================================== *)
(** ** The request handler of the edge function (serve) *)

(** What the handler reads of a request: the method and the query
    parameters, each as [url.searchParams.get] gives it (a string, or
    null when the parameter is absent). *)
Record request : Type := mkRequest {
  req_method : string;
  req_endpoint : jsval;
  req_conversation_id : jsval;
  req_admin_id : jsval;
  req_display_as : jsval;
  req_starting_after : jsval
}.

Definition is_string (v : jsval) (s : string) : bool :=
  match v with JStr t => (t =? s)%string | _ => false end.

(** Lines 188-218: the body of POST /conversations/search. *)
Definition searchQuery (adminId : string) (since before : Z) (startingAfter : jsval)
    : jsval :=
  let adminIdStr := adminId in
  let clause (field : string) : jsval :=
    JObj [("operator", JStr "AND");
          ("value",
           JArr [JObj [("field", JStr "teammate_ids"); ("operator", JStr "=");
                       ("value", JStr adminIdStr)];
                 JObj [("field", JStr field); ("operator", JStr ">");
                       ("value", JNum since)];
                 JObj [("field", JStr field); ("operator", JStr "<");
                       ("value", JNum before)]])] in
  JObj [("query",
         JObj [("operator", JStr "OR");
               ("value", JArr [clause "created_at"; clause "updated_at"])]);
        ("pagination",
         JObj ([("per_page", JNum (Z.of_nat MAX_CONVERSATIONS))]
               ++ (if truthy startingAfter
                   then [("starting_after", startingAfter)]
                   else [])))].

Definition missing_parameter : string :=
  "Missing required parameter: either endpoint=teams, endpoint=admins, endpoint=conversations (with admin_id and optionally updated_date or updated_since/updated_before), or conversation_id must be provided".

Section Handler.

Variable Date_getTime : jsval -> option Z.
Variable toISOString : jsval -> option string.
Variable net : nat -> string -> fetch_result.
Variable elapsed : nat -> Z.
Variable platform_message : exn -> string.
(** [updatedDate || today], and the window that lines 134-179 give
    for the date parameters of the request ([conversation_window]
    below); a request for which they raise is not covered. *)
Variable date : string.
Variables since before : Z.

(** The upstream API for the search (by request body) and for the
    plain GETs (by URL). *)
Variable search_api : jsval -> fetch_result.
Variable fetch : string -> fetch_result.

(** Lines 383-401 and 408-426: GET a URL upstream and pass the JSON on. *)
Definition proxy (intercomUrl : string) : outcome reply :=
  response <- await_fetch (fetch intercomUrl) ;;
  if negb (ok response) then
    errorText <- await_text response ;;
    Throw (Error ("Intercom API error (" ++ Z_to_string (status response)
                  ++ "): " ++ errorText))
  else
    data <- await_json response ;;
    Ok (mkReply 200 data).

(** Lines 126-435: the body of the try block. *)
Definition route (req : request) : outcome reply :=
  if is_string (req_endpoint req) "conversations" && truthy (req_admin_id req) then
    let adminId := js_String (req_admin_id req) in
    conversations_endpoint Date_getTime toISOString net elapsed adminId date
      since before
      (search_api (searchQuery adminId since before (req_starting_after req)))
  else if truthy (req_conversation_id req) then
    let displayAs := js_or (req_display_as req) (JStr "plaintext") in
    proxy (INTERCOM_API_BASE ++ "/conversations/"
           ++ js_String (req_conversation_id req)
           ++ "?display_as=" ++ js_String displayAs)
  else if is_string (req_endpoint req) "teams" || is_string (req_endpoint req) "admins"
  then proxy (INTERCOM_API_BASE ++ "/" ++ js_String (req_endpoint req))
  else Ok (mkReply 400 (JObj [("error", JStr missing_parameter)])).

(** Lines 111-450: the handler. The body of the reply to OPTIONS is
    empty ([JNull] here). *)
Definition handle (req : request) : outcome reply :=
  if (req_method req =? "OPTIONS")%string then Ok (mkReply 200 JNull)
  else
    try_catch (route req)
      (fun error =>
         Ok (mkReply 500 (JObj [("error", JStr (message platform_message error))]))).

End Handler.

(* ================================================================== *)
(** ** The window of a conversations request *)

Section Window.

(** [Number(s)]; [None] is NaN. The strings covered are those whose
    number is an integer. *)
Variable Number : string -> option Z.
(** [new Date(v).getTime()] in milliseconds; [None] is NaN. *)
Variable Date_getTime : jsval -> option Z.
(** [Date.UTC(year, month, day, hours, minutes, seconds)]; an argument
    [None] is NaN or undefined, and the result [None] is NaN. *)
Variable Date_UTC : option Z -> option Z -> option Z -> Z -> Z -> Z -> option Z.
(** getUTCFullYear(), getUTCMonth() and getUTCDate() of [new Date()]
    at line 167. *)
Variables utcFullYear utcMonth utcDate : Z.
(** [new Date(v * 1000).toISOString()]; [None] when the call throws a
    RangeError. *)
Variable toISOString : jsval -> option string.

(** [Math.floor(d.getTime() / 1000)] of a date. *)
Definition floor_seconds (ms : option Z) : option Z :=
  option_map (fun t => t / 1000) ms.

(** Lines 142-172: [since] and [before], each [None] when it is NaN.
    The parameters are strings, or null when absent. *)
Definition request_window (updatedDate updatedSince updatedBefore : jsval)
    : option Z * option Z :=
  if truthy updatedDate then
    let fields := map Number (split_on "-" (js_String updatedDate)) in
    let year := nth 0 fields None in
    let month := nth 1 fields None in
    let day := nth 2 fields None in
    (floor_seconds (Date_UTC year (option_map (fun m => m - 1) month) day 0 0 0),
     floor_seconds (Date_UTC year (option_map (fun m => m - 1) month) day 23 59 59))
  else if truthy updatedSince && truthy updatedBefore then
    match Number (js_String updatedSince), Number (js_String updatedBefore) with
    | Some sinceNum, Some beforeNum => (Some sinceNum, Some beforeNum)
    | _, _ =>
        (floor_seconds (Date_getTime updatedSince),
         floor_seconds (Date_getTime updatedBefore))
    end
  else
    (floor_seconds
       (Date_UTC (Some utcFullYear) (Some utcMonth) (Some utcDate) 0 0 0),
     floor_seconds
       (Date_UTC (Some utcFullYear) (Some utcMonth) (Some utcDate) 23 59 59)).

(** Lines 134-179: the window with which the search is run. The log of
    line 178 prints both ends with toISOString and raises a RangeError,
    before any search, when one of them is not a valid time. *)
Definition conversation_window (updatedDate updatedSince updatedBefore : jsval)
    : outcome (Z * Z) :=
  match request_window updatedDate updatedSince updatedBefore with
  | (Some since, Some before) =>
      match toISOString (JNum since), toISOString (JNum before) with
      | Some _, Some _ => Ok (since, before)
      | _, _ => Throw RangeError
      end
  | _ => Throw RangeError
  end.

End Window.

(** Sample platform functions: no text is a number, and the two ends of
    2025-11-10 are dates. *)
Definition no_number : string -> option Z := fun _ => None.

Definition day_dates : jsval -> option Z :=
  fun v =>
    match v with
    | JStr s =>
        if (s =? "2025-11-10 00:00:00")%string then Some 1762740000000
        else if (s =? "2025-11-10 23:59:59")%string then Some 1762826399000
        else None
    | _ => None
    end.

Definition no_utc : option Z -> option Z -> option Z -> Z -> Z -> Z -> option Z :=
  fun _ _ _ _ _ _ => None.

(* ================================================================== *)
(** ** The URL the loader requests, and how the handler reads it *)

(** Characters encodeURIComponent leaves as they are. *)
Definition unreserved (c : ascii) : bool :=
  let n := nat_of_ascii c in
  ((65 <=? n) && (n <=? 90))%nat || ((97 <=? n) && (n <=? 122))%nat
  || ((48 <=? n) && (n <=? 57))%nat
  || (n =? 45)%nat || (n =? 95)%nat || (n =? 46)%nat || (n =? 33)%nat
  || (n =? 126)%nat || (n =? 42)%nat || (n =? 39)%nat || (n =? 40)%nat
  || (n =? 41)%nat.

Definition hex_digit (n : nat) : ascii :=
  if (n <? 10)%nat then ascii_of_nat (48 + n) else ascii_of_nat (55 + n).

(** encodeURIComponent on the bytes of a (well-formed) string. *)
Fixpoint encodeURIComponent (s : string) : string :=
  match s with
  | EmptyString => EmptyString
  | String c rest =>
      if unreserved c then String c (encodeURIComponent rest)
      else String "%"
             (String (hex_digit (nat_of_ascii c / 16))
                (String (hex_digit (nat_of_ascii c mod 16))
                   (encodeURIComponent rest)))
  end.

(** Lines 138-143 of the page script: the query of the URL of a page
    request (what follows [?]). *)
Definition loader_query (adminId updatedSince updatedBefore : string)
    (startingAfter : jsval) : string :=
  "endpoint=conversations&admin_id=" ++ encodeURIComponent adminId
  ++ "&updated_since=" ++ encodeURIComponent updatedSince
  ++ "&updated_before=" ++ encodeURIComponent updatedBefore
  ++ (if truthy startingAfter
      then "&starting_after=" ++ encodeURIComponent (js_String startingAfter)
      else "").

Definition edgeFunctionUrl (supabaseUrl adminId updatedSince updatedBefore : string)
    (startingAfter : jsval) : string :=
  supabaseUrl ++ "/functions/v1/intercom-proxy?"
  ++ loader_query adminId updatedSince updatedBefore startingAfter.

(** Lines 127-130 and 175 of the edge function: the parameters of a
    request with the given URL. The query is what lies between the
    first [?] and the fragment. The re-encoding of the query by the URL
    parser, which the decoding of the parameters undoes, is not
    modelled. *)
Definition request_of_url (method url : string) : request :=
  let params :=
    URLSearchParams (match after_first "?" (before_first "#" url) with
                     | Some q => q
                     | None => EmptyString
                     end) in
  mkRequest method
    (params_get "endpoint" params)
    (params_get "conversation_id" params)
    (params_get "admin_id" params)
    (params_get "display_as" params)
    (params_get "starting_after" params).

(* ================================================================== *)
(** ** Pagination of the table (page script) *)

Definition itemsPerPage : Z := 20.

(** Math.ceil(allConversations.length / itemsPerPage), as lines 491,
    613, 636, 678 and 815 compute it. *)
Definition totalPages (g : page_state) : Z :=
  (Z.of_nat (List.length (allConversations g)) + itemsPerPage - 1) / itemsPerPage.

(** Array.prototype.slice(start, end) with integer arguments. *)
Definition slice (l : list jsval) (start final : Z) : list jsval :=
  let len := Z.of_nat (List.length l) in
  let k := if start <? 0 then Z.max (len + start) 0 else Z.min start len in
  let e := if final <? 0 then Z.max (len + final) 0 else Z.min final len in
  firstn (Z.to_nat (e - k)) (skipn (Z.to_nat k) l).

(** Lines 492-494 of displayConversations: the rows of the current
    page. How a row is rendered (lines 506-583) is not modelled. *)
Definition startIndex (g : page_state) : Z := (currentPage g - 1) * itemsPerPage.

Definition endIndex (g : page_state) : Z :=
  Z.min (startIndex g + itemsPerPage) (Z.of_nat (List.length (allConversations g))).

Definition pageConversations (g : page_state) : list jsval :=
  slice (allConversations g) (startIndex g) (endIndex g).

(** The same state on another page. *)
Definition on_page_number (g : page_state) (p : Z) : page_state :=
  mkPage (allConversations g) p (isLoadingMore g).

(** A numbered button as lines 642-670 set it up: [disabled] also tells
    that the button has no click handler, and [title] is empty when
    none is set. *)
Record page_button : Type := mkButton {
  number : Z;
  active : bool;
  disabled : bool;
  title : string
}.

Record pagination_controls : Type := mkControls {
  prev_disabled : bool;
  next_disabled : bool;
  next_loading : bool;        (* the Next button reads Loading... *)
  buttons : list page_button
}.

(** Lines 598-671, for a page on which the pagination elements exist. *)
Definition updatePaginationControls (g : page_state) (totalPages_ : Z)
    : pagination_controls :=
  let lastAvailablePage := totalPages g in
  let loading := (currentPage g >=? lastAvailablePage) && isLoadingMore g in
  let pagesToShow :=
    if isLoadingMore g then Z.max totalPages_ (lastAvailablePage + 2)
    else totalPages_ in
  mkControls
    (currentPage g =? 1)
    (if loading then false
     else ((currentPage g >=? totalPages_) && negb (isLoadingMore g))
          || (totalPages_ =? 0))
    loading
    (map (fun i =>
            let pageNum := Z.of_nat i in
            let isPageReady := pageNum <=? lastAvailablePage in
            let isCurrentlyLoading :=
              isLoadingMore g && (pageNum >? lastAvailablePage)
              && (pageNum <=? totalPages_) in
            mkButton pageNum (pageNum =? currentPage g) (negb isPageReady)
              (if isCurrentlyLoading then "Loading..."
               else if negb isPageReady then "Page not ready yet"
               else ""))
       (seq 1 (Z.to_nat pagesToShow))).

(** Line 588: displayConversations passes the number of pages of the
    rows it has. It draws the controls only when there is a row: with
    no row it returns at line 485, before this call. *)
Definition shown_controls (g : page_state) : pagination_controls :=
  updatePaginationControls g (totalPages g).

(** Lines 677-682: window.goToPage, called with an integer, as the
    page buttons and the handlers of Previous and Next call it. (The
    guard of line 679 lets through what compares false on both sides:
    NaN, undefined, a fraction within range.) *)
Definition goToPage (page : Z) (g : page_state) : page_state :=
  if (page <? 1) || (page >? totalPages g) then g
  else mkPage (allConversations g) page (isLoadingMore g).

(** Lines 802-808 and 812-819: the click handlers of Previous and Next. *)
Definition prev_click (g : page_state) : page_state :=
  if currentPage g >? 1 then goToPage (currentPage g - 1) g else g.

Definition next_click (g : page_state) : page_state :=
  if currentPage g <? totalPages g then goToPage (currentPage g + 1) g else g.

(** The current page is one of the pages there are (page 1 when there
    is no row). *)
Definition page_in_range (g : page_state) : Prop :=
  1 <= currentPage g <= Z.max 1 (totalPages g).

(** A state of the page after one load of twenty-five conversations,
    and the same while a second page is awaited. *)
Definition loaded_state : page_state :=
  mkPage (repeat replied_conversation 25) 2 false.

Definition loading_state : page_state :=
  mkPage (repeat replied_conversation 25) 2 true.

(* ================================================================== *)
(** ** The rating column (page script) *)

(** Lines 427-435. The result is a number or null. *)
Definition getConversationRating (conversation : jsval) : outcome (option Z) :=
  cr <- get conversation "conversation_rating" ;;
  if truthy (get_opt cr "rating") then
    match parseInt (js_String (get_opt cr "rating")) with
    | Some rating =>
        if (rating >=? 1) && (rating <=? 5) then Ok (Some rating) else Ok None
    | None => Ok None
    end
  else Ok None.

(** Lines 440-473, for a rating that is a number or null: the stars in
    order ([true] is a filled one) and the text after them. *)
Record star_row : Type := mkStars {
  stars : list bool;
  rating_text : option string
}.

Definition generateStarRating (rating : option Z) : star_row :=
  let maxStars := 5 in
  let filledStars := match rating with Some r => if r =? 0 then 0 else r | None => 0 end in
  let emptyStars := maxStars - filledStars in
  mkStars (repeat true (Z.to_nat filledStars) ++ repeat false (Z.to_nat emptyStars))%list
    (match rating with
     | Some r => if r =? 0 then None else Some (Z_to_string r ++ ".0")
     | None => None
     end).

Definition rated_conversation : jsval :=
  obj [("id", JStr "215471689565896");
       ("conversation_rating", obj [("rating", JNum 4)])].

(** ** Sample runs *)

Definition mixed_results : list jsval := [JNull; replied_conversation; JNull].

Definition mixed_progress : progress :=
  Eval vm_compute in
    returned init_progress
      (process_results no_dates iso_epoch "8742044" 1762740000 1762826399
         (filter truthy mixed_results) init_progress).

(** A server with two pages: the first names a cursor, and the request
    that carries a cursor gets the last page. *)
Definition two_page_server : nat -> jsval -> fetch_result :=
  fun _ cursor =>
    ok_json (if truthy cursor then sample_page ["c3"] JNull
             else sample_page ["c1"; "c2"] (obj [("starting_after", JStr "next")])).

Definition two_page_load : page_state * loop_state :=
  Eval vm_compute in
    returned (idle_page, mkLoop JNull false 0)
      (fetchConversationsProgressively two_page_server maxPages idle_page).

(** What the fetches of the candidates give, in candidate order, the
    first candidate being at position [k]. *)
Fixpoint fetched_from (net : nat -> string -> fetch_result) (k : nat)
    (ids : list jsval) : list jsval :=
  match ids with
  | [] => []
  | id :: rest => fetched (net k (conversation_url id)) :: fetched_from net (S k) rest
  end.

(** Twenty-five candidates, of which every third cannot be fetched. *)
Definition patchy_net : nat -> string -> fetch_result :=
  fun k _ => if (k mod 3 =? 2)%nat then Rejected else ok_json replied_conversation.

Definition patchy_ids : list jsval :=
  map (fun k => JStr (Z_to_string (Z.of_nat k))) (seq 1 25).

(* ================================================================== *)
(** * Properties *)

(** ** Lemmas on values and on the monad *)

Lemma lookup_app (k : string) (a b : list (string * jsval)) :
  lookup k (a ++ b) =
  match lookup k b with Some v => Some v | None => lookup k a end.
Proof.
  induction a as [|[k' v] a IH]; simpl.
  - destruct (lookup k b); reflexivity.
  - rewrite IH. destruct (lookup k b); reflexivity.
Qed.

Lemma get_non_nullish (v : jsval) (k : string) :
  nullish v = false -> get v k = Ok (get_opt v k).
Proof. destruct v; simpl; intros H; try discriminate; reflexivity. Qed.

Lemma truthy_not_nullish (v : jsval) : truthy v = true -> nullish v = false.
Proof. destruct v; simpl; intros H; try discriminate; reflexivity. Qed.

Lemma get_opt_falsy_author (a : jsval) (k : string) :
  truthy a = false -> get_opt a k = JUndefined.
Proof. destruct a; simpl; intros H; try discriminate; reflexivity. Qed.

(** ** Participation Evaluator *)

Section EvaluatorFacts.

Variable Date_getTime : jsval -> option Z.

Lemma extract_parts_total (conversation : jsval) :
  nullish conversation = false ->
  exists parts, extract_parts conversation = Ok parts.
Proof.
  intros Hc. unfold extract_parts.
  rewrite (get_non_nullish _ _ Hc). simpl.
  destruct (truthy (get_opt conversation "conversation_parts")) eqn:Ht.
  - destruct (isArray _); [eauto|].
    rewrite (get_non_nullish _ "conversation_parts" (truthy_not_nullish _ Ht)). simpl.
    destruct (_ && _); [eauto|].
    rewrite (get_non_nullish _ "parts" (truthy_not_nullish _ Ht)). simpl.
    destruct (_ && _); eauto.
  - eauto.
Qed.

Lemma partTimestamp_spec (part : jsval) :
  nullish part = false ->
  partTimestamp Date_getTime part =
    Ok (if truthy (created_at_of part) then
          match spec_timestamp Date_getTime (created_at_of part) with
          | Some t => TsNum t
          | None => TsNaN
          end
        else TsNull).
Proof.
  intros Hp. unfold partTimestamp, created_at_of.
  rewrite (get_non_nullish _ _ Hp). simpl.
  destruct (get_opt part "created_at") eqn:E; simpl; try reflexivity.
  - destruct b; simpl; [|reflexivity]. destruct (Date_getTime _); reflexivity.
  - destruct (n =? 0); reflexivity.
  - destruct (s =? "")%string; simpl; [reflexivity|].
    destruct (Date_getTime _); reflexivity.
  - destruct (Date_getTime _); reflexivity.
  - destruct (Date_getTime _); reflexivity.
Qed.

Lemma part_counts_spec (adminId : string) (since before : Z) (part : jsval) :
  nullish part = false ->
  part_counts Date_getTime adminId since before part =
    Ok (counted Date_getTime adminId since before part).
Proof.
  intros Hp. unfold part_counts.
  rewrite (get_non_nullish _ _ Hp). cbn [bind].
  assert (Ha : nullish (js_or (get_opt part "author") (JObj [])) = false).
  { unfold js_or. destruct (truthy _) eqn:E; [apply truthy_not_nullish, E|reflexivity]. }
  rewrite !(get_non_nullish _ _ Ha). cbn [bind].
  assert (Hk : forall k, get_opt (js_or (get_opt part "author") (JObj [])) k
                         = get_opt (author_of part) k).
  { intros k. unfold js_or, author_of.
    destruct (truthy (get_opt part "author")) eqn:E; [reflexivity|].
    rewrite (get_opt_falsy_author _ _ E). reflexivity. }
  rewrite !Hk. fold (author_id_of part). fold (author_type_of part).
  rewrite (partTimestamp_spec _ Hp).
  unfold counted, spec_id_equal, isTargetAdmin, is_admin_type.
  destruct (truthy (author_id_of part)) eqn:Eid; cbn [truthy negb bind andb js_String];
    [|reflexivity].
  destruct (js_String (author_id_of part) =? "")%string eqn:Es; cbn [negb andb];
    [reflexivity|].
  destruct (truthy (created_at_of part)) eqn:Ec; cbn [ts_falsy andb]; [|reflexivity].
  destruct (spec_timestamp Date_getTime (created_at_of part)) as [t|] eqn:Et;
    cbn [ts_falsy in_window andb]; [|reflexivity].
  destruct (t =? 0); cbn [negb andb]; [reflexivity|].
  f_equal. f_equal. f_equal.
  destruct (parseInt (js_String (author_id_of part))), (parseInt adminId);
    try reflexivity.
Qed.


End EvaluatorFacts.

(** Cross-representation comparison of the two ids, on the examples of
    the specification. *)
Lemma isTargetAdmin_examples :
  isTargetAdmin (js_String (JNum 123)) "123" = true
  /\ isTargetAdmin (js_String (JStr "123")) (js_String (JNum 123)) = true
  /\ isTargetAdmin "0123" "123" = true
  /\ isTargetAdmin "123" "1234" = false.
Proof. repeat split; reflexivity. Qed.

(** A [null] entry of the parts array is not passed over: reading its
    author throws. *)
Lemma null_part_throws (D : jsval -> option Z) (adminId : string) (since before : Z)
    (rest : list jsval) (acc : Z) :
  count_parts D adminId since before (JNull :: rest) acc = Throw TypeError.
Proof. reflexivity. Qed.




(** ** Timestamp normalization *)

Lemma lookup_with_created_at (fields : list (string * jsval)) (v : jsval) :
  lookup "created_at" (fields ++ [("created_at", v)]) = Some v.
Proof. rewrite lookup_app. reflexivity. Qed.

Lemma lookup_author_with_created_at (fields : list (string * jsval)) (v : jsval) :
  lookup "author" (fields ++ [("created_at", v)]) = lookup "author" fields.
Proof. rewrite lookup_app. reflexivity. Qed.

(** A part counts or not through its author and its normalized
    timestamp only. *)
Lemma part_counts_same_timestamp (D : jsval -> option Z) (adminId : string)
    (since before : Z) (fields : list (string * jsval)) (v w : jsval) :
  partTimestamp D (with_created_at fields v)
    = partTimestamp D (with_created_at fields w) ->
  part_counts D adminId since before (with_created_at fields v)
    = part_counts D adminId since before (with_created_at fields w).
Proof.
  intros H. unfold part_counts. rewrite H.
  unfold with_created_at, get. rewrite !lookup_author_with_created_at.
  reflexivity.
Qed.

(** Seconds and milliseconds of one instant between 1970-04-26 and
    2286-11-20 are the same timestamp to the evaluator. *)
Lemma seconds_or_milliseconds (D : jsval -> option Z) (adminId : string)
    (since before : Z) (fields : list (string * jsval)) (s : Z) :
  10000000 <= s < 10000000000 ->
  part_counts D adminId since before (with_created_at fields (JNum s))
    = part_counts D adminId since before (with_created_at fields (JNum (1000 * s))).
Proof.
  intros Hs. apply part_counts_same_timestamp.
  unfold partTimestamp, with_created_at, get.
  rewrite !lookup_with_created_at. cbn [bind truthy].
  replace (s =? 0) with false by (symmetry; apply Z.eqb_neq; lia).
  replace (1000 * s =? 0) with false by (symmetry; apply Z.eqb_neq; lia).
  cbn [negb].
  replace (s <? 10000000000) with true by (symmetry; apply Z.ltb_lt; lia).
  replace (1000 * s <? 10000000000) with false by (symmetry; apply Z.ltb_ge; lia).
  do 2 f_equal. rewrite Z.mul_comm, Z.div_mul by lia. reflexivity.
Qed.

(** C4, as stated, fails on the value 0: it is below the threshold but
    is not mapped to itself, the part is left without a timestamp; the
    evaluator skips the part although 0, the value the specification
    gives, lies in the window [0, 86399]. *)
Lemma C4_counterexample :
  get epoch_part "created_at" = Ok (JNum 0)
  /\ 0 < 10000000000
  /\ partTimestamp no_dates epoch_part = Ok TsNull
  /\ partTimestamp no_dates epoch_part <> Ok (TsNum 0)
  /\ in_window 0 86399 (Some (spec_normalize 0)) = true
  /\ part_counts no_dates "8742044" 0 86399 epoch_part = Ok false.
Proof. repeat split; try reflexivity. discriminate. Qed.

(** C4 (amended): the part-timestamp normalization maps every non-zero
    numeric created_at below 10,000,000,000 to itself (seconds) and
    every value from that threshold up to 2^53 = 9007199254740992 (up
    to where the binary64 quotient has the floor of the exact one) to
    floor(value / 1000) (milliseconds); 1700000000 and 1700000000000
    normalize to the same second, and the evaluator treats a part
    identically under either of the two. *)
Theorem C4_timestamp_normalization
    (D : jsval -> option Z) (part : jsval) (n : Z) :
  get part "created_at" = Ok (JNum n) ->
  n <> 0 ->
  (n < 10000000000 -> partTimestamp D part = Ok (TsNum n))
  /\ (10000000000 <= n <= 9007199254740992 ->
      partTimestamp D part = Ok (TsNum (n / 1000)))
  /\ (forall fields,
        partTimestamp D (with_created_at fields (JNum 1700000000))
          = Ok (TsNum 1700000000)
        /\ partTimestamp D (with_created_at fields (JNum 1700000000000))
          = Ok (TsNum 1700000000))
  /\ (forall adminId since before fields,
        part_counts D adminId since before
            (with_created_at fields (JNum 1700000000))
          = part_counts D adminId since before
              (with_created_at fields (JNum 1700000000000))).
Proof.
  intros Hget Hn.
  assert (Hts : partTimestamp D part
                = Ok (TsNum (if n <? 10000000000 then n else n / 1000))).
  { unfold partTimestamp. rewrite Hget. cbn [bind truthy].
    replace (n =? 0) with false by (symmetry; apply Z.eqb_neq; exact Hn).
    reflexivity. }
  split; [|split; [|split]].
  - intros Hlt. rewrite Hts.
    replace (n <? 10000000000) with true by (symmetry; apply Z.ltb_lt; exact Hlt).
    reflexivity.
  - intros [Hge _]. rewrite Hts.
    replace (n <? 10000000000) with false by (symmetry; apply Z.ltb_ge; exact Hge).
    reflexivity.
  - intros fields. unfold partTimestamp, with_created_at, get.
    rewrite !lookup_with_created_at. split; reflexivity.
  - intros adminId since before fields.
    change 1700000000000 with (1000 * 1700000000).
    apply seconds_or_milliseconds. lia.
Qed.

Lemma C4_timestamp_normalization_witness :
  get (mk_part "admin" (JStr "8742044") (JNum 1762748805000)) "created_at"
    = Ok (JNum 1762748805000)
  /\ 1762748805000 <> 0
  /\ partTimestamp no_dates (mk_part "admin" (JStr "8742044") (JNum 1762748805000))
     = Ok (TsNum 1762748805).
Proof.
  assert (H1 : get (mk_part "admin" (JStr "8742044") (JNum 1762748805000))
                 "created_at" = Ok (JNum 1762748805000)) by reflexivity.
  assert (H2 : 1762748805000 <> 0) by lia.
  split; [exact H1|]. split; [exact H2|].
  apply (proj1 (proj2 (C4_timestamp_normalization no_dates _ _ H1 H2))).
  lia.
Defined.

(** ** Conversation Fetcher *)

Lemma fetchConversationWithParts_fetched (fetch : string -> fetch_result) (id : jsval) :
  fetchConversationWithParts fetch id = Ok (fetched (fetch (conversation_url id))).
Proof.
  unfold fetchConversationWithParts, fetched.
  destruct (fetch (conversation_url id)) as [|resp]; [reflexivity|].
  cbn [await_fetch bind].
  destruct (ok resp); cbn [negb].
  - unfold await_json. destruct (json resp) as [data|]; [|reflexivity].
    cbn [bind]. destruct data; reflexivity.
  - unfold await_text. destruct (text resp); reflexivity.
Qed.

(** C7: the Conversation Fetcher never throws; it asks for
    /conversations/<id>?display_as=plaintext, returns the parsed
    conversation when the GET succeeds (a JSON body is never undefined),
    and null when the request is rejected, the status is not OK or the
    body does not parse. *)
Theorem C7_fetcher_never_throws (fetch : string -> fetch_result) (id : jsval) :
  (exists v, fetchConversationWithParts fetch id = Ok v)
  /\ conversation_url id
     = "https://api.intercom.io/conversations/" ++ js_String id
         ++ "?display_as=plaintext"
  /\ (forall resp data,
        fetch (conversation_url id) = Resolved resp ->
        ok resp = true -> json resp = Some data -> data <> JUndefined ->
        fetchConversationWithParts fetch id = Ok data)
  /\ (forall resp,
        fetch (conversation_url id) = Resolved resp ->
        ok resp = false ->
        fetchConversationWithParts fetch id = Ok JNull)
  /\ (fetch (conversation_url id) = Rejected ->
      fetchConversationWithParts fetch id = Ok JNull)
  /\ (forall resp,
        fetch (conversation_url id) = Resolved resp ->
        json resp = None ->
        fetchConversationWithParts fetch id = Ok JNull).
Proof.
  rewrite fetchConversationWithParts_fetched.
  split; [eauto|]. split; [reflexivity|].
  split; [|split; [|split]].
  - intros resp data -> Hok Hj Hd. simpl. rewrite Hok, Hj.
    destruct data; try reflexivity. contradiction.
  - intros resp -> Hok. simpl. rewrite Hok. reflexivity.
  - intros ->. reflexivity.
  - intros resp -> Hj. simpl. rewrite Hj. destruct (ok resp); reflexivity.
Qed.

(** ** Client-side progressive loader *)

Lemma bind_not_OutOfFuel {A B} (m : outcome A) (k : A -> outcome B) :
  m <> OutOfFuel -> (forall a, k a <> OutOfFuel) -> bind m k <> OutOfFuel.
Proof.
  intros Hm Hk. destruct m; simpl; [apply Hk|discriminate|contradiction].
Qed.

Lemma get_not_OutOfFuel (v : jsval) (k : string) : get v k <> OutOfFuel.
Proof. destruct v; discriminate. Qed.

Lemma await_page_not_OutOfFuel (r : fetch_result) : await_page r <> OutOfFuel.
Proof.
  unfold await_page. destruct r as [|resp]; simpl; [discriminate|].
  destruct (ok resp); simpl.
  - unfold await_json. destruct (json resp); discriminate.
  - apply bind_not_OutOfFuel; [apply get_not_OutOfFuel|discriminate].
Qed.

Lemma page_conversations_not_OutOfFuel (data : jsval) :
  page_conversations data <> OutOfFuel.
Proof.
  unfold page_conversations. destruct (truthy data); [|discriminate].
  repeat (apply bind_not_OutOfFuel; [apply get_not_OutOfFuel|intros ?]).
  repeat match goal with |- context [if ?c then _ else _] => destruct c end;
    discriminate.
Qed.

Lemma parse_cursor_not_OutOfFuel (data : jsval) : parse_cursor data <> OutOfFuel.
Proof.
  unfold parse_cursor.
  apply bind_not_OutOfFuel; [apply get_not_OutOfFuel|intros pages].
  destruct (truthy pages); [|discriminate].
  apply bind_not_OutOfFuel; [apply get_not_OutOfFuel|intros next].
  destruct (truthy next); discriminate.
Qed.

Lemma on_page_not_OutOfFuel (data : jsval) (g : page_state) (l : loop_state) :
  on_page data g l <> OutOfFuel.
Proof.
  unfold on_page.
  apply bind_not_OutOfFuel; [apply page_conversations_not_OutOfFuel|intros cs].
  apply bind_not_OutOfFuel; [apply parse_cursor_not_OutOfFuel|intros cur].
  repeat match goal with |- context [if ?c then _ else _] => destruct c end;
    discriminate.
Qed.

Lemma page_arrival_not_OutOfFuel (data : jsval) (g : page_state) (l : loop_state) :
  page_arrival data g l <> OutOfFuel.
Proof.
  unfold page_arrival.
  apply bind_not_OutOfFuel; [apply on_page_not_OutOfFuel|intros r].
  destruct (snd r); discriminate.
Qed.

(** Inversion of a bind that returned. *)
Lemma Ok_inj {A} (a b : A) : Ok a = Ok b -> a = b.
Proof. intros H. injection H as H. exact H. Qed.

Lemma bind_Ok {A B} (m : outcome A) (k : A -> outcome B) (b : B) :
  bind m k = Ok b -> exists a, m = Ok a /\ k a = Ok b.
Proof. destruct m; simpl; intros H; try discriminate. eauto. Qed.

Lemma on_page_pageCount (data : jsval) (g g' : page_state) (l l' : loop_state)
    (brk : bool) :
  on_page data g l = Ok (g', l', brk) -> pageCount l' = pageCount l.
Proof.
  unfold on_page. intros H.
  apply bind_Ok in H as (cs & _ & H). apply bind_Ok in H as (cur & _ & H).
  repeat match type of H with context [if ?c then _ else _] => destruct c end;
    inversion H; reflexivity.
Qed.

(** After a page, a loop is either done or waits for the next page,
    which it asks for only below the cap. *)
Lemma page_arrival_status (data : jsval) (g g' : page_state) (l : loop_state)
    (s' : loop_status) :
  page_arrival data g l = Ok (g', s') ->
  match s' with
  | Finished l' => pageCount l' = pageCount l
  | Awaiting l' =>
      pageCount l' = S (pageCount l) /\ (pageCount l < maxPages)%nat
  end.
Proof.
  unfold page_arrival. intros H.
  apply bind_Ok in H as ([[g1 l1] brk] & Hon & H).
  apply on_page_pageCount in Hon. cbn [fst snd] in H.
  destruct brk.
  - inversion H; subst. exact Hon.
  - unfold next_turn in H.
    destruct (hasMore l1 && (pageCount l1 <? maxPages)%nat) eqn:E;
      inversion H; subst; cbn [pageCount].
    + apply andb_prop in E as [_ E]. apply Nat.ltb_lt in E.
      rewrite <- Hon. split; [reflexivity|exact E].
    + exact Hon.
Qed.

Section LoaderFacts.

Variable server : nat -> jsval -> fetch_result.

Lemma run_loop_terminates (fuel : nat) :
  forall g l,
    (pageCount l <= maxPages)%nat ->
    (S maxPages - pageCount l <= fuel)%nat ->
    run_loop server fuel g (Awaiting l) <> OutOfFuel.
Proof.
  induction fuel as [|fuel IH]; intros g l Hle Hfuel.
  - unfold maxPages in *. lia.
  - cbn [run_loop].
    apply bind_not_OutOfFuel; [apply await_page_not_OutOfFuel|intros data].
    destruct (page_arrival data g l) as [[g' s']| |] eqn:E; cbn [bind];
      [|discriminate|destruct (page_arrival_not_OutOfFuel _ _ _ E)].
    cbn [fst snd]. apply page_arrival_status in E.
    destruct s' as [l'|l'].
    + destruct E as [E1 E2]. apply IH; unfold maxPages in *; lia.
    + destruct fuel; discriminate.
Qed.

Lemma run_loop_more_fuel (fuel : nat) :
  forall g s,
    run_loop server fuel g s <> OutOfFuel ->
    forall extra, run_loop server (fuel + extra) g s = run_loop server fuel g s.
Proof.
  induction fuel as [|fuel IH]; intros g s H extra.
  - destruct s; [contradiction H; reflexivity|destruct extra; reflexivity].
  - destruct s as [l|l]; [|reflexivity].
    cbn [run_loop Nat.add] in *.
    destruct (await_page _) as [data| |]; cbn [bind] in *; try reflexivity.
    destruct (page_arrival data g l) as [r| |]; cbn [bind] in *; try reflexivity.
    apply IH. exact H.
Qed.

Lemma run_loop_pageCount (fuel : nat) :
  forall g s g' l',
    run_loop server fuel g s = Ok (g', l') ->
    match s with
    | Awaiting l | Finished l => (pageCount l <= maxPages)%nat
    end ->
    (pageCount l' <= maxPages)%nat.
Proof.
  induction fuel as [|fuel IH]; intros g s g' l' H Hs.
  - destruct s; [discriminate|]. inversion H; subst. exact Hs.
  - destruct s as [l|l]; [|inversion H; subst; exact Hs].
    cbn [run_loop] in H.
    apply bind_Ok in H as (data & _ & H).
    apply bind_Ok in H as ([g1 s1] & Harr & H). cbn [fst snd] in H.
    apply page_arrival_status in Harr.
    apply (IH _ _ _ _ H).
    destruct s1; unfold maxPages in *; lia.
Qed.

End LoaderFacts.

(** A page without conversations, or without a cursor, ends the loop. *)
Lemma page_arrival_stops (data : jsval) (g : page_state) (l : loop_state)
    (r : page_state * loop_status) :
  page_arrival data g l = Ok r ->
  page_conversations data = Ok []
  \/ (exists c b, parse_cursor data = Ok (c, b) /\ truthy c = false) ->
  exists l', snd r = Finished l'.
Proof.
  unfold page_arrival, on_page. intros H Hstop.
  apply bind_Ok in H as ([[g1 l1] brk] & Hon & H).
  apply bind_Ok in Hon as (cs & Hcs & Hon).
  apply bind_Ok in Hon as (cur & Hcur & Hon).
  cbn [fst snd] in H.
  destruct Hstop as [Hempty | (c & b & Hc & Hfalsy)].
  - rewrite Hempty in Hcs. inversion Hcs; subst cs. cbn in Hon.
    inversion Hon; subst. inversion H; subst. cbn [snd]. eauto.
  - rewrite Hc in Hcur. inversion Hcur; subst cur. cbn [fst snd] in Hon.
    rewrite Hfalsy in Hon. cbn [negb] in Hon.
    destruct (List.length cs =? 0)%nat; inversion Hon; subst.
    + inversion H; subst. cbn [snd]. eauto.
    + unfold next_turn in H. cbn [hasMore andb] in H. inversion H; subst.
      cbn [snd]. eauto.
Qed.

(** C8: the page-fetch loop of the progressive loader ends after at most
    100 pages whatever the server answers (100 units of fuel are always
    enough, more fuel changes nothing, and the final page count is at
    most 100), and it ends right after a page that yields no conversation
    or no continuation cursor. *)
Theorem C8_loader_terminates (server : nat -> jsval -> fetch_result) (g : page_state) :
  fetchConversationsProgressively server maxPages g <> OutOfFuel
  /\ (forall extra,
        fetchConversationsProgressively server (maxPages + extra) g
          = fetchConversationsProgressively server maxPages g)
  /\ (forall g' l',
        fetchConversationsProgressively server maxPages g = Ok (g', l') ->
        (pageCount l' <= 100)%nat)
  /\ (forall data g0 l r,
        page_arrival data g0 l = Ok r ->
        page_conversations data = Ok []
        \/ (exists c b, parse_cursor data = Ok (c, b) /\ truthy c = false) ->
        exists l', snd r = Finished l').
Proof.
  assert (H : fetchConversationsProgressively server maxPages g <> OutOfFuel).
  { unfold fetchConversationsProgressively, enter_loop, next_turn.
    cbn [hasMore pageCount andb Nat.ltb Nat.leb maxPages fst snd].
    apply run_loop_terminates; cbn [pageCount]; unfold maxPages; lia. }
  split; [exact H|]. split; [|split].
  - intros extra. apply run_loop_more_fuel. exact H.
  - intros g' l' Hrun. unfold fetchConversationsProgressively in Hrun.
    apply run_loop_pageCount in Hrun; [exact Hrun|].
    unfold enter_loop, next_turn. cbn. unfold maxPages. lia.
  - intros data g0 l r. apply page_arrival_stops.
Qed.

(** The cap is reached under a cursor loop: 100 pages are fetched, then
    the loop ends. *)
Lemma cursor_loop_stops_at_cap :
  exists g' l',
    fetchConversationsProgressively cursor_loop_server maxPages idle_page = Ok (g', l')
    /\ pageCount l' = 100%nat
    /\ List.length (allConversations g') = 100%nat
    /\ isLoadingMore g' = false.
Proof. vm_compute. eexists _, _. repeat split; reflexivity. Qed.

(** *** Two loads that overlap *)

Lemma on_page_appends (data : jsval) (g g' : page_state) (l l' : loop_state)
    (brk : bool) (cs : list jsval) :
  on_page data g l = Ok (g', l', brk) ->
  page_conversations data = Ok cs ->
  allConversations g' = (allConversations g ++ cs)%list
  /\ currentPage g' = currentPage g.
Proof.
  unfold on_page. intros H Hcs. rewrite Hcs in H. cbn [bind] in H.
  apply bind_Ok in H as (cur & _ & H).
  assert (Hg : allConversations
                 (if (0 <? List.length cs)%nat
                  then mkPage (allConversations g ++ cs) (currentPage g)
                         (isLoadingMore g)
                  else g) = (allConversations g ++ cs)%list
               /\ currentPage
                    (if (0 <? List.length cs)%nat
                     then mkPage (allConversations g ++ cs) (currentPage g)
                            (isLoadingMore g)
                     else g) = currentPage g).
  { destruct cs; cbn; [rewrite app_nil_r|]; split; reflexivity. }
  repeat match type of H with context [if ?c then Ok _ else _] => destruct c end;
    inversion H; subst; exact Hg.
Qed.

Lemma next_turn_shared (g : page_state) (l : loop_state) :
  allConversations (fst (next_turn g l)) = allConversations g
  /\ currentPage (fst (next_turn g l)) = currentPage g.
Proof. unfold next_turn. destruct (_ && _); split; reflexivity. Qed.

(** The arrival of a page appends its conversations to whatever the
    shared accumulator holds at that moment, whichever loop asked. *)
Lemma page_arrival_appends (data : jsval) (g : page_state) (l : loop_state)
    (cs : list jsval) (cur : jsval * bool) :
  page_conversations data = Ok cs ->
  parse_cursor data = Ok cur ->
  exists g' s',
    page_arrival data g l = Ok (g', s')
    /\ allConversations g' = (allConversations g ++ cs)%list
    /\ currentPage g' = currentPage g.
Proof.
  intros Hcs Hcur.
  destruct (on_page data g l) as [[[g1 l1] brk]| |] eqn:Hon.
  - destruct (on_page_appends _ _ _ _ _ _ _ Hon Hcs) as [Ha Hp].
    unfold page_arrival. rewrite Hon. cbn [bind fst snd].
    destruct brk.
    + eexists _, _. split; [reflexivity|]. cbn. split; assumption.
    + destruct (next_turn_shared g1 l1) as [Ha' Hp'].
      destruct (next_turn g1 l1) as [g2 s2] eqn:E. cbn [fst] in *.
      eexists _, _. split; [reflexivity|]. split; congruence.
  - exfalso. unfold on_page in Hon. rewrite Hcs, Hcur in Hon. cbn [bind] in Hon.
    repeat match type of Hon with context [if ?c then _ else _] => destruct c end;
      discriminate.
  - destruct (on_page_not_OutOfFuel _ _ _ Hon).
Qed.

(** C9: a fresh load that starts while a previous loop is still waiting
    for a page resets the shared accumulator (allConversations = [],
    currentPage = 1) and starts its own loop; the page the previous loop
    was waiting for is then appended to the accumulator of the new load,
    and the first page of the new load comes after it: nothing tells the
    two loops apart. *)
Theorem C9_stale_loop_writes_into_new_load
    (g : page_state) (lA : loop_state) (dataA dataB : jsval)
    (csA csB : list jsval) (curA curB : jsval * bool) :
  page_conversations dataA = Ok csA ->
  parse_cursor dataA = Ok curA ->
  page_conversations dataB = Ok csB ->
  parse_cursor dataB = Ok curB ->
  exists gB lB,
    loadConversations_begin g = (gB, Awaiting lB)
    /\ allConversations gB = []
    /\ currentPage gB = 1
    /\ pageCount lB = 1%nat
    /\ exists g1 sA,
         page_arrival dataA gB lA = Ok (g1, sA)
         /\ allConversations g1 = csA
         /\ exists g2 sB,
              page_arrival dataB g1 lB = Ok (g2, sB)
              /\ allConversations g2 = (csA ++ csB)%list.
Proof.
  intros HcsA HcurA HcsB HcurB.
  eexists _, _. split; [reflexivity|]. cbn [allConversations currentPage pageCount].
  split; [reflexivity|]. split; [reflexivity|]. split; [reflexivity|].
  destruct (page_arrival_appends dataA (mkPage [] 1 true) lA csA curA HcsA HcurA)
    as (g1 & sA & HA & HallA & _).
  exists g1, sA. split; [exact HA|]. split; [exact HallA|].
  destruct (page_arrival_appends dataB g1
              (mkLoop JNull true 1) csB curB HcsB HcurB)
    as (g2 & sB & HB & HallB & _).
  exists g2, sB. split; [exact HB|]. rewrite HallB, HallA. reflexivity.
Qed.


(** ** Search/Discovery stage and Batch Orchestrator *)

Lemma discover_not_OutOfFuel (search : fetch_result) : discover search <> OutOfFuel.
Proof.
  unfold discover. destruct search as [|resp]; [discriminate|].
  cbn [await_fetch bind]. destruct (ok resp); cbn [negb].
  - unfold await_json. destruct (json resp) as [sd|]; [|discriminate]. cbn [bind].
    apply bind_not_OutOfFuel.
    + unfold candidate_ids.
      apply bind_not_OutOfFuel; [apply get_not_OutOfFuel|intros cs].
      destruct (js_or cs (JArr [])); try discriminate.
      induction elems as [|c rest IH]; [discriminate|]. cbn [map_ids].
      apply bind_not_OutOfFuel; [apply get_not_OutOfFuel|intros id].
      apply bind_not_OutOfFuel; [exact IH|discriminate].
    + intros ids.
      apply bind_not_OutOfFuel; [apply get_not_OutOfFuel|intros tc].
      apply bind_not_OutOfFuel.
      * unfold search_pagination.
        apply bind_not_OutOfFuel; [apply get_not_OutOfFuel|intros pages].
        apply bind_not_OutOfFuel; [apply get_not_OutOfFuel|intros next].
        repeat match goal with |- context [if ?c then _ else _] => destruct c end;
          discriminate.
      * intros pg.
        apply bind_not_OutOfFuel; [apply get_not_OutOfFuel|discriminate].
  - unfold await_text. destruct (text resp); discriminate.
Qed.

(** Discovery caps the candidates at 150 and reports more pages exactly
    when it found a cursor. *)
Lemma discover_facts (search : fetch_result) (d : discovery) :
  discover search = Ok d ->
  (List.length (conversationIds d) <= MAX_CONVERSATIONS)%nat
  /\ hasMorePages d = truthy (nextCursor d)
  /\ (hasMorePages d = false -> nextCursor d = JNull).
Proof.
  unfold discover. intros H.
  apply bind_Ok in H as (resp & _ & H).
  destruct (ok resp); cbn [negb] in H;
    [|apply bind_Ok in H as (t & _ & H); discriminate].
  apply bind_Ok in H as (sd & _ & H).
  apply bind_Ok in H as (ids & _ & H).
  apply bind_Ok in H as (tc & _ & H).
  apply bind_Ok in H as (pg & Hpg & H).
  apply bind_Ok in H as (pages & _ & H).
  apply Ok_inj in H. rewrite <- H. cbn [conversationIds hasMorePages nextCursor].
  split; [apply firstn_le_length|].
  unfold search_pagination in Hpg.
  apply bind_Ok in Hpg as (p & _ & Hpg). apply bind_Ok in Hpg as (next & _ & Hpg).
  destruct (truthy (get_opt next "starting_after")) eqn:E1.
  - inversion Hpg; subst pg. cbn [fst snd]. rewrite E1. split; [reflexivity|discriminate].
  - destruct (truthy (get_opt next "cursor")) eqn:E2.
    + inversion Hpg; subst pg. cbn [fst snd]. rewrite E2.
      split; [reflexivity|discriminate].
    + inversion Hpg; subst pg. cbn [fst snd]. split; reflexivity.
Qed.

Section OrchestratorFacts.

Variable Date_getTime : jsval -> option Z.
Variable toISOString : jsval -> option string.
Variable net : nat -> string -> fetch_result.
Variable elapsed : nat -> Z.
Variable platform_message : exn -> string.
Variable adminId : string.
Variable date : string.
Variables since before : Z.

Local Abbreviation process_results' :=
  (process_results Date_getTime toISOString adminId since before).
Local Abbreviation batch_loop' :=
  (batch_loop Date_getTime toISOString net elapsed adminId since before).
Local Abbreviation orchestrate' :=
  (orchestrate Date_getTime toISOString net elapsed adminId date since before).
Local Abbreviation serve' :=
  (serve Date_getTime toISOString net elapsed platform_message adminId date
     since before).

(** The fetches of a batch all settle, one result per candidate. *)
Lemma fetch_batch_fetched (batch : list jsval) :
  forall k,
    exists cs,
      fetch_batch net k batch = Ok cs
      /\ List.length cs = List.length batch
      /\ forall c, In c cs -> exists j url, c = fetched (net j url).
Proof.
  induction batch as [|id rest IH]; intros k; cbn [fetch_batch].
  - exists []. repeat split. intros c [].
  - rewrite fetchConversationWithParts_fetched. cbn [bind].
    destruct (IH (S k)) as (cs & Hcs & Hlen & Hin). rewrite Hcs. cbn [bind].
    eexists. split; [reflexivity|]. split; [cbn; congruence|].
    intros c [<-|Hc]; [eauto|apply Hin, Hc].
Qed.

Lemma hasAdminParticipation_not_OutOfFuel (c : jsval) :
  hasAdminParticipation Date_getTime c adminId since before <> OutOfFuel.
Proof.
  unfold hasAdminParticipation.
  apply bind_not_OutOfFuel.
  - unfold extract_parts.
    apply bind_not_OutOfFuel; [apply get_not_OutOfFuel|intros cp].
    destruct (truthy cp); [|discriminate]. destruct (isArray cp); [discriminate|].
    apply bind_not_OutOfFuel; [apply get_not_OutOfFuel|intros inner].
    destruct (_ && _); [discriminate|].
    apply bind_not_OutOfFuel; [apply get_not_OutOfFuel|intros ps].
    destruct (_ && _); discriminate.
  - intros parts. apply bind_not_OutOfFuel; [|discriminate].
    generalize 0. induction parts as [|p ps IH]; intros acc; [discriminate|].
    cbn [count_parts]. apply bind_not_OutOfFuel; [|intros c0; apply IH].
    unfold part_counts.
    apply bind_not_OutOfFuel; [apply get_not_OutOfFuel|intros a].
    apply bind_not_OutOfFuel; [apply get_not_OutOfFuel|intros ty].
    apply bind_not_OutOfFuel; [apply get_not_OutOfFuel|intros aid].
    destruct (negb _); [discriminate|].
    apply bind_not_OutOfFuel.
    + unfold partTimestamp.
      apply bind_not_OutOfFuel; [apply get_not_OutOfFuel|intros ca].
      destruct (truthy ca); [|discriminate]. destruct ca; discriminate.
    + intros ts. destruct (ts_falsy ts); discriminate.
Qed.

Lemma make_entry_not_OutOfFuel (c : jsval) (n : Z) :
  make_entry toISOString c n <> OutOfFuel.
Proof.
  unfold make_entry.
  do 3 (apply bind_not_OutOfFuel; [apply get_not_OutOfFuel|intros ?]).
  assert (Hiso : forall v, iso toISOString v <> OutOfFuel).
  { intros v. unfold iso. destruct (truthy v); [|discriminate].
    destruct (toISOString v); discriminate. }
  do 2 (apply bind_not_OutOfFuel; [apply Hiso|intros ?]).
  discriminate.
Qed.

Lemma process_results_not_OutOfFuel (rs : list jsval) :
  forall st, process_results' rs st <> OutOfFuel.
Proof.
  induction rs as [|c rest IH]; intros st; cbn [process_results]; [discriminate|].
  destruct (negb (truthy c)); [apply IH|].
  apply bind_not_OutOfFuel; [apply hasAdminParticipation_not_OutOfFuel|intros p].
  destruct (hasParticipation p); [|apply IH].
  apply bind_not_OutOfFuel; [apply make_entry_not_OutOfFuel|intros e; apply IH].
Qed.

(** The loop over the batches ends within the fuel the orchestrator
    gives it. *)
Lemma batch_loop_not_OutOfFuel (ids : list jsval) (fuel : nat) :
  forall i st,
    (List.length ids - i < fuel)%nat ->
    batch_loop' fuel ids i st <> OutOfFuel.
Proof.
  induction fuel as [|fuel IH]; intros i st Hfuel; [lia|].
  cbn [batch_loop].
  destruct (i <? List.length ids)%nat eqn:Ei; [|discriminate].
  destruct (elapsed i >? _); [discriminate|].
  destruct (fetch_batch_fetched (firstn BATCH_SIZE (skipn i ids)) i)
    as (cs & Hcs & _). rewrite Hcs. cbn [bind].
  apply bind_not_OutOfFuel; [apply process_results_not_OutOfFuel|intros st'].
  apply IH. apply Nat.ltb_lt in Ei. unfold BATCH_SIZE. lia.
Qed.

Lemma orchestrate_not_OutOfFuel (d : discovery) : orchestrate' d <> OutOfFuel.
Proof.
  unfold orchestrate. destruct (_ =? 0)%nat; [discriminate|].
  apply bind_not_OutOfFuel; [|discriminate].
  apply batch_loop_not_OutOfFuel. lia.
Qed.

(** *** What a run of the orchestrator preserves *)

Lemma sum_counts_snoc (l : list jsval) (e : jsval) :
  sum_counts (l ++ [e]) = sum_counts l + entry_count e.
Proof.
  unfold sum_counts. rewrite fold_right_app. cbn [fold_right].
  induction l as [|x l IH]; cbn [fold_right]; lia.
Qed.

(** The annotation of an entry is the count of the evaluator, unless
    the upstream object brings a field of that name. *)
Lemma make_entry_count (c e : jsval) (n : Z) :
  make_entry toISOString c n = Ok e ->
  unannotated c ->
  entry_count e = n.
Proof.
  unfold make_entry, unannotated. intros H Hc.
  apply bind_Ok in H as (id & _ & H). apply bind_Ok in H as (ca & _ & H).
  apply bind_Ok in H as (ua & _ & H). apply bind_Ok in H as (ci & _ & H).
  apply bind_Ok in H as (ui & _ & H). apply Ok_inj in H. subst e.
  unfold entry_count, get_opt. rewrite lookup_app, Hc. reflexivity.
Qed.

Lemma process_results_inv (rs : list jsval) :
  forall st st',
    process_results' rs st = Ok st' ->
    processedCount st' + errorCount st'
      = processedCount st + errorCount st + Z.of_nat (List.length rs)
    /\ (List.length (conversationsWithParticipation st')
        <= List.length (conversationsWithParticipation st) + List.length rs)%nat
    /\ ((forall c, In c rs -> unannotated c) ->
        totalParticipationCount st = sum_counts (conversationsWithParticipation st) ->
        totalParticipationCount st' = sum_counts (conversationsWithParticipation st')).
Proof.
  induction rs as [|c rest IH]; intros st st' H; cbn [process_results] in H.
  - apply Ok_inj in H. subst st'. cbn [List.length]. repeat split; [lia|lia|auto].
  - destruct (negb (truthy c)).
    + apply IH in H as (H1 & H2 & H3).
      cbn [processedCount errorCount conversationsWithParticipation
           totalParticipationCount List.length] in *.
      repeat split; [lia|lia|].
      intros Hun Hsum. apply H3; [intros x Hx; apply Hun; right; exact Hx|exact Hsum].
    + apply bind_Ok in H as (p & _ & H).
      destruct (hasParticipation p).
      * apply bind_Ok in H as (e & He & H).
        apply IH in H as (H1 & H2 & H3).
        cbn [processedCount errorCount conversationsWithParticipation
             totalParticipationCount List.length] in *.
        rewrite length_app in H2. cbn [List.length] in H2.
        repeat split; [lia|lia|].
        intros Hun Hsum. apply H3; [intros x Hx; apply Hun; right; exact Hx|].
        rewrite sum_counts_snoc, (make_entry_count _ _ _ He), Hsum;
          [reflexivity|apply Hun; left; reflexivity].
      * apply IH in H as (H1 & H2 & H3).
        cbn [processedCount errorCount conversationsWithParticipation
             totalParticipationCount List.length] in *.
        repeat split; [lia|lia|].
        intros Hun Hsum. apply H3; [intros x Hx; apply Hun; right; exact Hx|exact Hsum].
Qed.

Lemma batch_loop_inv (ids : list jsval) (fuel : nat) :
  forall i st st',
    batch_loop' fuel ids i st = Ok st' ->
    (List.length (conversationsWithParticipation st')
     <= List.length (conversationsWithParticipation st) + (List.length ids - i))%nat
    /\ ((forall j url, unannotated (fetched (net j url))) ->
        totalParticipationCount st = sum_counts (conversationsWithParticipation st) ->
        totalParticipationCount st' = sum_counts (conversationsWithParticipation st')).
Proof.
  induction fuel as [|fuel IH]; intros i st st' H; [discriminate|].
  cbn [batch_loop] in H.
  destruct (i <? List.length ids)%nat eqn:Ei;
    [|apply Ok_inj in H; subst st'; split; [lia|auto]].
  destruct (elapsed i >? _);
    [apply Ok_inj in H; subst st'; split; [lia|auto]|].
  apply Nat.ltb_lt in Ei.
  destruct (fetch_batch_fetched (firstn BATCH_SIZE (skipn i ids)) i)
    as (cs & Hcs & Hlen & Hin).
  rewrite Hcs in H. cbn [bind] in H.
  apply bind_Ok in H as (st1 & Hst1 & H).
  apply process_results_inv in Hst1 as (_ & L1 & S1).
  apply IH in H as (L2 & S2).
  rewrite length_firstn, length_skipn in Hlen. unfold BATCH_SIZE in *.
  split; [lia|].
  intros Hun Hsum. apply S2; [exact Hun|]. apply S1; [|exact Hsum].
  intros c Hc. destruct (Hin c Hc) as (j & url & ->). apply Hun.
Qed.

(** The loop stops at the first batch boundary where the clock is past
    55 s: every candidate before it was fetched, none after it. *)
Lemma batch_loop_early_stop (ids : list jsval) (k : nat) :
  forall fuel i st st',
    (forall k', (k' < k)%nat ->
                elapsed (i + BATCH_SIZE * k')%nat <= EDGE_FUNCTION_TIMEOUT - 5000) ->
    elapsed (i + BATCH_SIZE * k)%nat > EDGE_FUNCTION_TIMEOUT - 5000 ->
    (i + BATCH_SIZE * k < List.length ids)%nat ->
    batch_loop' fuel ids i st = Ok st' ->
    processedCount st' + errorCount st'
      = processedCount st + errorCount st + Z.of_nat (BATCH_SIZE * k).
Proof.
  induction k as [|k IH]; intros fuel i st st' Hbefore Hstop Hlt H;
    (destruct fuel as [|fuel]; [discriminate|]); cbn [batch_loop] in H.
  - rewrite Nat.mul_0_r, Nat.add_0_r in *.
    apply Nat.ltb_lt in Hlt. rewrite Hlt in H.
    replace (elapsed i >? EDGE_FUNCTION_TIMEOUT - 5000) with true in H
      by (symmetry; apply Z.gtb_lt; lia).
    apply Ok_inj in H. subst st'. cbn. lia.
  - assert (Hi : (i <? List.length ids)%nat = true)
      by (apply Nat.ltb_lt; unfold BATCH_SIZE in *; lia).
    rewrite Hi in H.
    assert (H0 := Hbefore 0%nat ltac:(lia)).
    rewrite Nat.mul_0_r, Nat.add_0_r in H0.
    replace (elapsed i >? EDGE_FUNCTION_TIMEOUT - 5000) with false in H
      by (symmetry; rewrite Z.gtb_ltb; apply Z.ltb_ge; lia).
    destruct (fetch_batch_fetched (firstn BATCH_SIZE (skipn i ids)) i)
      as (cs & Hcs & Hlen & _).
    rewrite Hcs in H. cbn [bind] in H.
    apply bind_Ok in H as (st1 & Hst1 & H).
    apply process_results_inv in Hst1 as (C1 & _ & _).
    rewrite length_firstn, length_skipn in Hlen.
    apply IH in H.
    + rewrite H, C1, Hlen. unfold BATCH_SIZE in *. lia.
    + intros k' Hk'. specialize (Hbefore (S k') ltac:(lia)).
      replace (i + BATCH_SIZE + BATCH_SIZE * k')%nat
        with (i + BATCH_SIZE * S k')%nat by (unfold BATCH_SIZE; lia).
      exact Hbefore.
    + replace (i + BATCH_SIZE + BATCH_SIZE * k)%nat
        with (i + BATCH_SIZE * S k)%nat by (unfold BATCH_SIZE; lia).
      exact Hstop.
    + unfold BATCH_SIZE in *. lia.
Qed.

(** The handler always answers: every exception ends in a 500 reply. *)
Lemma serve_total (search : fetch_result) : exists r, serve' search = Ok r.
Proof.
  unfold serve, conversations_endpoint.
  destruct (discover search) as [d| |] eqn:Hd; cbn [bind try_catch]; eauto.
  - destruct (orchestrate' d) as [r| |] eqn:Ho; cbn [try_catch]; eauto.
    destruct (orchestrate_not_OutOfFuel d Ho).
  - destruct (discover_not_OutOfFuel search Hd).
Qed.

(** A 200 reply is the reply of the orchestrator. *)
Lemma serve_200 (search : fetch_result) (d : discovery) (r : reply) :
  discover search = Ok d ->
  serve' search = Ok r ->
  reply_status r = 200 ->
  orchestrate' d = Ok r.
Proof.
  unfold serve, conversations_endpoint. intros Hd Hs H200.
  rewrite Hd in Hs. cbn [bind] in Hs.
  destruct (orchestrate' d) as [r'| |]; cbn [try_catch] in Hs.
  - exact Hs.
  - inversion Hs; subst r. discriminate.
  - discriminate.
Qed.

(** Inversion of a run of the orchestrator. *)
Lemma orchestrate_cases (d : discovery) (r : reply) :
  orchestrate' d = Ok r ->
  (conversationIds d = [] /\ r = empty_reply adminId date d)
  \/ (conversationIds d <> []
      /\ exists st,
           batch_loop' (S (List.length (conversationIds d))) (conversationIds d)
             0 init_progress = Ok st
           /\ r = full_reply adminId date d st).
Proof.
  unfold orchestrate. intros H.
  destruct (List.length (conversationIds d) =? 0)%nat eqn:E.
  - left. apply Nat.eqb_eq, length_zero_iff_nil in E.
    apply Ok_inj in H. auto.
  - right. apply Nat.eqb_neq in E.
    split; [intros E'; rewrite E' in E; apply E; reflexivity|].
    apply bind_Ok in H as (st & Hst & H). apply Ok_inj in H.
    exists st. auto.
Qed.

(** C2 (amended): when the orchestrator stops at a batch boundary
    because more than 55 s have elapsed while candidates remain, the
    response is still a 200 whose processed_count + error_count is the
    number of candidates handled before the stop, fewer than the
    candidates found; has_more is not set by the stop: it is true
    exactly when discovery extracted a cursor or found 150 candidates. *)
Theorem C2_early_stop_leaves_has_more_alone
    (search : fetch_result) (d : discovery) (r : reply) (k : nat) :
  discover search = Ok d ->
  serve' search = Ok r ->
  reply_status r = 200 ->
  (forall k', (k' < k)%nat -> elapsed (BATCH_SIZE * k')%nat <= 55000) ->
  elapsed (BATCH_SIZE * k)%nat > 55000 ->
  (BATCH_SIZE * k < List.length (conversationIds d))%nat ->
  (exists p e,
      get_opt (reply_body r) "processed_count" = JNum p
      /\ get_opt (reply_body r) "error_count" = JNum e
      /\ p + e = Z.of_nat (BATCH_SIZE * k)
      /\ p + e < Z.of_nat (List.length (conversationIds d)))
  /\ get_opt (reply_body r) "has_more"
     = JBool (truthy (nextCursor d)
              || (List.length (conversationIds d) =? MAX_CONVERSATIONS)%nat).
Proof.
  intros Hd Hs H200 Hbefore Hstop Hlt.
  apply (serve_200 _ _ _ Hd) in Hs; [|exact H200].
  destruct (discover_facts _ _ Hd) as (Hcap & Hmore & _).
  apply orchestrate_cases in Hs as [[Hnil _]|(_ & st & Hst & ->)].
  - rewrite Hnil in Hlt. cbn in Hlt. lia.
  - split.
    + exists (processedCount st), (errorCount st).
      split; [reflexivity|]. split; [reflexivity|].
      apply (batch_loop_early_stop _ k) in Hst; [| | |exact Hlt].
      * cbn [init_progress processedCount errorCount] in Hst. lia.
      * intros k' Hk'. cbn [Nat.add]. specialize (Hbefore k' Hk').
        unfold EDGE_FUNCTION_TIMEOUT. lia.
      * cbn [Nat.add]. unfold EDGE_FUNCTION_TIMEOUT. lia.
    + cbn [reply_body full_reply]. unfold get_opt.
      replace (lookup "has_more" _)
        with (Some (JBool (hasMorePages d
                           || (MAX_CONVERSATIONS <=? List.length (conversationIds d))%nat)))
        by reflexivity.
      rewrite Hmore. do 2 f_equal.
      destruct (Nat.eqb_spec (List.length (conversationIds d)) MAX_CONVERSATIONS)
        as [E|E].
      * rewrite E. apply Nat.leb_refl.
      * apply Nat.leb_gt. lia.
Qed.

(** C3 (amended): a 200 response never returns more conversations than
    discovery supplied candidates, and, provided no fetched conversation
    carries an upstream field named participation_part_count (such a
    field would replace the annotation, the upstream object being spread
    last), participation_count is the sum of participation_part_count
    over the returned conversations. *)
Theorem C3_counts_are_consistent
    (search : fetch_result) (d : discovery) (r : reply) :
  discover search = Ok d ->
  serve' search = Ok r ->
  reply_status r = 200 ->
  (forall j url, unannotated (fetched (net j url))) ->
  exists convs total,
    get_opt (reply_body r) "conversations" = JArr convs
    /\ get_opt (reply_body r) "participation_count" = JNum total
    /\ (List.length convs <= List.length (conversationIds d))%nat
    /\ total = sum_counts convs.
Proof.
  intros Hd Hs H200 Hun.
  apply (serve_200 _ _ _ Hd) in Hs; [|exact H200].
  apply orchestrate_cases in Hs as [[Hnil ->]|(_ & st & Hst & ->)].
  - exists [], 0. repeat split; cbn; lia.
  - exists (conversationsWithParticipation st), (totalParticipationCount st).
    apply batch_loop_inv in Hst as (L & S).
    split; [reflexivity|]. split; [reflexivity|].
    cbn in L. split; [lia|]. apply S; [exact Hun|reflexivity].
Qed.

(** C6 (amended): every 200 response contains conversations,
    total_count, intercom_total_count, participation_count and has_more;
    with a non-empty candidate set it also contains processed_count,
    error_count and next_cursor, and with zero candidates it contains
    none of these three. *)
Theorem C6_response_fields
    (search : fetch_result) (d : discovery) (r : reply) :
  discover search = Ok d ->
  serve' search = Ok r ->
  reply_status r = 200 ->
  (forall k,
      In k ["conversations"; "total_count"; "intercom_total_count";
            "participation_count"; "has_more"] ->
      has_field (reply_body r) k = true)
  /\ (forall k,
        In k ["processed_count"; "error_count"; "next_cursor"] ->
        has_field (reply_body r) k
          = negb (List.length (conversationIds d) =? 0)%nat).
Proof.
  intros Hd Hs H200.
  apply (serve_200 _ _ _ Hd) in Hs; [|exact H200].
  assert (Htotal : intercomTotalCount d <> JUndefined).
  { clear Hs. unfold discover in Hd.
    apply bind_Ok in Hd as (resp & _ & Hd).
    destruct (ok resp); cbn [negb] in Hd;
      [|apply bind_Ok in Hd as (t & _ & Hd); discriminate].
    apply bind_Ok in Hd as (sd & _ & Hd). apply bind_Ok in Hd as (ids & _ & Hd).
    apply bind_Ok in Hd as (tc & _ & Hd). apply bind_Ok in Hd as (pg & _ & Hd).
    apply bind_Ok in Hd as (pages & _ & Hd). apply Ok_inj in Hd. rewrite <- Hd.
    cbn [intercomTotalCount]. unfold js_or.
    destruct (truthy tc) eqn:E; [|discriminate].
    intros ->. discriminate. }
  assert (Hcursor : nextCursor d <> JUndefined).
  { destruct (discover_facts _ _ Hd) as (_ & Hmore & Hnull).
    destruct (hasMorePages d).
    - intros E. rewrite E in Hmore. discriminate.
    - rewrite (Hnull eq_refl). discriminate. }
  apply orchestrate_cases in Hs as [[Hnil ->]|(Hne & st & _ & ->)].
  - rewrite Hnil. cbn [List.length Nat.eqb negb]. split.
    + intros k Hk. cbn in Hk.
      destruct Hk as [<-|[<-|[<-|[<-|[<-|[]]]]]]; try reflexivity.
      cbn. destruct (intercomTotalCount d); try reflexivity. contradiction.
    + intros k Hk. cbn in Hk. destruct Hk as [<-|[<-|[<-|[]]]]; reflexivity.
  - destruct (conversationIds d) as [|id ids] eqn:E; [contradiction|].
    cbn [List.length Nat.eqb negb]. split.
    + intros k Hk. cbn in Hk.
      destruct Hk as [<-|[<-|[<-|[<-|[<-|[]]]]]]; try reflexivity.
      cbn. destruct (intercomTotalCount d); try reflexivity. contradiction.
    + intros k Hk. cbn in Hk. destruct Hk as [<-|[<-|[<-|[]]]]; try reflexivity.
      cbn. destruct (nextCursor d); try reflexivity. contradiction.
Qed.

(** C10: in every 200 response with a non-empty candidate set, has_more
    is true exactly when discovery extracted a continuation cursor or
    the candidates reached the cap of 150; a full page of 150 has
    has_more = true whether or not a cursor came with it. *)
Theorem C10_has_more
    (search : fetch_result) (d : discovery) (r : reply) :
  discover search = Ok d ->
  serve' search = Ok r ->
  reply_status r = 200 ->
  conversationIds d <> [] ->
  (exists b,
      get_opt (reply_body r) "has_more" = JBool b
      /\ (b = true <->
          nextCursor d <> JNull
          \/ List.length (conversationIds d) = MAX_CONVERSATIONS))
  /\ (List.length (conversationIds d) = MAX_CONVERSATIONS ->
      get_opt (reply_body r) "has_more" = JBool true).
Proof.
  intros Hd Hs H200 Hne.
  apply (serve_200 _ _ _ Hd) in Hs; [|exact H200].
  destruct (discover_facts _ _ Hd) as (Hcap & Hmore & Hnull).
  apply orchestrate_cases in Hs as [[Hnil _]|(_ & st & _ & ->)]; [contradiction|].
  assert (Hfield : get_opt (reply_body (full_reply adminId date d st)) "has_more"
                   = JBool (hasMorePages d
                            || (MAX_CONVERSATIONS
                                <=? List.length (conversationIds d))%nat))
    by reflexivity.
  rewrite Hfield. split.
  - eexists. split; [reflexivity|].
    rewrite orb_true_iff, Nat.leb_le. split.
    + intros [Hm|Hl]; [left|right; lia].
      intros E. rewrite E in Hmore. rewrite Hm in Hmore. discriminate.
    + intros [Hc|Hl]; [left|right; lia].
      destruct (hasMorePages d); [reflexivity|].
      destruct Hc. apply Hnull. reflexivity.
  - intros ->. rewrite Nat.leb_refl, orb_true_r. reflexivity.
Qed.

End OrchestratorFacts.

(** *** Runs of the handler on the sample upstream *)

Lemma twenty_discovered : discover twenty_search = Ok twenty_discovery.
Proof. vm_compute. reflexivity. Qed.

Lemma empty_discovered : discover empty_search = Ok empty_discovery.
Proof. vm_compute. reflexivity. Qed.

Lemma full_page_discovered : discover full_page_search = Ok full_page_discovery.
Proof. vm_compute. reflexivity. Qed.

Lemma truncated_run :
  sample_serve steady_net slow_clock twenty_search = Ok truncated_reply.
Proof. vm_compute. reflexivity. Qed.

Lemma twenty_run :
  sample_serve steady_net fast_clock twenty_search = Ok twenty_reply.
Proof. vm_compute. reflexivity. Qed.

Lemma zero_run :
  sample_serve steady_net fast_clock empty_search = Ok zero_reply.
Proof. vm_compute. reflexivity. Qed.

Lemma annotated_run :
  sample_serve annotating_net fast_clock single_search = Ok annotated_reply.
Proof. vm_compute. reflexivity. Qed.

Lemma full_page_run :
  sample_serve steady_net fast_clock full_page_search = Ok full_page_reply.
Proof. vm_compute. reflexivity. Qed.

(** C2, as stated, fails: with 20 candidates, no cursor and a clock past
    55 s at the second batch, the loop stops after 10 candidates and the
    200 response says has_more = false. *)
Lemma C2_counterexample :
  discover twenty_search = Ok twenty_discovery
  /\ List.length (conversationIds twenty_discovery) = 20%nat
  /\ slow_clock 0 <= 55000
  /\ slow_clock 10 > 55000
  /\ sample_serve steady_net slow_clock twenty_search = Ok truncated_reply
  /\ reply_status truncated_reply = 200
  /\ get_opt (reply_body truncated_reply) "processed_count" = JNum 10
  /\ get_opt (reply_body truncated_reply) "error_count" = JNum 0
  /\ get_opt (reply_body truncated_reply) "has_more" = JBool false.
Proof.
  split; [exact twenty_discovered|]. split; [reflexivity|].
  split; [vm_compute; discriminate|]. split; [reflexivity|].
  split; [exact truncated_run|]. repeat split; reflexivity.
Qed.

Lemma C2_early_stop_leaves_has_more_alone_witness :
  (exists p e,
      get_opt (reply_body truncated_reply) "processed_count" = JNum p
      /\ get_opt (reply_body truncated_reply) "error_count" = JNum e
      /\ p + e = Z.of_nat (BATCH_SIZE * 1)
      /\ p + e < Z.of_nat (List.length (conversationIds twenty_discovery)))
  /\ get_opt (reply_body truncated_reply) "has_more"
     = JBool (truthy (nextCursor twenty_discovery)
              || (List.length (conversationIds twenty_discovery)
                  =? MAX_CONVERSATIONS)%nat).
Proof.
  apply (C2_early_stop_leaves_has_more_alone no_dates iso_epoch steady_net slow_clock
           plain_message "8742044" "2025-11-10" 1762740000 1762826399
           twenty_search twenty_discovery truncated_reply 1%nat
           twenty_discovered truncated_run).
  - reflexivity.
  - intros k' Hk'. assert (k' = 0%nat) by lia. subst k'. vm_compute. discriminate.
  - reflexivity.
  - vm_compute. lia.
Defined.

(** C3, as stated, fails when the upstream conversation has a field
    named participation_part_count: the evaluator counts 1 part and
    participation_count is 1, but the returned conversation shows the
    upstream value 99. *)
Lemma C3_counterexample :
  sample_serve annotating_net fast_clock single_search = Ok annotated_reply
  /\ reply_status annotated_reply = 200
  /\ get_opt (reply_body annotated_reply) "participation_count" = JNum 1
  /\ sum_counts (elems_of (get_opt (reply_body annotated_reply) "conversations"))
     = 99.
Proof. split; [exact annotated_run|]. repeat split; reflexivity. Qed.

Lemma steady_net_unannotated (j : nat) (url : string) :
  unannotated (fetched (steady_net j url)).
Proof. reflexivity. Qed.

Lemma C3_counts_are_consistent_witness :
  exists convs total,
    get_opt (reply_body twenty_reply) "conversations" = JArr convs
    /\ get_opt (reply_body twenty_reply) "participation_count" = JNum total
    /\ (List.length convs <= List.length (conversationIds twenty_discovery))%nat
    /\ total = sum_counts convs.
Proof.
  exact (C3_counts_are_consistent no_dates iso_epoch steady_net fast_clock
           plain_message "8742044" "2025-11-10" 1762740000 1762826399
           twenty_search twenty_discovery twenty_reply
           twenty_discovered twenty_run eq_refl steady_net_unannotated).
Defined.

(** C6, as stated, fails when discovery finds no candidate: the 200
    response has neither processed_count, nor error_count, nor
    next_cursor. *)
Lemma C6_counterexample :
  discover empty_search = Ok empty_discovery
  /\ conversationIds empty_discovery = []
  /\ sample_serve steady_net fast_clock empty_search = Ok zero_reply
  /\ reply_status zero_reply = 200
  /\ has_field (reply_body zero_reply) "processed_count" = false
  /\ has_field (reply_body zero_reply) "error_count" = false
  /\ has_field (reply_body zero_reply) "next_cursor" = false.
Proof.
  split; [exact empty_discovered|]. split; [reflexivity|].
  split; [exact zero_run|]. repeat split; reflexivity.
Qed.

Lemma C6_response_fields_witness :
  (forall k,
      In k ["conversations"; "total_count"; "intercom_total_count";
            "participation_count"; "has_more"] ->
      has_field (reply_body twenty_reply) k = true)
  /\ (forall k,
        In k ["processed_count"; "error_count"; "next_cursor"] ->
        has_field (reply_body twenty_reply) k
          = negb (List.length (conversationIds twenty_discovery) =? 0)%nat).
Proof.
  exact (C6_response_fields no_dates iso_epoch steady_net fast_clock
           plain_message "8742044" "2025-11-10" 1762740000 1762826399
           twenty_search twenty_discovery twenty_reply
           twenty_discovered twenty_run eq_refl).
Defined.

Lemma C10_has_more_witness :
  nextCursor full_page_discovery = JNull
  /\ List.length (conversationIds full_page_discovery) = MAX_CONVERSATIONS
  /\ get_opt (reply_body full_page_reply) "has_more" = JBool true.
Proof.
  split; [reflexivity|]. split; [reflexivity|].
  apply (C10_has_more no_dates iso_epoch steady_net fast_clock
           plain_message "8742044" "2025-11-10" 1762740000 1762826399
           full_page_search full_page_discovery full_page_reply
           full_page_discovered full_page_run eq_refl).
  - discriminate.
  - reflexivity.
Defined.

(** ** Cursor extraction *)

Lemma after_first_app (c : ascii) (a b : string) :
  after_first c a = None ->
  after_first c (a ++ String c b) = Some b.
Proof.
  induction a as [|x a IH]; cbn [after_first append]; intros H.
  - rewrite Ascii.eqb_refl. reflexivity.
  - destruct (Ascii.eqb x c); [discriminate|]. apply IH, H.
Qed.

Lemma before_first_all (c : ascii) (s : string) :
  after_first c s = None -> before_first c s = s.
Proof.
  induction s as [|x s IH]; cbn [after_first before_first]; intros H.
  - reflexivity.
  - destruct (Ascii.eqb x c); [discriminate|]. rewrite IH by exact H. reflexivity.
Qed.

Lemma split_on_single (c : ascii) (s : string) :
  after_first c s = None -> split_on c s = [s].
Proof.
  induction s as [|x s IH]; cbn [after_first split_on]; intros H.
  - reflexivity.
  - destruct (Ascii.eqb x c); [discriminate|]. rewrite IH by exact H. reflexivity.
Qed.

Lemma form_decode_nonempty (s : string) : s <> "" -> form_decode s <> "".
Proof.
  destruct s as [|c rest]; [contradiction|]. intros _. cbn [form_decode].
  destruct (Ascii.eqb c "+"); [discriminate|].
  destruct (Ascii.eqb c "%"); [|discriminate].
  destruct rest as [|h [|l rest']]; try discriminate.
  destruct (hex_of h), (hex_of l); discriminate.
Qed.

(** The query string [starting_after=tok] yields the decoded token. *)
Lemma query_starting_after (tok : string) :
  after_first "?" tok = None ->
  after_first "&" tok = None ->
  params_get "starting_after"
    (URLSearchParams (before_first "?" ("starting_after=" ++ tok)))
  = JStr (form_decode tok).
Proof.
  intros Hq Ha.
  assert (H1 : after_first "?" ("starting_after=" ++ tok) = None) by exact Hq.
  assert (H2 : after_first "&" ("starting_after=" ++ tok) = None) by exact Ha.
  rewrite (before_first_all _ _ H1). unfold URLSearchParams.
  rewrite (split_on_single _ _ H2). reflexivity.
Qed.

(** The loader on a next token that is a URL with a query string. *)
Lemma split_on_nonempty (c : ascii) (s : string) : split_on c s <> [].
Proof.
  induction s as [|x s IH]; cbn [split_on]; [discriminate|].
  destruct (Ascii.eqb x c); [discriminate|].
  destruct (split_on c s); discriminate.
Qed.

Lemma split_on_concat (c : ascii) (a b : string) :
  split_on c (a ++ String c b) = (split_on c a ++ split_on c b)%list.
Proof.
  induction a as [|x a IH]; cbn [split_on append].
  - rewrite Ascii.eqb_refl. reflexivity.
  - destruct (Ascii.eqb x c); rewrite IH; [reflexivity|].
    destruct (split_on c a) as [|h t] eqn:E; [|reflexivity].
    destruct (split_on_nonempty c a E).
Qed.

(** The parameters of [a&b] are those of [a] followed by those of [b]. *)
Lemma URLSearchParams_amp (a b : string) :
  URLSearchParams (a ++ String "&" b)
  = (URLSearchParams a ++ URLSearchParams b)%list.
Proof.
  unfold URLSearchParams. rewrite split_on_concat, filter_app, map_app. reflexivity.
Qed.

Lemma params_get_app (name : string) (ps qs : list (string * string)) :
  params_get name ps = JNull ->
  params_get name (ps ++ qs) = params_get name qs.
Proof.
  induction ps as [|[n v] ps IH]; cbn [params_get app]; intros H; [reflexivity|].
  destruct (n =? name)%string; [discriminate|]. apply IH, H.
Qed.

Lemma join_cons (sep x : string) (rest : list string) :
  rest <> [] -> join sep (x :: rest) = (x ++ sep ++ join sep rest)%string.
Proof. destruct rest; [contradiction|reflexivity]. Qed.

Lemma URLSearchParams_join (segs1 segs2 : list string) :
  segs2 <> [] ->
  URLSearchParams (join "&" (segs1 ++ segs2))
  = (URLSearchParams (join "&" segs1) ++ URLSearchParams (join "&" segs2))%list.
Proof.
  intros Hne. induction segs1 as [|x segs1 IH]; [reflexivity|].
  cbn [app]. rewrite join_cons by (destruct segs1; [exact Hne|discriminate]).
  change (x ++ "&" ++ ?r)%string with (x ++ String "&" r)%string.
  rewrite URLSearchParams_amp, IH.
  destruct segs1 as [|y segs1].
  - reflexivity.
  - rewrite (join_cons "&" x (y :: segs1)) by discriminate.
    change (x ++ "&" ++ ?r)%string with (x ++ String "&" r)%string.
    rewrite URLSearchParams_amp, app_assoc. reflexivity.
Qed.

Lemma starting_after_segment (tok : string) :
  after_first "&" tok = None ->
  URLSearchParams ("starting_after=" ++ tok) = [("starting_after", form_decode tok)].
Proof.
  intros Ha.
  assert (H : after_first "&" ("starting_after=" ++ tok) = None) by exact Ha.
  unfold URLSearchParams. rewrite (split_on_single _ _ H). reflexivity.
Qed.

(** The first starting_after parameter of a query, among any others. *)
Lemma query_first_starting_after (segs1 segs2 : list string) (tok : string) :
  params_get "starting_after" (URLSearchParams (join "&" segs1)) = JNull ->
  after_first "&" tok = None ->
  params_get "starting_after"
    (URLSearchParams (join "&" (segs1 ++ ("starting_after=" ++ tok) :: segs2)))
  = JStr (form_decode tok).
Proof.
  intros Hbefore Ha.
  rewrite URLSearchParams_join by discriminate.
  rewrite params_get_app by exact Hbefore.
  destruct segs2 as [|y segs2].
  - cbn [join]. rewrite starting_after_segment by exact Ha. reflexivity.
  - rewrite (join_cons "&" _ (y :: segs2)) by discriminate.
    change (?x ++ "&" ++ ?r)%string with (x ++ String "&" r)%string.
    rewrite URLSearchParams_amp, starting_after_segment by exact Ha. reflexivity.
Qed.

Lemma parse_cursor_url (data pages : jsval) (base tok : string)
    (segs1 segs2 : list string) :
  get data "pages" = Ok pages ->
  truthy pages = true ->
  get pages "next"
    = Ok (JStr (base ++ "?"
                ++ join "&" (segs1 ++ ("starting_after=" ++ tok) :: segs2))) ->
  after_first "?" base = None ->
  after_first "?" (join "&" (segs1 ++ ("starting_after=" ++ tok) :: segs2)) = None ->
  params_get "starting_after" (URLSearchParams (join "&" segs1)) = JNull ->
  after_first "&" tok = None ->
  tok <> "" ->
  parse_cursor data = Ok (JStr (form_decode tok), true).
Proof.
  intros Hp Ht Hn Hb Hq Hbefore Ha Hne. unfold parse_cursor.
  rewrite Hp. cbn [bind]. rewrite Ht, Hn. cbn [bind].
  set (q := join "&" (segs1 ++ ("starting_after=" ++ tok) :: segs2)) in *.
  assert (Htruthy : truthy (JStr (base ++ "?" ++ q)) = true).
  { destruct base; reflexivity. }
  rewrite Htruthy.
  change (base ++ "?" ++ q)%string with (base ++ String "?" q)%string.
  rewrite (after_first_app _ _ _ Hb), (before_first_all _ _ Hq).
  subst q. rewrite (query_first_starting_after _ _ _ Hbefore Ha).
  f_equal. f_equal. cbn [truthy].
  destruct (String.eqb_spec (form_decode tok) ""); [|reflexivity].
  exfalso. apply (form_decode_nonempty tok Hne). assumption.
Qed.

Lemma truthy_or_null (v : jsval) : truthy (js_or v JNull) = truthy v.
Proof. unfold js_or. destruct (truthy v) eqn:E; [exact E|reflexivity]. Qed.

(** C5, as stated, fails for the server-side Search/Discovery stage: a
    next token that is a bare string, or a URL with the cursor in its
    query string, is not extracted; next_cursor stays null, hasMorePages
    false, and the 200 response says next_cursor = null, has_more =
    false. *)
Lemma C5_counterexample :
  search_pagination (search_result ["1"] (pages_with bare_next)) = Ok (JNull, false)
  /\ search_pagination (search_result ["1"] (pages_with url_next)) = Ok (JNull, false)
  /\ discover bare_search = Ok bare_discovery
  /\ nextCursor bare_discovery = JNull
  /\ hasMorePages bare_discovery = false
  /\ discover url_search = Ok url_discovery
  /\ nextCursor url_discovery = JNull
  /\ hasMorePages url_discovery = false
  /\ sample_serve steady_net fast_clock bare_search = Ok bare_reply
  /\ reply_status bare_reply = 200
  /\ get_opt (reply_body bare_reply) "next_cursor" = JNull
  /\ get_opt (reply_body bare_reply) "has_more" = JBool false.
Proof.
  split; [reflexivity|]. split; [reflexivity|].
  split; [vm_compute; reflexivity|]. split; [reflexivity|]. split; [reflexivity|].
  split; [vm_compute; reflexivity|]. split; [reflexivity|]. split; [reflexivity|].
  split; [vm_compute; reflexivity|]. repeat split; reflexivity.
Qed.

(** C5 (amended): for a search response whose pages carry a next token,
    the server-side stage extracts the cursor (and reports more pages)
    only from a structured token, taking its starting_after field or
    else its cursor field; for a token that is a string it reports no
    cursor. The client loader, which reads the forwarded pages object,
    extracts the cursor in all three forms: a bare string (one without
    ?) as it is; a URL with a single ? from the first starting_after
    parameter of its query, whatever other parameters stand before and
    after it, as the percent-decoded value of that parameter when the
    value is not empty and decodes to ASCII text; a structured token
    from its starting_after or cursor field. *)
Theorem C5_cursor_extraction (data pages next : jsval) :
  get data "pages" = Ok pages ->
  truthy pages = true ->
  get pages "next" = Ok next ->
  truthy next = true ->
  (forall fs,
      next = JObj fs ->
      search_pagination data
        = Ok (js_or (js_or (get_opt next "starting_after") (get_opt next "cursor"))
                    JNull,
              truthy (js_or (get_opt next "starting_after") (get_opt next "cursor")))
      /\ parse_cursor data
         = Ok (js_or (js_or (get_opt next "starting_after") (get_opt next "cursor"))
                     JNull,
               truthy (js_or (get_opt next "starting_after") (get_opt next "cursor"))))
  /\ (forall s,
        next = JStr s ->
        search_pagination data = Ok (JNull, false))
  /\ (forall s,
        next = JStr s ->
        after_first "?" s = None ->
        parse_cursor data = Ok (JStr s, true))
  /\ (forall base segs1 tok segs2,
        next = JStr (base ++ "?"
                     ++ join "&" (segs1 ++ ("starting_after=" ++ tok) :: segs2)) ->
        after_first "?" base = None ->
        after_first "?" (join "&" (segs1 ++ ("starting_after=" ++ tok) :: segs2))
          = None ->
        params_get "starting_after" (URLSearchParams (join "&" segs1)) = JNull ->
        after_first "&" tok = None ->
        tok <> "" ->
        ascii_only (form_decode tok) = true ->
        parse_cursor data = Ok (JStr (form_decode tok), true)).
Proof.
  intros Hp Ht Hn Hnext.
  assert (Hserver : search_pagination data
            = if truthy (get_opt next "starting_after")
              then Ok (get_opt next "starting_after", true)
              else if truthy (get_opt next "cursor")
                   then Ok (get_opt next "cursor", true)
                   else Ok (JNull, false)).
  { unfold search_pagination. rewrite Hp. cbn [bind]. unfold js_or at 1.
    rewrite Ht, Hn. reflexivity. }
  split; [|split; [|split]].
  - intros fs ->. split.
    + rewrite Hserver. unfold js_or.
      destruct (truthy (get_opt (JObj fs) "starting_after")) eqn:E1;
        cbv beta iota; rewrite ?E1; [reflexivity|].
      destruct (truthy (get_opt (JObj fs) "cursor")) eqn:E2;
        cbv beta iota; rewrite ?E2; reflexivity.
    + unfold parse_cursor. rewrite Hp. cbn [bind]. rewrite Ht, Hn. cbn [bind truthy].
      cbv beta iota. rewrite truthy_or_null. reflexivity.
  - intros s ->. rewrite Hserver. reflexivity.
  - intros s -> Hq. unfold parse_cursor.
    rewrite Hp. cbn [bind]. rewrite Ht, Hn. cbn [bind]. rewrite Hnext, Hq.
    cbv beta iota zeta. rewrite Hnext. reflexivity.
  - intros base segs1 tok segs2 -> Hb Hq Hbefore Ha Hne _.
    apply (parse_cursor_url data pages base tok segs1 segs2); assumption.
Qed.

Lemma C5_cursor_extraction_witness :
  search_pagination (search_result ["1"] (pages_with url_next)) = Ok (JNull, false)
  /\ parse_cursor (search_result ["1"] (pages_with url_next))
     = Ok (JStr "WzE3NjI2MTI5OTAwMDBd", true)
  /\ parse_cursor (search_result ["1"] (pages_with bare_next))
     = Ok (bare_next, true)
  /\ search_pagination (search_result ["1"] (pages_with object_next))
     = Ok (JStr "WzE3NjI2MTI5OTAwMDBd", true)
  /\ parse_cursor (search_result ["1"] (pages_with url_next_among_parameters))
     = Ok (JStr "WzE3NjI2MTI5OTAwMDBd", true).
Proof.
  assert (Hp := C5_cursor_extraction
                  (search_result ["1"] (pages_with url_next_among_parameters))
                  (pages_with url_next_among_parameters) url_next_among_parameters
                  eq_refl eq_refl eq_refl eq_refl).
  assert (Hu := C5_cursor_extraction (search_result ["1"] (pages_with url_next))
                  (pages_with url_next) url_next eq_refl eq_refl eq_refl eq_refl).
  assert (Hb := C5_cursor_extraction (search_result ["1"] (pages_with bare_next))
                  (pages_with bare_next) bare_next eq_refl eq_refl eq_refl eq_refl).
  assert (Ho := C5_cursor_extraction (search_result ["1"] (pages_with object_next))
                  (pages_with object_next) object_next
                  eq_refl eq_refl eq_refl eq_refl).
  split; [exact (proj1 (proj2 Hu) _ eq_refl)|].
  split.
  - exact (proj2 (proj2 (proj2 Hu))
             "https://api.intercom.io/conversations/search" []
             "WzE3NjI2MTI5OTAwMDBd" []
             eq_refl eq_refl eq_refl eq_refl eq_refl ltac:(discriminate) eq_refl).
  - split; [exact (proj1 (proj2 (proj2 Hb)) _ eq_refl eq_refl)|].
    split; [exact (proj1 (proj1 Ho _ eq_refl))|].
    exact (proj2 (proj2 (proj2 Hp))
             "https://api.intercom.io/conversations/search" ["per_page=150"]
             "WzE3NjI2MTI5OTAwMDBd" ["order=desc"]
             eq_refl eq_refl eq_refl eq_refl eq_refl ltac:(discriminate) eq_refl).
Defined.

(** *** Two overlapping loads on sample pages *)

Lemma C9_stale_loop_writes_into_new_load_witness :
  exists gB lB,
    loadConversations_begin (mkPage [obj [("id", JStr "a1")]] 3 true)
      = (gB, Awaiting lB)
    /\ allConversations gB = []
    /\ currentPage gB = 1
    /\ pageCount lB = 1%nat
    /\ exists g1 sA,
         page_arrival (sample_page ["a2"; "a3"] object_next) gB
           (mkLoop (JStr "c1") true 2) = Ok (g1, sA)
         /\ allConversations g1 = [obj [("id", JStr "a2")]; obj [("id", JStr "a3")]]
         /\ exists g2 sB,
              page_arrival (sample_page ["b1"] JNull) g1 lB = Ok (g2, sB)
              /\ allConversations g2
                 = ([obj [("id", JStr "a2")]; obj [("id", JStr "a3")]]
                    ++ [obj [("id", JStr "b1")]])%list.
Proof.
  exact (C9_stale_loop_writes_into_new_load
           (mkPage [obj [("id", JStr "a1")]] 3 true) (mkLoop (JStr "c1") true 2)
           (sample_page ["a2"; "a3"] object_next) (sample_page ["b1"] JNull)
           _ _ _ _ eq_refl eq_refl eq_refl eq_refl).
Defined.

(* ================================================================== *)
(** * Further properties *)

(** ** What the evaluator counts *)

Lemma bind_Ok_true_non_nullish (part : jsval) (k : string) (v : jsval) :
  get part k = Ok v -> nullish part = false.
Proof. destruct part; simpl; intros H; try discriminate; reflexivity. Qed.

(** X1: A part is counted only when its author is an admin, the author id
    matches the admin id, and the timestamp the code computed lies in
    the window: nothing else is ever counted. *)
Theorem counted_part_is_admin_in_window
    (D : jsval -> option Z) (adminId : string) (since before : Z) (part : jsval) :
  part_counts D adminId since before part = Ok true ->
  get_opt (get_opt part "author") "type" = JStr "admin"
  /\ isTargetAdmin (js_String (get_opt (get_opt part "author") "id")) adminId = true
  /\ exists t,
       partTimestamp D part = Ok (TsNum t)
       /\ since <= t <= before.
Proof.
  intros H.
  assert (Hp : nullish part = false).
  { unfold part_counts in H. apply bind_Ok in H as (a & Ha & _).
    exact (bind_Ok_true_non_nullish _ _ _ Ha). }
  rewrite (part_counts_spec D adminId since before part Hp) in H.
  apply Ok_inj in H. unfold counted in H.
  repeat (apply andb_prop in H as [H ?]).
  repeat split.
  - unfold author_type_of, author_of, is_admin_type in *.
    destruct (get_opt (get_opt part "author") "type"); try discriminate.
    f_equal. apply String.eqb_eq. assumption.
  - unfold spec_id_equal, isTargetAdmin, author_id_of, author_of in *.
    destruct (js_String (get_opt (get_opt part "author") "id") =? adminId)%string;
      [reflexivity|].
    cbn [orb] in *.
    destruct (parseInt (js_String (get_opt (get_opt part "author") "id"))),
             (parseInt adminId); try discriminate; assumption.
  - rewrite (partTimestamp_spec D part Hp).
    match goal with Ht : truthy (created_at_of part) = true |- _ => rewrite Ht end.
    destruct (spec_timestamp D (created_at_of part)) as [t|]; [|discriminate].
    exists t. split; [reflexivity|].
    match goal with Hw : in_window _ _ _ = true |- _ =>
      cbn [in_window] in Hw; apply andb_prop in Hw as [Hl Hr] end.
    apply Z.leb_le in Hl. apply Z.leb_le in Hr. lia.
Qed.

Lemma counted_part_is_admin_in_window_witness :
  part_counts no_dates "8742044" 1762740000 1762826399
    (mk_part "admin" (JNum 8742044) (JNum 1762748805000)) = Ok true
  /\ exists t,
       partTimestamp no_dates (mk_part "admin" (JNum 8742044) (JNum 1762748805000))
         = Ok (TsNum t)
       /\ 1762740000 <= t <= 1762826399.
Proof.
  assert (H : part_counts no_dates "8742044" 1762740000 1762826399
                (mk_part "admin" (JNum 8742044) (JNum 1762748805000)) = Ok true)
    by reflexivity.
  split; [exact H|].
  exact (proj2 (proj2 (counted_part_is_admin_in_window _ _ _ _ _ H))).
Defined.

Lemma count_parts_bounds (D : jsval -> option Z) (adminId : string)
    (since before : Z) (parts : list jsval) :
  forall acc n,
    count_parts D adminId since before parts acc = Ok n ->
    acc <= n <= acc + Z.of_nat (List.length parts).
Proof.
  induction parts as [|p ps IH]; intros acc n H; cbn [count_parts] in H.
  - apply Ok_inj in H. cbn. lia.
  - apply bind_Ok in H as (c & _ & H). apply IH in H.
    cbn [List.length]. destruct c; lia.
Qed.

(** X2: The count the evaluator returns lies between 0 and the number of
    parts of the conversation, and a conversation without a recognised
    parts collection has no participation. *)
Theorem participation_count_bounds
    (D : jsval -> option Z) (conversation : jsval) (adminId : string)
    (since before : Z) (p : participation) :
  hasAdminParticipation D conversation adminId since before = Ok p ->
  (exists parts,
      extract_parts conversation = Ok parts
      /\ 0 <= partCount p <= Z.of_nat (List.length parts))
  /\ (hasParticipation p = true <-> 0 < partCount p)
  /\ (isArray (get_opt conversation "conversation_parts") = false ->
      isArray (get_opt (get_opt conversation "conversation_parts")
                 "conversation_parts") = false ->
      isArray (get_opt (get_opt conversation "conversation_parts") "parts") = false ->
      p = mkParticipation false 0).
Proof.
  unfold hasAdminParticipation. intros H.
  apply bind_Ok in H as (parts & Hparts & H).
  apply bind_Ok in H as (n & Hn & H). apply Ok_inj in H. subst p.
  cbn [partCount hasParticipation].
  split; [|split].
  - exists parts. split; [exact Hparts|].
    apply count_parts_bounds in Hn. lia.
  - apply Z.ltb_lt.
  - intros H1 H2 H3.
    assert (Hc : nullish conversation = false).
    { unfold extract_parts in Hparts. apply bind_Ok in Hparts as (cp & Hcp & _).
      exact (bind_Ok_true_non_nullish _ _ _ Hcp). }
    unfold extract_parts in Hparts.
    rewrite (get_non_nullish _ _ Hc) in Hparts. cbn [bind] in Hparts.
    assert (parts = []).
    { destruct (truthy (get_opt conversation "conversation_parts")) eqn:Et;
        [|apply Ok_inj in Hparts; auto].
      rewrite H1 in Hparts.
      rewrite (get_non_nullish _ "conversation_parts" (truthy_not_nullish _ Et))
        in Hparts. cbn [bind] in Hparts.
      rewrite H2, andb_false_r in Hparts.
      rewrite (get_non_nullish _ "parts" (truthy_not_nullish _ Et)) in Hparts.
      cbn [bind] in Hparts. rewrite H3, andb_false_r in Hparts.
      apply Ok_inj in Hparts. auto. }
    subst parts. cbn in Hn. apply Ok_inj in Hn. subst n. reflexivity.
Qed.

Lemma participation_count_bounds_witness :
  hasAdminParticipation no_dates scenario_conversation "8742044"
    1762740000 1762826399 = Ok (mkParticipation true 2)
  /\ exists parts,
       extract_parts scenario_conversation = Ok parts
       /\ 0 <= 2 <= Z.of_nat (List.length parts).
Proof.
  assert (H : hasAdminParticipation no_dates scenario_conversation "8742044"
                1762740000 1762826399 = Ok (mkParticipation true 2))
    by reflexivity.
  split; [exact H|].
  exact (proj1 (participation_count_bounds _ _ _ _ _ _ H)).
Defined.

(** ** Matching of the two ids *)

Lemma isTargetAdmin_true (a b : string) :
  isTargetAdmin a b = true <->
  a = b \/ exists n, parseInt a = Some n /\ parseInt b = Some n.
Proof.
  unfold isTargetAdmin. rewrite orb_true_iff, String.eqb_eq.
  split; (intros [H|H]; [left; exact H|right]).
  - destruct (parseInt b) as [x|], (parseInt a) as [y|]; try discriminate.
    apply Z.eqb_eq in H. subst y. eauto.
  - destruct H as (n & -> & ->). apply Z.eqb_refl.
Qed.

(** X3: The comparison of line 97 is an equivalence: an id matches itself,
    matching does not depend on which side is the author, and two ids
    that match a third match each other. *)
Theorem isTargetAdmin_equivalence :
  (forall a, isTargetAdmin a a = true)
  /\ (forall a b, isTargetAdmin a b = isTargetAdmin b a)
  /\ (forall a b c,
        isTargetAdmin a b = true -> isTargetAdmin b c = true ->
        isTargetAdmin a c = true).
Proof.
  split; [|split].
  - intros a. apply isTargetAdmin_true. left. reflexivity.
  - intros a b. unfold isTargetAdmin. rewrite String.eqb_sym. f_equal.
    destruct (parseInt a), (parseInt b); try reflexivity. apply Z.eqb_sym.
  - intros a b c Hab Hbc. apply isTargetAdmin_true in Hab, Hbc.
    apply isTargetAdmin_true.
    destruct Hab as [->|(n & Ha & Hb)]; [exact Hbc|].
    destruct Hbc as [<-|(m & Hb' & Hc)]; [right; eauto|].
    right. exists n. split; [exact Ha|]. congruence.
Qed.

Lemma digits_prefix (d t : string) :
  all_digits d = true ->
  no_leading_digit t = true ->
  forall acc, d <> "" \/ acc <> None ->
              digits (d ++ t) acc = digits d acc.
Proof.
  induction d as [|c d IH]; intros Hd Ht acc Hacc; cbn [append digits all_digits] in *.
  - destruct t as [|c t]; [reflexivity|]. cbn [digits no_leading_digit] in *.
    destruct (digit_of c); [discriminate|]. reflexivity.
  - destruct (digit_of c) as [x|]; [|discriminate].
    apply IH; [exact Hd|exact Ht|]. right. discriminate.
Qed.

Lemma digit_not_ws_or_sign (c : ascii) (x : Z) :
  digit_of c = Some x ->
  is_ws c = false /\ c <> "-"%char /\ c <> "+"%char.
Proof.
  unfold digit_of, is_ws. intros H.
  destruct ((48 <=? nat_of_ascii c)%nat && (nat_of_ascii c <=? 57)%nat) eqn:E;
    [|discriminate].
  apply andb_prop in E as [E1 E2]. apply Nat.leb_le in E1. apply Nat.leb_le in E2.
  repeat split.
  - apply orb_false_iff. split.
    + apply andb_false_iff. right. apply Nat.leb_gt. lia.
    + apply Nat.eqb_neq. lia.
  - intros ->. cbn in E1. lia.
  - intros ->. cbn in E1. lia.
Qed.

Lemma parseInt_digit_start (c : ascii) (x : Z) (rest : string) :
  digit_of c = Some x ->
  parseInt (String c rest) = digits (String c rest) None.
Proof.
  intros H. destruct (digit_not_ws_or_sign c x H) as (Hws & Hm & Hp).
  unfold parseInt. cbn [skip_ws]. rewrite Hws.
  destruct c as [[] [] [] [] [] [] [] []]; try reflexivity;
    exfalso; (apply Hm; reflexivity) || (apply Hp; reflexivity).
Qed.

(** X4: An author id that begins with the digits of the admin id and goes
    on with anything that is not a digit matches that admin: parseInt
    reads the digits and stops. *)
Theorem digits_with_suffix_match (d t : string) :
  all_digits d = true ->
  d <> "" ->
  no_leading_digit t = true ->
  parseInt (d ++ t) = parseInt d
  /\ isTargetAdmin (d ++ t) d = true.
Proof.
  intros Hd Hne Ht.
  assert (Hparse : parseInt (d ++ t) = parseInt d).
  { destruct d as [|c d]; [contradiction|].
    cbn [all_digits] in Hd. destruct (digit_of c) as [x|] eqn:Ec; [|discriminate].
    change (String c d ++ t) with (String c (d ++ t)).
    rewrite (parseInt_digit_start c x _ Ec), (parseInt_digit_start c x _ Ec).
    change (String c (d ++ t)) with (String c d ++ t).
    apply digits_prefix.
    - cbn [all_digits]. rewrite Ec. exact Hd.
    - exact Ht.
    - left. discriminate. }
  split; [exact Hparse|].
  apply isTargetAdmin_true. right.
  destruct d as [|c d]; [contradiction|].
  cbn [all_digits] in Hd. destruct (digit_of c) as [x|] eqn:Ec; [|discriminate].
  assert (exists n, parseInt (String c d) = Some n) as [n Hn].
  { rewrite (parseInt_digit_start c x _ Ec). cbn [digits]. rewrite Ec.
    clear. generalize (10 * 0 + x). revert d.
    induction d as [|c' d IH]; intros a; cbn [digits]; [eauto|].
    destruct (digit_of c'); eauto. }
  exists n. rewrite Hparse. auto.
Qed.

Lemma digits_with_suffix_match_witness :
  parseInt ("8742044" ++ "-old") = parseInt "8742044"
  /\ isTargetAdmin ("8742044" ++ "-old") "8742044" = true.
Proof.
  apply digits_with_suffix_match; [reflexivity|discriminate|reflexivity].
Defined.

(** *** String(n) and parseInt *)

Lemma digits_uint (u : Decimal.uint) :
  forall acc,
    digits (NilEmpty.string_of_uint u) (Some acc) = Some (uint_val u acc).
Proof.
  induction u; intros acc; cbn [NilEmpty.string_of_uint digits uint_val];
    try reflexivity;
    match goal with
    | |- context [digit_of ?c] =>
        change (digit_of c) with (Some (Z.of_nat (nat_of_ascii c) - 48))
    end; cbn [nat_of_ascii]; rewrite IHu; f_equal; f_equal; cbn; lia.
Qed.

Lemma of_uint_acc_val (u : Decimal.uint) :
  forall p, Z.pos (Pos.of_uint_acc u p) = uint_val u (Z.pos p).
Proof.
  induction u; intros p; cbn [Pos.of_uint_acc uint_val]; try reflexivity;
    rewrite IHu; f_equal; lia.
Qed.

Lemma of_uint_val (u : Decimal.uint) : Z.of_uint u = uint_val u 0.
Proof.
  unfold Z.of_uint.
  induction u; cbn [Pos.of_uint uint_val]; try reflexivity;
    try (cbn [Z.of_N]; rewrite of_uint_acc_val; reflexivity).
  exact IHu.
Qed.

Lemma digits_uint_start (u : Decimal.uint) :
  u <> Decimal.Nil ->
  digits (NilEmpty.string_of_uint u) None = Some (uint_val u 0).
Proof.
  intros Hu. destruct u; try contradiction;
    cbn [NilEmpty.string_of_uint digits uint_val];
    match goal with
    | |- context [digit_of ?c] =>
        change (digit_of c) with (Some (Z.of_nat (nat_of_ascii c) - 48))
    end; cbn [nat_of_ascii]; rewrite digits_uint; f_equal; f_equal; cbn; lia.
Qed.

Lemma to_uint_not_Nil (p : positive) : Pos.to_uint p <> Decimal.Nil.
Proof.
  intros E.
  assert (H := DecimalZ.of_to (Z.pos p)). cbn [Z.to_int Z.of_int] in H.
  rewrite E in H. discriminate.
Qed.

Lemma parseInt_uint (u : Decimal.uint) :
  u <> Decimal.Nil ->
  parseInt (NilEmpty.string_of_uint u) = Some (uint_val u 0).
Proof.
  intros Hu. rewrite <- (digits_uint_start u Hu).
  destruct u; try contradiction; cbn [NilEmpty.string_of_uint];
    eapply parseInt_digit_start; reflexivity.
Qed.

(** X5: parseInt reads back the decimal string of every integer below
    10^15 in absolute value (such a number is exact in binary64 and
    String prints all its digits): a numeric author id n other than 0
    (0 is falsy and passed over), compared as String(n), matches an
    admin id that is ASCII text exactly when the admin id parses to n. *)
Theorem parseInt_of_String (n : Z) :
  Z.abs n < 1000000000000000 ->
  parseInt (Z_to_string n) = Some n
  /\ forall adminId,
       n <> 0 ->
       ascii_only adminId = true ->
       (isTargetAdmin (js_String (JNum n)) adminId = true
        <-> parseInt adminId = Some n).
Proof.
  intros _.
  assert (H : parseInt (Z_to_string n) = Some n).
  { unfold Z_to_string. assert (Hn := DecimalZ.of_to n).
    destruct n as [|p|p]; cbn [Z.to_int NilEmpty.string_of_int Z.of_int] in *.
    - reflexivity.
    - rewrite of_uint_val in Hn.
      rewrite (parseInt_uint _ (to_uint_not_Nil p)). f_equal. exact Hn.
    - rewrite of_uint_val in Hn.
      unfold parseInt. cbn [skip_ws is_ws nat_of_ascii].
      change (NilEmpty.string_of_int (Decimal.Neg (Pos.to_uint p)))
        with (String "-" (NilEmpty.string_of_uint (Pos.to_uint p))).
      cbn [skip_ws]. change (is_ws "-") with false. cbv iota.
      rewrite (digits_uint_start _ (to_uint_not_Nil p)).
      cbn [option_map]. f_equal. exact Hn. }
  split; [exact H|].
  intros adminId _ _. cbn [js_String]. rewrite isTargetAdmin_true. split.
  - intros [<-|(m & Hm & Ha)]; [exact H|]. congruence.
  - intros Ha. right. exists n. auto.
Qed.

Lemma parseInt_of_String_witness :
  parseInt (Z_to_string 8742044) = Some 8742044
  /\ isTargetAdmin (js_String (JNum 8742044)) " 8742044 (Cara)" = true.
Proof.
  assert (Hn : Z.abs 8742044 < 1000000000000000) by reflexivity.
  destruct (parseInt_of_String 8742044 Hn) as [H1 H2].
  split; [exact H1|].
  apply (H2 " 8742044 (Cara)"); [discriminate|reflexivity|reflexivity].
Defined.

(** ** More on the Batch Orchestrator *)

Section OrchestratorMore.

Variable Date_getTime : jsval -> option Z.
Variable toISOString : jsval -> option string.
Variable net : nat -> string -> fetch_result.
Variable elapsed : nat -> Z.
Variable platform_message : exn -> string.
Variable adminId : string.
Variable date : string.
Variables since before : Z.

Local Abbreviation process_results2 :=
  (process_results Date_getTime toISOString adminId since before).
Local Abbreviation batch_loop2 :=
  (batch_loop Date_getTime toISOString net elapsed adminId since before).
Local Abbreviation orchestrate2 :=
  (orchestrate Date_getTime toISOString net elapsed adminId date since before).
Local Abbreviation serve2 :=
  (serve Date_getTime toISOString net elapsed platform_message adminId date
     since before).

(** The error counter is only ever added to: it does not influence what
    the loop does with the other conversations. *)
Lemma process_results_shift (rs : list jsval) (k : Z) :
  forall st st',
    process_results2 rs st = Ok st' ->
    process_results2 rs
      (mkProgress (conversationsWithParticipation st) (totalParticipationCount st)
         (processedCount st) (errorCount st + k))
    = Ok (mkProgress (conversationsWithParticipation st')
            (totalParticipationCount st') (processedCount st') (errorCount st' + k)).
Proof.
  induction rs as [|c rest IH]; intros st st' H; cbn [process_results] in *.
  - apply Ok_inj in H. subst st'. reflexivity.
  - destruct (negb (truthy c)).
    + apply IH in H.
      cbn [conversationsWithParticipation totalParticipationCount processedCount
           errorCount] in *.
      replace (errorCount st + k + 1) with (errorCount st + 1 + k) by lia. exact H.
    + destruct (hasAdminParticipation Date_getTime c adminId since before)
        as [p| |]; cbn [bind] in *; try discriminate.
      destruct (hasParticipation p).
      * destruct (make_entry toISOString c (partCount p)) as [e| |]; cbn [bind] in *;
          try discriminate.
        apply IH in H. exact H.
      * apply IH in H. exact H.
Qed.

(** X6: Failure isolation: conversations that could not be fetched only add
    to error_count; the conversations returned, the participation total
    and processed_count are those of the batch without them. *)
Theorem failed_fetches_only_count_as_errors (rs : list jsval) :
  forall st st',
    process_results2 (filter truthy rs) st = Ok st' ->
    process_results2 rs st
    = Ok (mkProgress (conversationsWithParticipation st')
            (totalParticipationCount st') (processedCount st')
            (errorCount st'
             + Z.of_nat (List.length (filter (fun c => negb (truthy c)) rs)))).
Proof.
  induction rs as [|c rest IH]; intros st st' H; cbn [filter] in *.
  - rewrite H. destruct st' as [l t p e]. cbn. do 2 f_equal. lia.
  - destruct (truthy c) eqn:Ec; cbn [negb filter List.length process_results] in *.
    + rewrite Ec in *. cbn [negb] in *.
      destruct (hasAdminParticipation Date_getTime c adminId since before)
        as [p| |]; cbn [bind] in *; try discriminate.
      destruct (hasParticipation p).
      * destruct (make_entry toISOString c (partCount p)) as [e| |]; cbn [bind] in *;
          try discriminate.
        apply IH, H.
      * apply IH, H.
    + rewrite Ec. cbn [negb].
      apply IH in H.
      apply (process_results_shift _ 1) in H.
      cbn [conversationsWithParticipation totalParticipationCount processedCount
           errorCount] in H.
      destruct st as [l t p e].
      cbn [conversationsWithParticipation totalParticipationCount
           processedCount errorCount] in *.
      rewrite H. do 2 f_equal. lia.
Qed.

(** *** Accounting *)

Lemma hasAdminParticipation_flag (c : jsval) (p : participation) :
  hasAdminParticipation Date_getTime c adminId since before = Ok p ->
  hasParticipation p = true ->
  1 <= partCount p.
Proof.
  unfold hasAdminParticipation. intros H Hp.
  apply bind_Ok in H as (parts & _ & H). apply bind_Ok in H as (n & _ & H).
  apply Ok_inj in H. subst p. cbn [hasParticipation partCount] in *.
  apply Z.ltb_lt in Hp. lia.
Qed.

Lemma process_results_accounts (rs : list jsval) :
  forall st st',
    process_results2 rs st = Ok st' ->
    processedCount st <= processedCount st'
    /\ errorCount st <= errorCount st'
    /\ Z.of_nat (List.length (conversationsWithParticipation st'))
         - Z.of_nat (List.length (conversationsWithParticipation st))
       <= processedCount st' - processedCount st
    /\ Z.of_nat (List.length (conversationsWithParticipation st'))
         - Z.of_nat (List.length (conversationsWithParticipation st))
       <= totalParticipationCount st' - totalParticipationCount st.
Proof.
  induction rs as [|c rest IH]; intros st st' H; cbn [process_results] in H.
  - apply Ok_inj in H. subst st'. lia.
  - destruct (negb (truthy c)).
    + apply IH in H.
      cbn [processedCount errorCount conversationsWithParticipation
           totalParticipationCount] in H. lia.
    + apply bind_Ok in H as (p & Hp & H).
      destruct (hasParticipation p) eqn:Eflag.
      * apply bind_Ok in H as (e & _ & H). apply IH in H.
        apply hasAdminParticipation_flag in Hp; [|exact Eflag].
        cbn [processedCount errorCount conversationsWithParticipation
             totalParticipationCount] in H.
        rewrite length_app in H. cbn [List.length] in H. lia.
      * apply IH in H.
        cbn [processedCount errorCount conversationsWithParticipation
             totalParticipationCount] in H. lia.
Qed.

Lemma batch_loop_accounts (ids : list jsval) (fuel : nat) :
  forall i st st',
    batch_loop2 fuel ids i st = Ok st' ->
    (processedCount st <= processedCount st'
     /\ errorCount st <= errorCount st'
     /\ Z.of_nat (List.length (conversationsWithParticipation st'))
          - Z.of_nat (List.length (conversationsWithParticipation st))
        <= processedCount st' - processedCount st
     /\ Z.of_nat (List.length (conversationsWithParticipation st'))
          - Z.of_nat (List.length (conversationsWithParticipation st))
        <= totalParticipationCount st' - totalParticipationCount st
     /\ processedCount st' + errorCount st'
        <= processedCount st + errorCount st + Z.of_nat (List.length ids - i))
    /\ ((forall j, elapsed j <= EDGE_FUNCTION_TIMEOUT - 5000) ->
        processedCount st' + errorCount st'
        = processedCount st + errorCount st + Z.of_nat (List.length ids - i)).
Proof.
  induction fuel as [|fuel IH]; intros i st st' H; [discriminate|].
  cbn [batch_loop] in H.
  destruct (i <? List.length ids)%nat eqn:Ei.
  - apply Nat.ltb_lt in Ei.
    destruct (elapsed i >? EDGE_FUNCTION_TIMEOUT - 5000) eqn:Et.
    + apply Ok_inj in H. subst st'. split; [lia|].
      intros Hfast. specialize (Hfast i).
      rewrite Z.gtb_ltb in Et. apply Z.ltb_lt in Et. lia.
    + destruct (fetch_batch_fetched net (firstn BATCH_SIZE (skipn i ids)) i)
        as (cs & Hcs & Hlen & _).
      rewrite Hcs in H. cbn [bind] in H.
      apply bind_Ok in H as (st1 & Hst1 & H).
      assert (A1 := process_results_accounts _ _ _ Hst1).
      apply (process_results_inv Date_getTime toISOString adminId since before)
        in Hst1 as (C1 & _ & _).
      apply IH in H as (A2 & E2).
      rewrite length_firstn, length_skipn in Hlen. unfold BATCH_SIZE in *.
      split; [lia|]. intros Hfast. specialize (E2 Hfast). lia.
  - apply Nat.ltb_ge in Ei. apply Ok_inj in H. subst st'.
    replace (List.length ids - i)%nat with 0%nat by lia. cbn. lia.
Qed.

(** X7: Accounting of a 200 response: total_count <= processed_count, and
    processed_count + error_count never exceeds the number of
    candidates; the two are equal when the clock stays within 55 s at
    every batch boundary. *)
Theorem response_accounts_for_candidates
    (search : fetch_result) (d : discovery) (r : reply) :
  discover search = Ok d ->
  serve2 search = Ok r ->
  reply_status r = 200 ->
  conversationIds d <> [] ->
  exists t p e,
    get_opt (reply_body r) "total_count" = JNum t
    /\ get_opt (reply_body r) "processed_count" = JNum p
    /\ get_opt (reply_body r) "error_count" = JNum e
    /\ 0 <= t <= p
    /\ 0 <= e
    /\ p + e <= Z.of_nat (List.length (conversationIds d))
    /\ ((forall j, elapsed j <= 55000) ->
        p + e = Z.of_nat (List.length (conversationIds d))).
Proof.
  intros Hd Hs H200 Hne.
  apply (serve_200 _ _ _ _ _ _ _ _ _ _ _ _ Hd) in Hs; [|exact H200].
  apply orchestrate_cases in Hs as [[Hnil _]|(_ & st & Hst & ->)]; [contradiction|].
  apply batch_loop_accounts in Hst as (A & E).
  cbn [init_progress processedCount errorCount conversationsWithParticipation
       totalParticipationCount List.length] in A, E.
  rewrite Nat.sub_0_r in A, E.
  exists (Z.of_nat (List.length (conversationsWithParticipation st))),
         (processedCount st), (errorCount st).
  split; [reflexivity|]. split; [reflexivity|]. split; [reflexivity|].
  split; [lia|]. split; [lia|]. split; [lia|].
  intros Hfast. apply E. intros j. specialize (Hfast j).
  unfold EDGE_FUNCTION_TIMEOUT. lia.
Qed.

(** X8: Only conversations with participation are returned: each one adds
    at least one part to participation_count, so participation_count is
    at least total_count. *)
Theorem participation_count_at_least_total
    (search : fetch_result) (d : discovery) (r : reply) :
  discover search = Ok d ->
  serve2 search = Ok r ->
  reply_status r = 200 ->
  exists t n,
    get_opt (reply_body r) "total_count" = JNum t
    /\ get_opt (reply_body r) "participation_count" = JNum n
    /\ 0 <= t <= n
    /\ t = Z.of_nat (List.length (elems_of (get_opt (reply_body r) "conversations"))).
Proof.
  intros Hd Hs H200.
  apply (serve_200 _ _ _ _ _ _ _ _ _ _ _ _ Hd) in Hs; [|exact H200].
  apply orchestrate_cases in Hs as [[Hnil ->]|(_ & st & Hst & ->)].
  - exists 0, 0. repeat split; cbn; lia.
  - apply batch_loop_accounts in Hst as (A & _).
    cbn [init_progress processedCount errorCount conversationsWithParticipation
         totalParticipationCount List.length] in A.
    exists (Z.of_nat (List.length (conversationsWithParticipation st))),
           (totalParticipationCount st).
    split; [reflexivity|]. split; [reflexivity|]. split; [lia|reflexivity].
Qed.

(** X9: The handler of the conversations endpoint always answers, with
    status 200 or 500: a search that upstream refuses, whatever its
    status, becomes a 500 whose error text quotes the upstream status
    and body, and a search that cannot be sent becomes a 500 too. *)
Theorem conversations_reply_status (search : fetch_result) :
  (exists r,
      serve2 search = Ok r
      /\ (reply_status r = 200 \/ reply_status r = 500))
  /\ (forall resp t,
        search = Resolved resp -> ok resp = false -> text resp = Some t ->
        serve2 search
        = Ok (mkReply 500
                (JObj [("error",
                        JStr ("Intercom Search API error ("
                              ++ Z_to_string (status resp) ++ "): " ++ t))])))
  /\ (search = Rejected ->
      serve2 search
      = Ok (mkReply 500 (JObj [("error", JStr (platform_message NetworkError))]))).
Proof.
  split; [|split].
  - unfold serve, conversations_endpoint.
    destruct (discover search) as [d| |] eqn:Hd; cbn [bind try_catch].
    + destruct (orchestrate2 d) as [r| |] eqn:Ho; cbn [try_catch].
      * exists r. split; [reflexivity|]. left.
        apply orchestrate_cases in Ho as [[_ ->]|(_ & st & _ & ->)]; reflexivity.
      * eexists. split; [reflexivity|]. right. reflexivity.
      * destruct (orchestrate_not_OutOfFuel _ _ _ _ _ _ _ _ _ Ho).
    + eexists. split; [reflexivity|]. right. reflexivity.
    + destruct (discover_not_OutOfFuel search Hd).
  - intros resp t -> Hok Ht. unfold serve, conversations_endpoint, discover.
    cbn [await_fetch bind]. rewrite Hok. cbn [negb]. unfold await_text.
    rewrite Ht. reflexivity.
  - intros ->. reflexivity.
Qed.

End OrchestratorMore.

Lemma failed_fetches_only_count_as_errors_witness :
  process_results no_dates iso_epoch "8742044" 1762740000 1762826399
    mixed_results init_progress
  = Ok (mkProgress (conversationsWithParticipation mixed_progress)
          (totalParticipationCount mixed_progress) (processedCount mixed_progress)
          (errorCount mixed_progress
           + Z.of_nat (List.length
                         (filter (fun c => negb (truthy c)) mixed_results)))).
Proof.
  apply (failed_fetches_only_count_as_errors no_dates iso_epoch "8742044"
           1762740000 1762826399 mixed_results init_progress mixed_progress).
  vm_compute. reflexivity.
Defined.

Lemma response_accounts_for_candidates_witness :
  exists t p e,
    get_opt (reply_body twenty_reply) "total_count" = JNum t
    /\ get_opt (reply_body twenty_reply) "processed_count" = JNum p
    /\ get_opt (reply_body twenty_reply) "error_count" = JNum e
    /\ 0 <= t <= p
    /\ 0 <= e
    /\ p + e <= Z.of_nat (List.length (conversationIds twenty_discovery))
    /\ ((forall j, fast_clock j <= 55000) ->
        p + e = Z.of_nat (List.length (conversationIds twenty_discovery))).
Proof.
  apply (response_accounts_for_candidates no_dates iso_epoch steady_net fast_clock
           plain_message "8742044" "2025-11-10" 1762740000 1762826399
           twenty_search twenty_discovery twenty_reply
           twenty_discovered twenty_run).
  - reflexivity.
  - discriminate.
Defined.

Lemma participation_count_at_least_total_witness :
  exists t n,
    get_opt (reply_body annotated_reply) "total_count" = JNum t
    /\ get_opt (reply_body annotated_reply) "participation_count" = JNum n
    /\ 0 <= t <= n
    /\ t = Z.of_nat (List.length
                       (elems_of (get_opt (reply_body annotated_reply) "conversations"))).
Proof.
  assert (Hd : discover single_search
               = Ok (returned no_discovery (discover single_search)))
    by (vm_compute; reflexivity).
  apply (participation_count_at_least_total no_dates iso_epoch annotating_net
           fast_clock plain_message "8742044" "2025-11-10" 1762740000 1762826399
           single_search _ annotated_reply Hd annotated_run).
  reflexivity.
Defined.

(* ================================================================== *)
(** ** Batches *)

Section BatchOrder.

Variable Date_getTime : jsval -> option Z.
Variable toISOString : jsval -> option string.
Variable net : nat -> string -> fetch_result.
Variable elapsed : nat -> Z.
Variable adminId : string.
Variables since before : Z.

Local Abbreviation process_results3 :=
  (process_results Date_getTime toISOString adminId since before).
Local Abbreviation batch_loop3 :=
  (batch_loop Date_getTime toISOString net elapsed adminId since before).

Lemma fetch_batch_all (batch : list jsval) :
  forall k, fetch_batch net k batch = Ok (fetched_from net k batch).
Proof.
  induction batch as [|id rest IH]; intros k; cbn [fetch_batch fetched_from].
  - reflexivity.
  - rewrite fetchConversationWithParts_fetched. cbn [bind]. rewrite IH. reflexivity.
Qed.

Lemma fetched_from_app (a b : list jsval) :
  forall k,
    fetched_from net k (a ++ b)
    = (fetched_from net k a ++ fetched_from net (k + List.length a) b)%list.
Proof.
  induction a as [|x a IH]; intros k; cbn [fetched_from app List.length].
  - rewrite Nat.add_0_r. reflexivity.
  - rewrite IH. do 3 f_equal. lia.
Qed.

Lemma process_results_app (a b : list jsval) :
  forall st,
    process_results3 (a ++ b) st
    = bind (process_results3 a st) (process_results3 b).
Proof.
  induction a as [|c a IH]; intros st; cbn [process_results app].
  - reflexivity.
  - destruct (negb (truthy c)); [apply IH|].
    destruct (hasAdminParticipation Date_getTime c adminId since before)
      as [p| |]; cbn [bind]; try reflexivity.
    destruct (hasParticipation p); [|apply IH].
    destruct (make_entry toISOString c (partCount p)); cbn [bind];
      [apply IH|reflexivity|reflexivity].
Qed.

Lemma batch_loop_one_pass (ids : list jsval) :
  (forall j, elapsed j <= EDGE_FUNCTION_TIMEOUT - 5000) ->
  forall fuel i st,
    (List.length ids - i + BATCH_SIZE <= BATCH_SIZE * fuel)%nat ->
    batch_loop3 fuel ids i st
    = process_results3 (fetched_from net i (skipn i ids)) st.
Proof.
  intros Hfast. unfold BATCH_SIZE.
  induction fuel as [|fuel IH]; intros i st Hfuel; [lia|].
  cbn [batch_loop].
  destruct (i <? List.length ids)%nat eqn:Ei.
  - apply Nat.ltb_lt in Ei.
    replace (elapsed i >? EDGE_FUNCTION_TIMEOUT - 5000) with false
      by (symmetry; rewrite Z.gtb_ltb; apply Z.ltb_ge, Hfast).
    rewrite fetch_batch_all. cbn [bind]. unfold BATCH_SIZE.
    rewrite <- (firstn_skipn 10 (skipn i ids)) at 2.
    rewrite fetched_from_app, process_results_app.
    destruct (process_results3 (fetched_from net i (firstn 10 (skipn i ids))) st)
      as [st'| |]; cbn [bind]; try reflexivity.
    rewrite IH by lia. rewrite skipn_skipn, (Nat.add_comm 10 i).
    destruct (Nat.le_gt_cases (i + 10) (List.length ids)) as [Hfull|Hlast].
    + rewrite length_firstn, length_skipn.
      replace (Nat.min 10 (List.length ids - i)) with 10%nat by lia. reflexivity.
    + rewrite (skipn_all2 ids (n := (i + 10)%nat)) by lia. reflexivity.
  - apply Nat.ltb_ge in Ei. rewrite skipn_all2 by lia. reflexivity.
Qed.

(** X10: Batching does not show in the result: while the clock stays within
    the budget, the loop over batches of ten gives what one pass over
    the fetched candidates gives, in candidate order, and raises what
    that pass raises. *)
Theorem batches_equal_one_pass (ids : list jsval) (st : progress) :
  (forall j, elapsed j <= EDGE_FUNCTION_TIMEOUT - 5000) ->
  batch_loop3 (S (List.length ids)) ids 0 st
  = process_results3 (fetched_from net 0 ids) st.
Proof.
  intros Hfast.
  rewrite (batch_loop_one_pass ids Hfast) by (unfold BATCH_SIZE; lia).
  reflexivity.
Qed.

End BatchOrder.

Lemma batches_equal_one_pass_witness :
  batch_loop no_dates iso_epoch patchy_net fast_clock "8742044"
    1762740000 1762826399 (S (List.length patchy_ids)) patchy_ids 0 init_progress
  = process_results no_dates iso_epoch "8742044" 1762740000 1762826399
      (fetched_from patchy_net 0 patchy_ids) init_progress.
Proof.
  apply (batches_equal_one_pass no_dates iso_epoch patchy_net fast_clock "8742044"
           1762740000 1762826399 patchy_ids init_progress).
  intros j. vm_compute. discriminate.
Defined.

(* ================================================================== *)
(** ** The request handler *)

Section HandlerFacts.

Variable Date_getTime : jsval -> option Z.
Variable toISOString : jsval -> option string.
Variable net : nat -> string -> fetch_result.
Variable elapsed : nat -> Z.
Variable platform_message : exn -> string.
Variable date : string.
Variables since before : Z.
Variable search_api : jsval -> fetch_result.
Variable fetch : string -> fetch_result.

Local Abbreviation handle' :=
  (handle Date_getTime toISOString net elapsed platform_message date since before
     search_api fetch).
Local Abbreviation route' :=
  (route Date_getTime toISOString net elapsed date since before search_api fetch).

Lemma proxy_cases (url : string) :
  (exists r, proxy fetch url = Ok r /\ reply_status r = 200)
  \/ (exists e, proxy fetch url = Throw e).
Proof.
  unfold proxy. destruct (fetch url) as [|resp]; cbn [await_fetch bind]; eauto.
  destruct (ok resp); cbn [negb].
  - unfold await_json. destruct (json resp); cbn [bind]; eauto.
  - unfold await_text. destruct (text resp); cbn [bind]; eauto.
Qed.

Lemma conversations_endpoint_cases (adminId : string) (search : fetch_result) :
  (exists r,
      conversations_endpoint Date_getTime toISOString net elapsed adminId date
        since before search = Ok r
      /\ reply_status r = 200)
  \/ (exists e,
        conversations_endpoint Date_getTime toISOString net elapsed adminId date
          since before search = Throw e).
Proof.
  unfold conversations_endpoint.
  destruct (discover search) as [d| |] eqn:Hd; cbn [bind]; eauto.
  - destruct (orchestrate Date_getTime toISOString net elapsed adminId date
                since before d) as [r| |] eqn:Ho; eauto.
    + left. exists r. split; [reflexivity|].
      apply orchestrate_cases in Ho as [[_ ->]|(_ & st & _ & ->)]; reflexivity.
    + destruct (orchestrate_not_OutOfFuel _ _ _ _ _ _ _ _ _ Ho).
  - destruct (discover_not_OutOfFuel search Hd).
Qed.

(** X11: The handler answers every request, with status 200, 400 or 500.
    OPTIONS is answered 200 with an empty body whatever the query; any
    other request is answered 400 exactly when it names no conversations
    search with an admin, no conversation and neither teams nor admins,
    so upstream is never the cause of a 400. *)
Theorem handler_statuses (req : request) :
  exists r,
    handle' req = Ok r
    /\ (reply_status r = 200 \/ reply_status r = 400 \/ reply_status r = 500)
    /\ (req_method req = "OPTIONS" -> r = mkReply 200 JNull)
    /\ (req_method req <> "OPTIONS" ->
        (reply_status r = 400
         <-> (is_string (req_endpoint req) "conversations"
                && truthy (req_admin_id req) = false
              /\ truthy (req_conversation_id req) = false
              /\ is_string (req_endpoint req) "teams"
                   || is_string (req_endpoint req) "admins" = false))).
Proof.
  unfold handle.
  destruct (req_method req =? "OPTIONS")%string eqn:Em.
  - apply String.eqb_eq in Em. eexists. split; [reflexivity|].
    split; [left; reflexivity|]. split; [reflexivity|]. intros H. contradiction.
  - apply String.eqb_neq in Em.
    assert (Hroute :
      (exists r, route' req = Ok r /\ reply_status r = 200
                 /\ (is_string (req_endpoint req) "conversations"
                       && truthy (req_admin_id req) = true
                     \/ truthy (req_conversation_id req) = true
                     \/ is_string (req_endpoint req) "teams"
                          || is_string (req_endpoint req) "admins" = true))
      \/ (exists e, route' req = Throw e
                    /\ (is_string (req_endpoint req) "conversations"
                          && truthy (req_admin_id req) = true
                        \/ truthy (req_conversation_id req) = true
                        \/ is_string (req_endpoint req) "teams"
                             || is_string (req_endpoint req) "admins" = true))
      \/ (exists r, route' req = Ok r /\ reply_status r = 400
                    /\ is_string (req_endpoint req) "conversations"
                         && truthy (req_admin_id req) = false
                    /\ truthy (req_conversation_id req) = false
                    /\ is_string (req_endpoint req) "teams"
                         || is_string (req_endpoint req) "admins" = false)).
    { unfold route.
      destruct (is_string (req_endpoint req) "conversations"
                && truthy (req_admin_id req)) eqn:E1.
      - destruct (conversations_endpoint_cases (js_String (req_admin_id req))
                    (search_api (searchQuery (js_String (req_admin_id req))
                                   since before (req_starting_after req))))
          as [(r & -> & H)|(e & ->)]; [left|right; left]; eauto 6.
      - destruct (truthy (req_conversation_id req)) eqn:E2.
        + match goal with
          | |- context [proxy fetch ?u] =>
              destruct (proxy_cases u) as [(r & -> & H)|(e & ->)]
          end; [left|right; left]; eauto 7.
        + destruct (is_string (req_endpoint req) "teams"
                    || is_string (req_endpoint req) "admins") eqn:E3.
          * match goal with
            | |- context [proxy fetch ?u] =>
                destruct (proxy_cases u) as [(r & -> & H)|(e & ->)]
            end; [left|right; left]; eauto 7.
          * right; right. eexists. split; [reflexivity|]. auto. }
    destruct Hroute as [(r & -> & H200 & Hb)|[(e & -> & Hb)|(r & -> & H400 & Hn)]];
      cbn [try_catch]; eexists; (split; [reflexivity|]).
    + rewrite H200. split; [auto|]. split; [intros; contradiction|]. intros _.
      split; [discriminate|].
      intros (H1 & H2 & H3). rewrite H1, H2, H3 in Hb.
      destruct Hb as [Hb|[Hb|Hb]]; discriminate.
    + cbn [reply_status]. split; [auto|]. split; [intros; contradiction|]. intros _.
      split; [discriminate|].
      intros (H1 & H2 & H3). rewrite H1, H2, H3 in Hb.
      destruct Hb as [Hb|[Hb|Hb]]; discriminate.
    + rewrite H400. split; [auto|]. split; [intros; contradiction|]. intros _.
      split; [intros _; exact Hn|reflexivity].
Qed.

End HandlerFacts.

(* ================================================================== *)
(** ** The query of a page request *)

Lemma append_assoc' (a b c : string) : ((a ++ b) ++ c = a ++ (b ++ c))%string.
Proof. induction a as [|x a IH]; cbn [append]; [reflexivity|]. rewrite IH. reflexivity. Qed.

Lemma append_empty (a : string) : (a ++ "")%string = a.
Proof. induction a as [|x a IH]; cbn [append]; [reflexivity|]. rewrite IH. reflexivity. Qed.

Lemma after_first_None_app (c : ascii) (a b : string) :
  after_first c a = None -> after_first c b = None -> after_first c (a ++ b) = None.
Proof.
  induction a as [|x a IH]; cbn [after_first append]; intros Ha Hb; [exact Hb|].
  destruct (Ascii.eqb x c); [discriminate|]. apply IH; assumption.
Qed.

Lemma before_first_app (c : ascii) (a b : string) :
  after_first c a = None -> before_first c (a ++ String c b) = a.
Proof.
  induction a as [|x a IH]; cbn [after_first before_first append]; intros H.
  - rewrite Ascii.eqb_refl. reflexivity.
  - destruct (Ascii.eqb x c); [discriminate|]. rewrite IH by exact H. reflexivity.
Qed.

Lemma split_on_app (c : ascii) (a b : string) :
  after_first c a = None -> split_on c (a ++ String c b) = a :: split_on c b.
Proof.
  induction a as [|x a IH]; cbn [after_first split_on append]; intros H.
  - rewrite Ascii.eqb_refl. reflexivity.
  - destruct (Ascii.eqb x c); [discriminate|]. rewrite IH by exact H. reflexivity.
Qed.

(** One encoded character decodes to the character, and holds none of
    the separators of a URL or of a query. *)
Lemma decode_encoded_char (c : ascii) (t : string) :
  form_decode
    (if unreserved c then String c t
     else String "%"
            (String (hex_digit (nat_of_ascii c / 16))
               (String (hex_digit (nat_of_ascii c mod 16)) t)))
  = String c (form_decode t).
Proof. destruct c as [[] [] [] [] [] [] [] []]; reflexivity. Qed.

Lemma encoded_char_no_separator (x c : ascii) (t : string) :
  x = "&"%char \/ x = "="%char \/ x = "?"%char \/ x = "#"%char ->
  after_first x
    (if unreserved c then String c t
     else String "%"
            (String (hex_digit (nat_of_ascii c / 16))
               (String (hex_digit (nat_of_ascii c mod 16)) t)))
  = after_first x t.
Proof.
  intros [->|[->|[->| ->]]]; destruct c as [[] [] [] [] [] [] [] []]; reflexivity.
Qed.

Lemma form_decode_encode (s : string) : form_decode (encodeURIComponent s) = s.
Proof.
  induction s as [|c s IH]; [reflexivity|]. cbn [encodeURIComponent].
  transitivity (String c (form_decode (encodeURIComponent s))).
  - exact (decode_encoded_char c (encodeURIComponent s)).
  - rewrite IH. reflexivity.
Qed.

Lemma encode_no_separator (x : ascii) (s : string) :
  x = "&"%char \/ x = "="%char \/ x = "?"%char \/ x = "#"%char ->
  after_first x (encodeURIComponent s) = None.
Proof.
  intros Hx. induction s as [|c s IH]; [reflexivity|]. cbn [encodeURIComponent].
  transitivity (after_first x (encodeURIComponent s)); [|exact IH].
  exact (encoded_char_no_separator x c (encodeURIComponent s) Hx).
Qed.

Lemma nonempty_key (k v : string) : ((k ++ String "=" v =? "")%string = false).
Proof. destruct k; reflexivity. Qed.

Lemma URLSearchParams_cons (k v rest : string) :
  after_first "=" k = None -> after_first "&" k = None -> after_first "&" v = None ->
  URLSearchParams (k ++ String "=" (v ++ String "&" rest))
  = (form_decode k, form_decode v) :: URLSearchParams rest.
Proof.
  intros Hk Hk' Hv. unfold URLSearchParams.
  replace (k ++ String "=" (v ++ String "&" rest))%string
    with ((k ++ String "=" v) ++ String "&" rest)%string
    by (rewrite append_assoc'; reflexivity).
  rewrite split_on_app
    by (apply after_first_None_app; [exact Hk'|exact Hv]).
  cbn [filter]. rewrite nonempty_key. cbn [negb map]. f_equal.
  unfold parse_pair. rewrite before_first_app, after_first_app by exact Hk.
  reflexivity.
Qed.

Lemma URLSearchParams_last (k v : string) :
  after_first "=" k = None -> after_first "&" k = None -> after_first "&" v = None ->
  URLSearchParams (k ++ String "=" v) = [(form_decode k, form_decode v)].
Proof.
  intros Hk Hk' Hv. unfold URLSearchParams.
  rewrite split_on_single
    by (apply after_first_None_app; [exact Hk'|exact Hv]).
  cbn [filter]. rewrite nonempty_key. cbn [negb map]. f_equal.
  unfold parse_pair. rewrite before_first_app, after_first_app by exact Hk.
  reflexivity.
Qed.

(** X12: What the loader encodes into the query of a page request is what
    the parameters of the request decode to, for every admin id, every
    date text and every cursor: reserved characters in them (&, =, +,
    %, spaces) cannot add, split or change a parameter, and
    starting_after is present exactly when the loader holds a cursor. *)
Theorem loader_query_round_trip (adminId updatedSince updatedBefore : string)
    (startingAfter : jsval) :
  URLSearchParams (loader_query adminId updatedSince updatedBefore startingAfter)
  = ([("endpoint", "conversations"); ("admin_id", adminId);
      ("updated_since", updatedSince); ("updated_before", updatedBefore)]
     ++ (if truthy startingAfter
         then [("starting_after", js_String startingAfter)]
         else []))%list.
Proof.
  unfold loader_query.
  pose proof (encode_no_separator "&" adminId (or_introl eq_refl)) as Ha.
  pose proof (encode_no_separator "&" updatedSince (or_introl eq_refl)) as Hs.
  pose proof (encode_no_separator "&" updatedBefore (or_introl eq_refl)) as Hb.
  change ("endpoint=conversations&admin_id=" ++ ?x)%string
    with ("endpoint" ++ String "=" ("conversations" ++ String "&"
            ("admin_id" ++ String "=" x)))%string.
  rewrite URLSearchParams_cons by reflexivity.
  change ("&updated_since=" ++ ?x)%string
    with (String "&" ("updated_since" ++ String "=" x))%string.
  rewrite URLSearchParams_cons by (reflexivity || exact Ha).
  change ("&updated_before=" ++ ?x)%string
    with (String "&" ("updated_before" ++ String "=" x))%string.
  rewrite URLSearchParams_cons by (reflexivity || exact Hs).
  rewrite !form_decode_encode.
  destruct (truthy startingAfter).
  - change ("&starting_after=" ++ ?x)%string
      with (String "&" ("starting_after" ++ String "=" x))%string.
    rewrite URLSearchParams_cons by (reflexivity || exact Hb).
    rewrite URLSearchParams_last
      by (reflexivity || apply encode_no_separator; left; reflexivity).
    rewrite !form_decode_encode. reflexivity.
  - rewrite append_empty.
    rewrite URLSearchParams_last by (reflexivity || exact Hb).
    rewrite !form_decode_encode. reflexivity.
Qed.

Lemma request_of_loader_url (supabaseUrl adminId updatedSince updatedBefore : string)
    (startingAfter : jsval) :
  after_first "?" supabaseUrl = None ->
  after_first "#" supabaseUrl = None ->
  request_of_url "GET"
    (edgeFunctionUrl supabaseUrl adminId updatedSince updatedBefore startingAfter)
  = mkRequest "GET" (JStr "conversations") JNull (JStr adminId) JNull
      (if truthy startingAfter then JStr (js_String startingAfter) else JNull).
Proof.
  intros Hbase Hfrag. unfold request_of_url.
  rewrite before_first_all.
  2:{ unfold edgeFunctionUrl, loader_query.
      pose proof (fun s => encode_no_separator "#" s
                             (or_intror (or_intror (or_intror eq_refl)))) as He.
      repeat (apply after_first_None_app;
              [first [exact Hfrag | reflexivity | apply He]|]).
      destruct (truthy startingAfter); [|reflexivity].
      apply after_first_None_app; [reflexivity|apply He]. }
  unfold edgeFunctionUrl.
  change ("/functions/v1/intercom-proxy?" ++ ?q)%string
    with ("/functions/v1/intercom-proxy" ++ String "?" q)%string.
  rewrite <- append_assoc'.
  rewrite after_first_app
    by (apply after_first_None_app; [exact Hbase|reflexivity]).
  rewrite loader_query_round_trip.
  destruct (truthy startingAfter); reflexivity.
Qed.

Section LoaderToHandler.

Variable Date_getTime : jsval -> option Z.
Variable toISOString : jsval -> option string.
Variable net : nat -> string -> fetch_result.
Variable elapsed : nat -> Z.
Variable platform_message : exn -> string.
(** [new Date().toISOString().split('T')[0]]: the date of the reply to
    a request without updated_date, as the loader's is. *)
Variable today : string.
Variables since before : Z.
Variable search_api : jsval -> fetch_result.
Variable fetch : string -> fetch_result.
Variable Number : string -> option Z.
Variable Date_UTC : option Z -> option Z -> option Z -> Z -> Z -> Z -> option Z.
Variables utcFullYear utcMonth utcDate : Z.

(** X13: A page request of the loader whose date texts give the window
    (since, before), and whose cursor is a string or null, runs, when
    sent to the handler, the conversations search for the loader's
    admin over that window with the loader's cursor: the upstream search
    is asked for 150 conversations per page, after the cursor the
    previous page gave when there is one and from the start otherwise.
    (Date texts that give no window end in a 500 at line 178, before
    any search.) *)
Theorem loader_request_reaches_search
    (supabaseUrl adminId updatedSince updatedBefore : string) (cursor : jsval) :
  after_first "?" supabaseUrl = None ->
  after_first "#" supabaseUrl = None ->
  adminId <> "" ->
  cursor = JNull \/ (exists tok, cursor = JStr tok) ->
  conversation_window Number Date_getTime Date_UTC utcFullYear utcMonth utcDate
    toISOString JNull (JStr updatedSince) (JStr updatedBefore)
  = Ok (since, before) ->
  let url := edgeFunctionUrl supabaseUrl adminId updatedSince updatedBefore cursor in
  let query :=
    searchQuery adminId since before
      (if truthy cursor then JStr (js_String cursor) else JNull) in
  handle Date_getTime toISOString net elapsed platform_message today since before
    search_api fetch (request_of_url "GET" url)
  = serve Date_getTime toISOString net elapsed platform_message adminId today
      since before (search_api query)
  /\ get_opt (get_opt query "pagination") "per_page" = JNum 150
  /\ (truthy cursor = false ->
      get_opt (get_opt query "pagination") "starting_after" = JUndefined)
  /\ (forall tok, cursor = JStr tok -> tok <> "" ->
      get_opt (get_opt query "pagination") "starting_after" = JStr tok).
Proof.
  intros Hbase Hfrag Hadmin _ _ url query. subst url query.
  rewrite request_of_loader_url by assumption.
  split; [|split; [|split]].
  - unfold handle, route.
    cbn [req_method req_endpoint req_admin_id req_conversation_id
         req_starting_after is_string js_String].
    assert (Ht : truthy (JStr adminId) = true)
      by (destruct adminId; [contradiction|reflexivity]).
    rewrite Ht. reflexivity.
  - unfold searchQuery. destruct (truthy (if truthy cursor then _ else _)); reflexivity.
  - intros Hc. rewrite Hc. reflexivity.
  - intros tok -> Hne. destruct tok; [contradiction|]. reflexivity.
Qed.

End LoaderToHandler.

Lemma loader_request_reaches_search_witness :
  conversation_window no_number day_dates no_utc 2025 10 10 iso_epoch
    JNull (JStr "2025-11-10 00:00:00") (JStr "2025-11-10 23:59:59")
  = Ok (1762740000, 1762826399)
  /\ handle day_dates iso_epoch steady_net fast_clock plain_message "2025-11-10"
       1762740000 1762826399 (fun _ => twenty_search) (fun _ => Rejected)
       (request_of_url "GET"
          (edgeFunctionUrl "https://qms.supabase.co" "8742044"
             "2025-11-10 00:00:00" "2025-11-10 23:59:59"
             (JStr "WzE3NjI3NDgzNTQsMV0=")))
     = serve day_dates iso_epoch steady_net fast_clock plain_message "8742044"
         "2025-11-10" 1762740000 1762826399 twenty_search.
Proof.
  assert (Hw : conversation_window no_number day_dates no_utc 2025 10 10 iso_epoch
                 JNull (JStr "2025-11-10 00:00:00") (JStr "2025-11-10 23:59:59")
               = Ok (1762740000, 1762826399)) by reflexivity.
  split; [exact Hw|].
  apply (loader_request_reaches_search day_dates iso_epoch steady_net fast_clock
           plain_message "2025-11-10" 1762740000 1762826399
           (fun _ => twenty_search) (fun _ => Rejected)
           no_number no_utc 2025 10 10
           "https://qms.supabase.co" "8742044"
           "2025-11-10 00:00:00" "2025-11-10 23:59:59"
           (JStr "WzE3NjI3NDgzNTQsMV0=")).
  - reflexivity.
  - reflexivity.
  - discriminate.
  - right. eexists. reflexivity.
  - exact Hw.
Defined.

(* ================================================================== *)
(** ** Pagination of the table *)

Lemma totalPages_bounds (g : page_state) :
  let n := Z.of_nat (List.length (allConversations g)) in
  20 * (totalPages g - 1) < n <= 20 * totalPages g
  /\ 0 <= totalPages g.
Proof.
  cbv zeta. unfold totalPages, itemsPerPage.
  set (n := Z.of_nat (List.length (allConversations g))).
  assert (Hn : 0 <= n) by (subst n; lia).
  pose proof (Z.div_mod (n + 20 - 1) 20 ltac:(lia)) as Hd.
  pose proof (Z.mod_pos_bound (n + 20 - 1) 20 ltac:(lia)) as Hm.
  lia.
Qed.

Lemma firstn_add (a b : nat) :
  forall l : list jsval,
    firstn (a + b) l = (firstn a l ++ firstn b (skipn a l))%list.
Proof.
  induction a as [|a IH]; intros l; [reflexivity|].
  destruct l as [|x l]; cbn [Nat.add firstn skipn app].
  - rewrite firstn_nil. reflexivity.
  - rewrite IH. reflexivity.
Qed.

(** The rows of page [p + 1] are the chunk of twenty that starts at
    row [20 p]. *)
Lemma pageConversations_chunk (g : page_state) (p : nat) :
  pageConversations (on_page_number g (Z.of_nat (S p)))
  = firstn 20 (skipn (20 * p) (allConversations g)).
Proof.
  unfold pageConversations, slice, endIndex, startIndex, on_page_number, itemsPerPage.
  cbn [allConversations currentPage].
  set (l := allConversations g). set (n := Z.of_nat (List.length l)).
  assert (Hn : n = Z.of_nat (List.length l)) by reflexivity.
  replace ((Z.of_nat (S p) - 1) * 20) with (Z.of_nat (20 * p)) by lia.
  destruct (Z.of_nat (20 * p) <? 0) eqn:E1; [apply Z.ltb_lt in E1; lia|].
  destruct (Z.min (Z.of_nat (20 * p) + 20) n <? 0) eqn:E2;
    [apply Z.ltb_lt in E2; lia|].
  destruct (Nat.le_gt_cases (20 * p) (List.length l)) as [Hle|Hgt].
  - replace (Z.to_nat (Z.min (Z.of_nat (20 * p)) n)) with (20 * p)%nat by lia.
    destruct (Nat.le_gt_cases (20 * p + 20) (List.length l)) as [Hfull|Hpart].
    + f_equal. lia.
    + rewrite !firstn_all2; [reflexivity| |]; rewrite length_skipn; lia.
  - rewrite !skipn_all2 by lia. rewrite !firstn_nil. reflexivity.
Qed.

Lemma chunks_concat (l : list jsval) (k : nat) :
  List.concat (map (fun p => firstn 20 (skipn (20 * p) l)) (seq 0 k)) = firstn (20 * k) l.
Proof.
  induction k as [|k IH]; [reflexivity|].
  rewrite seq_S, map_app, concat_app, IH. cbn [Nat.add map List.concat].
  rewrite app_nil_r. replace (20 * S k)%nat with (20 * k + 20)%nat by lia.
  rewrite firstn_add. reflexivity.
Qed.

(** X14: The pages partition the rows: page 1 up to the last page, one after
    the other, hold every loaded conversation exactly once and in the
    order of arrival, and each of these pages shows at least one row and
    at most twenty. *)
Theorem pages_partition_rows (g : page_state) :
  List.concat (map (fun p => pageConversations (on_page_number g (Z.of_nat p)))
            (seq 1 (Z.to_nat (totalPages g))))
  = allConversations g
  /\ forall p,
       1 <= p <= totalPages g ->
       (1 <= List.length (pageConversations (on_page_number g p)) <= 20)%nat.
Proof.
  destruct (totalPages_bounds g) as [Hb H0]. cbv zeta in Hb. split.
  - rewrite <- seq_shift, map_map.
    rewrite (map_ext _ (fun p => firstn 20 (skipn (20 * p) (allConversations g))))
      by (intros p; apply pageConversations_chunk).
    rewrite chunks_concat. apply firstn_all2. lia.
  - intros p Hp.
    replace p with (Z.of_nat (S (Z.to_nat (p - 1)))) by lia.
    rewrite pageConversations_chunk, length_firstn, length_skipn. lia.
Qed.

Lemma goToPage_in_range (page : Z) (g : page_state) :
  page_in_range g -> page_in_range (goToPage page g).
Proof.
  unfold goToPage, page_in_range. intros H.
  destruct (page <? 1) eqn:E1; cbn [orb]; [exact H|].
  destruct (page >? totalPages g) eqn:E2; [exact H|].
  apply Z.ltb_ge in E1. rewrite Z.gtb_ltb in E2. apply Z.ltb_ge in E2.
  unfold totalPages in *. cbn [currentPage allConversations]. lia.
Qed.

Lemma page_arrival_grows (data : jsval) (g g' : page_state) (l : loop_state)
    (s' : loop_status) :
  page_arrival data g l = Ok (g', s') ->
  currentPage g' = currentPage g
  /\ (exists cs, allConversations g' = (allConversations g ++ cs)%list)
  /\ match s' with
     | Finished l' =>
         isLoadingMore g' = false
         /\ (hasMore l' = false \/ (maxPages <= pageCount l')%nat)
     | Awaiting _ => isLoadingMore g' = isLoadingMore g
     end.
Proof.
  unfold page_arrival. intros H.
  apply bind_Ok in H as ([[g1 l1] brk] & Hon & H). cbn [fst snd] in H.
  assert (Hon' := Hon). unfold on_page in Hon'.
  apply bind_Ok in Hon' as (cs & Hcs & Hrest).
  destruct (on_page_appends _ _ _ _ _ _ _ Hon Hcs) as [Ha Hp].
  assert (Hl : isLoadingMore g1 = isLoadingMore g /\ (brk = true -> hasMore l1 = false)).
  { apply bind_Ok in Hrest as (cur & _ & Hrest).
    repeat match type of Hrest with
           | context [if ?c then _ else _] => destruct c
           end; apply Ok_inj in Hrest; inversion Hrest; subst;
      split; try reflexivity; try discriminate. }
  destruct Hl as [Hl Hbrk].
  destruct brk.
  - apply Ok_inj in H. inversion H; subst g' s'. cbn [finish currentPage allConversations isLoadingMore].
    split; [exact Hp|]. split; [eauto|]. split; [reflexivity|]. left. auto.
  - apply Ok_inj in H. unfold next_turn in H.
    destruct (hasMore l1 && (pageCount l1 <? maxPages)%nat) eqn:E;
      inversion H; subst g' s'.
    + split; [exact Hp|]. split; [eauto|]. exact Hl.
    + cbn [finish currentPage allConversations isLoadingMore].
      split; [exact Hp|]. split; [eauto|]. split; [reflexivity|].
      apply andb_false_iff in E as [E|E]; [left; exact E|right].
      apply Nat.ltb_ge in E. exact E.
Qed.

Lemma totalPages_app (g g' : page_state) (cs : list jsval) :
  allConversations g' = (allConversations g ++ cs)%list ->
  totalPages g <= totalPages g'.
Proof.
  intros H. unfold totalPages, itemsPerPage. rewrite H, length_app.
  apply Z.div_le_mono; lia.
Qed.

(** X15: The current page stays one of the pages there are: a reset puts it
    there, and no call of goToPage with an integer (as the page buttons
    and the handlers of Previous and Next call it), no click on
    Previous or on Next and no arrival of a page (of any loop) moves it
    out. When there are rows, the current page therefore shows some. *)
Theorem currentPage_stays_in_range (g : page_state) :
  page_in_range g ->
  (forall page, page_in_range (goToPage page g))
  /\ page_in_range (prev_click g)
  /\ page_in_range (next_click g)
  /\ page_in_range (fst (loadConversations_begin g))
  /\ (forall data l r, page_arrival data g l = Ok r -> page_in_range (fst r))
  /\ (allConversations g <> [] ->
      (1 <= List.length (pageConversations g) <= 20)%nat).
Proof.
  intros H. split; [|split; [|split; [|split; [|split]]]].
  - intros page. apply goToPage_in_range, H.
  - unfold prev_click. destruct (currentPage g >? 1); [apply goToPage_in_range|]; exact H.
  - unfold next_click.
    destruct (currentPage g <? totalPages g); [apply goToPage_in_range|]; exact H.
  - unfold page_in_range. cbn. lia.
  - intros data l [g' s'] Harr. cbn [fst].
    apply page_arrival_grows in Harr as (Hp & (cs & Ha) & _).
    apply totalPages_app in Ha. unfold page_in_range in *. rewrite Hp. lia.
  - intros Hne.
    destruct (pages_partition_rows g) as [_ Hrows].
    assert (Hg : pageConversations g
                 = pageConversations (on_page_number g (currentPage g)))
      by (destruct g; reflexivity).
    rewrite Hg. apply Hrows.
    destruct (totalPages_bounds g) as [Hb _]. cbv zeta in Hb.
    assert (0 < List.length (allConversations g))%nat
      by (destruct (allConversations g); [contradiction|cbn; lia]).
    unfold page_in_range in H. lia.
Qed.

Lemma currentPage_stays_in_range_witness :
  page_in_range (next_click loading_state)
  /\ (1 <= List.length (pageConversations loaded_state) <= 20)%nat.
Proof.
  assert (H : page_in_range loaded_state) by (vm_compute; split; discriminate).
  assert (H' : page_in_range loading_state) by (vm_compute; split; discriminate).
  split.
  - apply (currentPage_stays_in_range loading_state H').
  - apply (currentPage_stays_in_range loaded_state H). discriminate.
Defined.

Lemma in_buttons (g : page_state) (b : page_button) :
  In b (buttons (shown_controls g)) ->
  1 <= number b <= totalPages g + (if isLoadingMore g then 2 else 0)
  /\ active b = (number b =? currentPage g)
  /\ disabled b = negb (number b <=? totalPages g)
  /\ title b
     = (if isLoadingMore g && (number b >? totalPages g) && (number b <=? totalPages g)
        then "Loading..."
        else if negb (number b <=? totalPages g) then "Page not ready yet" else "").
Proof.
  unfold shown_controls, updatePaginationControls. cbn [buttons].
  intros H. apply in_map_iff in H as (i & <- & Hi). apply in_seq in Hi.
  cbn [number active disabled title].
  destruct (totalPages_bounds g) as [_ H0].
  split; [|repeat split]. destruct (isLoadingMore g); lia.
Qed.

(** X16: The numbered buttons, as displayConversations draws them when
    there is a row (with no row it draws none): 1 up to the last page
    that has rows, and two more while a load is running. A button is
    enabled exactly when its page has rows, and then a click shows that
    page; the others are titled not ready. No button is ever titled
    Loading. *)
Theorem numbered_buttons (g : page_state) :
  allConversations g <> [] ->
  map number (buttons (shown_controls g))
  = map Z.of_nat
      (seq 1 (Z.to_nat (totalPages g + (if isLoadingMore g then 2 else 0))))
  /\ forall b,
       In b (buttons (shown_controls g)) ->
       title b <> "Loading..."
       /\ (disabled b = false <-> number b <= totalPages g)
       /\ (disabled b = true -> title b = "Page not ready yet")
       /\ (active b = true <-> number b = currentPage g)
       /\ (disabled b = false -> currentPage (goToPage (number b) g) = number b).
Proof.
  intros _. split.
  - unfold shown_controls, updatePaginationControls. cbn [buttons].
    rewrite map_map. cbn [number].
    destruct (totalPages_bounds g) as [_ H0].
    destruct (isLoadingMore g); do 2 f_equal; lia.
  - intros b Hb. apply in_buttons in Hb as (Hn & Ha & Hd & Ht).
    rewrite Ha, Hd, Ht.
    destruct (number b <=? totalPages g) eqn:E.
    + apply Z.leb_le in E.
      assert (Hgt : (number b >? totalPages g) = false)
        by (rewrite Z.gtb_ltb; apply Z.ltb_ge; exact E).
      rewrite Hgt, andb_false_r. cbn [andb negb].
      split; [discriminate|]. split; [tauto|]. split; [discriminate|].
      split; [apply Z.eqb_eq|]. intros _. unfold goToPage.
      assert (H1 : (number b <? 1) = false) by (apply Z.ltb_ge; lia).
      rewrite H1, Hgt. reflexivity.
    + apply Z.leb_gt in E. rewrite andb_false_r. cbn [negb].
      split; [discriminate|]. split; [split; [discriminate|lia]|].
      split; [reflexivity|]. split; [apply Z.eqb_eq|discriminate].
Qed.

Lemma numbered_buttons_witness :
  allConversations loading_state <> []
  /\ map number (buttons (shown_controls loading_state)) = [1; 2; 3; 4].
Proof.
  assert (H : allConversations loading_state <> []) by discriminate.
  split; [exact H|].
  destruct (numbered_buttons loading_state H) as [Hn _].
  rewrite Hn. reflexivity.
Defined.

(** X17: What Previous and Next do on a page that is in range: an enabled
    Previous goes one page back, an enabled Next that does not read
    Loading goes one page on, and a click on Next while it reads Loading
    (it is enabled then) changes nothing, as does a click on a disabled
    button. *)
Theorem enabled_controls_navigate (g : page_state) :
  page_in_range g ->
  let c := shown_controls g in
  (prev_disabled c = false -> currentPage (prev_click g) = currentPage g - 1)
  /\ (prev_disabled c = true -> prev_click g = g)
  /\ (next_disabled c = false -> next_loading c = false ->
      currentPage (next_click g) = currentPage g + 1)
  /\ (next_loading c = true -> next_disabled c = false /\ next_click g = g)
  /\ (next_disabled c = true -> next_click g = g).
Proof.
  intros H. cbv zeta. unfold page_in_range in H.
  unfold shown_controls, updatePaginationControls.
  cbn [prev_disabled next_disabled next_loading].
  destruct (totalPages_bounds g) as [_ H0].
  unfold prev_click, next_click, goToPage.
  destruct (currentPage g =? 1) eqn:E1;
    [apply Z.eqb_eq in E1|apply Z.eqb_neq in E1];
    (destruct (currentPage g >? 1) eqn:E2;
     [rewrite Z.gtb_ltb in E2; apply Z.ltb_lt in E2
     |rewrite Z.gtb_ltb in E2; apply Z.ltb_ge in E2]); try lia;
    (destruct (currentPage g >=? totalPages g) eqn:E3;
     [rewrite Z.geb_leb in E3; apply Z.leb_le in E3
     |rewrite Z.geb_leb in E3; apply Z.leb_gt in E3]);
    (destruct (currentPage g <? totalPages g) eqn:E4;
     [apply Z.ltb_lt in E4|apply Z.ltb_ge in E4]); try lia;
    (destruct (totalPages g =? 0) eqn:E5;
     [apply Z.eqb_eq in E5|apply Z.eqb_neq in E5]); try lia;
    destruct (isLoadingMore g); cbn [andb orb negb];
    repeat match goal with
           | |- context [?a <? ?b] =>
               let E := fresh "E" in
               destruct (a <? b) eqn:E;
               [apply Z.ltb_lt in E|apply Z.ltb_ge in E]; try lia
           | |- context [?a >? ?b] =>
               let E := fresh "E" in
               destruct (a >? b) eqn:E;
               [rewrite Z.gtb_ltb in E; apply Z.ltb_lt in E
               |rewrite Z.gtb_ltb in E; apply Z.ltb_ge in E]; try lia
           end;
    cbn [orb currentPage];
    repeat split; intros; try discriminate; try reflexivity; try lia.
Qed.

Lemma enabled_controls_navigate_witness :
  currentPage (prev_click loaded_state) = 1
  /\ next_click loading_state = loading_state.
Proof.
  assert (H : page_in_range loaded_state) by (vm_compute; split; discriminate).
  assert (H' : page_in_range loading_state) by (vm_compute; split; discriminate).
  split.
  - destruct (enabled_controls_navigate loaded_state H) as (Hprev & _).
    apply Hprev. reflexivity.
  - destruct (enabled_controls_navigate loading_state H') as (_ & _ & _ & Hnext & _).
    apply Hnext. reflexivity.
Defined.

(* ================================================================== *)
(** ** A whole load *)

Lemma complete_page_kept (l added : list jsval) (p : nat) :
  (20 * p + 20 <= List.length l)%nat ->
  firstn 20 (skipn (20 * p) (l ++ added)) = firstn 20 (skipn (20 * p) l).
Proof.
  intros H. rewrite skipn_app, firstn_app, length_skipn.
  replace (20 - (List.length l - 20 * p))%nat with 0%nat by lia.
  cbn [firstn]. apply app_nil_r.
Qed.

Lemma complete_pages_stable (g g' : page_state) (added : list jsval) (p : Z) :
  allConversations g' = (allConversations g ++ added)%list ->
  1 <= p ->
  20 * p <= Z.of_nat (List.length (allConversations g)) ->
  pageConversations (on_page_number g' p) = pageConversations (on_page_number g p).
Proof.
  intros Ha Hp Hfull.
  replace p with (Z.of_nat (S (Z.to_nat (p - 1)))) by lia.
  rewrite !pageConversations_chunk, Ha. apply complete_page_kept. lia.
Qed.

Section LoaderMore.

Variable server : nat -> jsval -> fetch_result.

Lemma run_loop_result (fuel : nat) :
  forall g l g' l',
    run_loop server fuel g (Awaiting l) = Ok (g', l') ->
    isLoadingMore g' = false
    /\ currentPage g' = currentPage g
    /\ (exists added, allConversations g' = (allConversations g ++ added)%list)
    /\ (hasMore l' = false \/ (maxPages <= pageCount l')%nat).
Proof.
  induction fuel as [|fuel IH]; intros g l g' l' H; [discriminate|].
  cbn [run_loop] in H.
  apply bind_Ok in H as (data & _ & H).
  apply bind_Ok in H as ([g1 s1] & Harr & H). cbn [fst snd] in H.
  apply page_arrival_grows in Harr as (Hp & (cs & Ha) & Hs).
  destruct s1 as [l1|l1].
  - apply IH in H as (Hl & Hp' & (added & Ha') & Hh).
    split; [exact Hl|]. split; [congruence|]. split; [|exact Hh].
    exists (cs ++ added)%list. rewrite Ha', Ha, app_assoc. reflexivity.
  - destruct fuel; cbn [run_loop] in H; apply Ok_inj in H; inversion H; subst g' l';
      destruct Hs as [Hl Hh]; (split; [exact Hl|]); (split; [exact Hp|]);
      (split; [eauto|exact Hh]).
Qed.

(** X18: A load that comes to its end leaves the loading flag off and has
    stopped for a reason (no further page announced, or the cap of 100
    pages reached). It never moves the current page, only adds rows
    after those already there, and so leaves the rows of every page
    that was complete as they were. *)
Theorem load_only_appends (fuel : nat) (g g' : page_state) (l' : loop_state) :
  fetchConversationsProgressively server fuel g = Ok (g', l') ->
  isLoadingMore g' = false
  /\ (hasMore l' = false \/ (maxPages <= pageCount l')%nat)
  /\ currentPage g' = currentPage g
  /\ (exists added, allConversations g' = (allConversations g ++ added)%list)
  /\ totalPages g <= totalPages g'
  /\ forall p,
       1 <= p -> 20 * p <= Z.of_nat (List.length (allConversations g)) ->
       pageConversations (on_page_number g' p) = pageConversations (on_page_number g p).
Proof.
  unfold fetchConversationsProgressively, enter_loop, next_turn.
  cbn [hasMore pageCount andb fst snd].
  change ((0 <? maxPages)%nat) with true. cbv iota. cbn [fst snd].
  intros H. apply run_loop_result in H as (Hl & Hp & (added & Ha) & Hh).
  cbn [currentPage allConversations] in Hp, Ha.
  split; [exact Hl|]. split; [exact Hh|]. split; [exact Hp|].
  split; [eauto|]. split; [eapply totalPages_app, Ha|].
  intros p H1 H2. eapply complete_pages_stable; eauto.
Qed.

End LoaderMore.

Lemma two_page_run :
  fetchConversationsProgressively two_page_server maxPages idle_page
  = Ok two_page_load.
Proof. vm_compute. reflexivity. Qed.

Lemma load_only_appends_witness :
  isLoadingMore (fst two_page_load) = false
  /\ currentPage (fst two_page_load) = 1
  /\ List.length (allConversations (fst two_page_load)) = 3%nat.
Proof.
  destruct (load_only_appends two_page_server maxPages idle_page
              (fst two_page_load) (snd two_page_load) two_page_run)
    as (Hl & _ & Hp & _).
  split; [exact Hl|]. split; [exact Hp|reflexivity].
Defined.

(* ================================================================== *)
(** ** The rating column *)

(** X19: Whatever a conversation carries as its rating, the rating cell
    shows five stars: none filled and no number when the conversation
    has no rating from 1 to 5, and otherwise as many filled stars as the
    rating says, first, followed by the rating with one decimal. *)
Theorem rating_cell_has_five_stars (conversation : jsval) (rating : option Z) :
  getConversationRating conversation = Ok rating ->
  List.length (stars (generateStarRating rating)) = 5%nat
  /\ match rating with
     | None => generateStarRating rating = mkStars (repeat false 5) None
     | Some n =>
         1 <= n <= 5
         /\ generateStarRating rating
            = mkStars (repeat true (Z.to_nat n) ++ repeat false (Z.to_nat (5 - n)))%list
                (Some (Z_to_string n ++ ".0"))
     end.
Proof.
  unfold getConversationRating. intros H.
  apply bind_Ok in H as (cr & _ & H).
  assert (Hr : rating = None \/ exists n, rating = Some n /\ 1 <= n <= 5).
  { destruct (truthy (get_opt cr "rating")); [|apply Ok_inj in H; auto].
    destruct (parseInt _) as [n|]; [|apply Ok_inj in H; auto].
    destruct (n >=? 1) eqn:E1; cbn [andb] in H; [|apply Ok_inj in H; auto].
    destruct (n <=? 5) eqn:E2; apply Ok_inj in H; auto.
    right. exists n. rewrite Z.geb_leb in E1.
    apply Z.leb_le in E1. apply Z.leb_le in E2. auto. }
  destruct Hr as [->|(n & -> & Hn)].
  - split; reflexivity.
  - unfold generateStarRating.
    assert (E : (n =? 0) = false) by (apply Z.eqb_neq; lia). rewrite E.
    cbn [stars]. rewrite length_app, !repeat_length.
    split; [lia|]. split; [exact Hn|reflexivity].
Qed.

Lemma rating_cell_has_five_stars_witness :
  stars (generateStarRating (Some 4)) = [true; true; true; true; false].
Proof.
  destruct (rating_cell_has_five_stars rated_conversation (Some 4) eq_refl)
    as (_ & _ & H).
  rewrite H. reflexivity.
Defined.
